(** * PySpectrogram: the signal-acquisition and spectral-estimation worker

    A shallow embedding of [AudioProcessor.py]: the settings computation
    ([calc_settings], [changethresholds]), the estimator ([dofft]), the
    termination path ([terminate], [abort]), the constructor, the
    cadence loop of [run] with the hardware callback, and the device list
    ([listaudiodevices]); and of the data source string that [main.py]
    writes for the constructor.

    Numbers.  Python floats that only go through [+], [*], [/], comparison
    and rounding (window length, cadence, taper parameter, sample times,
    frequency resolution) are rationals [Q], so that the settings and the
    loop evaluate.  The spectra need cosines, square roots and logarithms:
    they live in the reals [R], extended by the IEEE special values that
    numpy produces ([fval]).  Rounding error and overflow of binary64 are
    not modelled there.  Where the rounding of binary64 decides an integer
    that the worker stores, the FFT length [N], the computation is also
    given in IEEE arithmetic (module [Binary64]), together with the
    resolution [df] as the double that Python's division returns. *)

From Stdlib Require Import String.
From Stdlib Require Import ZArith QArith Qround Reals Qreals List Bool.
From Stdlib Require Import Floats.SpecFloat.
From Stdlib Require Import Sorted.
From Stdlib Require Import Ascii DecimalString DecimalZ DecimalPos.
From Stdlib Require Import Lia Lqa.
Import ListNotations.

Local Open Scope Z_scope.

(** ** The numpy primitives the worker calls *)

Module NumPy.

(** [np.round] on a scalar: round to nearest, ties to the even integer. *)
Definition np_round (x : Q) : Z :=
  let f := Qfloor x in
  match Qcompare (x - inject_Z f) (1 # 2) with
  | Lt => f
  | Gt => f + 1
  | Eq => if Z.even f then f else f + 1
  end.

Definition Qltb (a b : Q) : bool := negb (Qle_bool b a).

(** [np.arange(0, stop, step)]: [ceil(stop/step)] points [k*step]; a zero
    step raises ([ZeroDivisionError], from the division by the step).
    The quotient and the products are exact here; numpy rounds them, which
    can add or remove the last point and moves the others by a rounding
    error. *)
Definition arange (stop step : Q) : option (list Q) :=
  if Qeq_bool step 0 then None
  else Some (map (fun k => inject_Z (Z.of_nat k) * step)%Q
                 (seq 0 (Z.to_nat (Qceiling (stop / step))))).

(** A binary64 value: a real number or one of the special values. *)
Inductive fval : Type :=
| Fin (x : R)
| PInf
| NInf
| NaN.

Definition isinf (v : fval) : bool :=
  match v with
  | PInf | NInf => true
  | _ => false
  end.

Definition is_finite (v : fval) : bool :=
  match v with
  | Fin _ => true
  | _ => false
  end.

(** Division of a real by a float scalar, with numpy's results for a zero
    divisor ([x/0] is [nan] for [x = 0] and an infinity otherwise). *)
Definition np_div (x d : R) : fval :=
  if Req_dec_T d 0 then
    if Req_dec_T x 0 then NaN
    else if Rlt_dec 0 x then PInf else NInf
  else Fin (x / d).

(** [np.log10]: minus infinity at zero, [nan] below. *)
Definition log10 (v : fval) : fval :=
  match v with
  | Fin x =>
      if Rlt_dec 0 x then Fin (ln x / ln 10)
      else if Req_dec_T x 0 then NInf else NaN
  | PInf => PInf
  | NInf => NaN
  | NaN => NaN
  end.

(** Complex numbers as pairs (real part, imaginary part). *)
Definition complex : Type := (R * R)%type.

Definition C0 : complex := (0%R, 0%R).
Definition Cadd (a b : complex) : complex :=
  (fst a + fst b, snd a + snd b)%R.
Definition Cmul (a b : complex) : complex :=
  (fst a * fst b - snd a * snd b, fst a * snd b + snd a * fst b)%R.
Definition Cscale (x : R) (a : complex) : complex :=
  (x * fst a, x * snd a)%R.
Definition Cabs (a : complex) : R :=
  sqrt (fst a * fst a + snd a * snd a).

(** [exp(-2 pi i j / n)] *)
Definition twiddle (n j : nat) : complex :=
  (cos (2 * PI * INR j / INR n), - sin (2 * PI * INR j / INR n))%R.

Definition dft_bin (x : list R) (k : nat) : complex :=
  fold_right Cadd C0
    (map (fun mx => Cscale (snd mx) (twiddle (length x) (fst mx * k)))
         (combine (seq 0 (length x)) x)).

(** [np.fft.fft] of a one-dimensional array; an empty array raises. *)
Definition fft (x : list R) : option (list complex) :=
  match x with
  | [] => None
  | _ => Some (map (dft_bin x) (seq 0 (length x)))
  end.

(** Elementwise product of two one-dimensional arrays with numpy's
    broadcasting: equal lengths, or one operand of length one; any other
    pair of shapes raises. *)
Definition np_mul (a b : list R) : option (list R) :=
  if Nat.eqb (length a) (length b) then
    Some (map (fun p => (fst p * snd p)%R) (combine a b))
  else
    match a, b with
    | [x], _ => Some (map (fun y => (x * y)%R) b)
    | _, [y] => Some (map (fun x => (x * y)%R) a)
    | _, _ => None
    end.

(** Boolean-mask indexing [a[mask]]: the mask must have the length of
    the array. *)
Fixpoint select {A : Type} (a : list A) (mask : list bool) : list A :=
  match a, mask with
  | x :: a', b :: mask' =>
      if b then x :: select a' mask' else select a' mask'
  | _, _ => []
  end.

Definition np_mask {A : Type} (a : list A) (mask : list bool)
  : option (list A) :=
  if Nat.eqb (length a) (length mask) then Some (select a mask) else None.

(** A Python slice bound resolved against a sequence of length [len]: a
    negative bound counts from the end and is clipped at zero. *)
Definition slice_bound (len : nat) (i : Z) : Z :=
  if i <? 0 then Z.max 0 (i + Z.of_nat len) else i.

(** Python slice [l[a:b]]. *)
Definition slice {A : Type} (a b : Z) (l : list A) : list A :=
  let a' := slice_bound (length l) a in
  let b' := slice_bound (length l) b in
  firstn (Z.to_nat (b' - a')) (skipn (Z.to_nat a') l).

(** Python slice [l[-n:]]: the last [n] items for [n > 0], the whole list
    for [n = 0], and [l[|n|:]] for [n < 0]. *)
Definition tail_slice {A : Type} (n : Z) (l : list A) : list A :=
  skipn (Z.to_nat (slice_bound (length l) (- n))) l.

End NumPy.

Import NumPy.

(** ** Binary64

    The arithmetic of Python floats on the two assignments of
    [calc_settings] whose result depends on rounding: doubles are the
    [spec_float] of the standard library at precision 53 and exponent
    bound 1024, every operation rounds to nearest, ties to even. *)

Module Binary64.

Definition prec : Z := 53.
Definition emax : Z := 1024.

(** An operation of Python that would return an infinity or a [nan] from
    finite operands raises instead ([OverflowError], [ValueError]). *)
Definition finite_or_raise (x : spec_float) : option spec_float :=
  match x with
  | S754_infinity _ | S754_nan => None
  | _ => Some x
  end.

(** [float(z)] of a Python int, as in the product of an int and a float:
    the nearest double. *)
Definition of_int (z : Z) : option spec_float :=
  finite_or_raise (binary_normalize prec emax z 0 false).

(** An integer as an unrounded operand. *)
Definition exact_int (z : Z) : spec_float :=
  match z with
  | 0 => S754_zero false
  | Z.pos p => S754_finite false p 0
  | Z.neg p => S754_finite true p 0
  end.

(** [a / b] of two Python ints: the double nearest to the quotient;
    [ZeroDivisionError] for [b = 0]. *)
Definition int_truediv (a b : Z) : option spec_float :=
  if b =? 0 then None
  else finite_or_raise (SFdiv prec emax (exact_int a) (exact_int b)).

(** The number that a finite double stands for. *)
Definition value (x : spec_float) : option Q :=
  match x with
  | S754_zero _ => Some 0%Q
  | S754_finite s m e =>
      Some ((if s then - inject_Z (Z.pos m) else inject_Z (Z.pos m)) * 2 ^ e)%Q
  | _ => None
  end.

(** [int(np.round(x))] of a double. *)
Definition round_int (x : spec_float) : option Z :=
  option_map np_round (value x).

(** The first assignments of [calc_settings]:
    [N = int(np.round(fs * fftwindow))], made even. *)
Definition calc_settings_N (fs : Z) (fftwindow : spec_float) : option Z :=
  match of_int fs with
  | None => None
  | Some x =>
      match round_int (SFmul prec emax x fftwindow) with
      | None => None
      | Some r => Some (if negb (r mod 2 =? 0) then r + 1 else r)
      end
  end.

(** [df = fs / N] of [calc_settings]. *)
Definition calc_settings_df (fs N : Z) : option spec_float :=
  int_truediv fs N.

(** The double that Python reads from a decimal literal [n / 10^k], such
    as [0.05]: the double nearest to it. *)
Definition decimal (n : Z) (k : nat) : option spec_float :=
  int_truediv n (10 ^ Z.of_nat k).

End Binary64.

(** ** Library calls outside the repository

    [tukey] is [scipy.signal.tukey(M, alpha)] ([None] when it raises);
    [pa_stop_close] is PyAudio's [stop_stream] followed by [close] on a
    stream that exists ([None] when one of them raises). *)

Inductive stream_state : Type :=
| NoStream      (* the attribute [self.stream] was never assigned *)
| StreamOpen
| StreamClosed.

Class Lib : Type := {
  tukey : Z -> Q -> option (list R);
  pa_stop_close : stream_state -> option stream_state
}.

(** ** Worker state *)

(** The three Qt signals of [ThreadProcessorSignals], with their payload. *)
Inductive signal : Type :=
| Iterated (i maxnum tab : Z) (ctime : Q) (spectra : list fval)
| StatsUpdated (tab fs : Z) (df : Q) (N : Z) (freqs : list Q)
| Terminated (tab reason : Z).

(** The attributes of an [AudioProcessor] object.  [signals] is the log of
    what was emitted so far, oldest first.  Attributes that Python creates
    on first assignment ([N], [df], [taper], ...) hold a default before
    that; [run] assigns them through [changethresholds] before it reads
    them. *)
Record worker : Type := mkWorker {
  tabID : Z;
  starttime : Q;
  fftwindow : Q;
  dt : Q;
  alpha : Q;
  isrunning : bool;
  reason : Z;
  fromAudio : bool;
  fs : Z;
  audiostream : list Z;
  lensignal : Z;
  stream : stream_state;
  N : Z;
  taper : list R;
  taperlen : Z;
  df : Q;
  freqs_all : list Q;
  keepind : list bool;
  freqs : list Q;
  sampletimes : list Q;
  maxnum : Z;
  signals : list signal
}.

Definition set_fftwindow (v : Q) (w : worker) : worker :=
  mkWorker (tabID w) (starttime w) v (dt w) (alpha w) (isrunning w)
    (reason w) (fromAudio w) (fs w) (audiostream w) (lensignal w)
    (stream w) (N w) (taper w) (taperlen w) (df w) (freqs_all w)
    (keepind w) (freqs w) (sampletimes w) (maxnum w) (signals w).

Definition set_dt (v : Q) (w : worker) : worker :=
  mkWorker (tabID w) (starttime w) (fftwindow w) v (alpha w) (isrunning w)
    (reason w) (fromAudio w) (fs w) (audiostream w) (lensignal w)
    (stream w) (N w) (taper w) (taperlen w) (df w) (freqs_all w)
    (keepind w) (freqs w) (sampletimes w) (maxnum w) (signals w).

Definition set_alpha (v : Q) (w : worker) : worker :=
  mkWorker (tabID w) (starttime w) (fftwindow w) (dt w) v (isrunning w)
    (reason w) (fromAudio w) (fs w) (audiostream w) (lensignal w)
    (stream w) (N w) (taper w) (taperlen w) (df w) (freqs_all w)
    (keepind w) (freqs w) (sampletimes w) (maxnum w) (signals w).

Definition set_isrunning (v : bool) (w : worker) : worker :=
  mkWorker (tabID w) (starttime w) (fftwindow w) (dt w) (alpha w) v
    (reason w) (fromAudio w) (fs w) (audiostream w) (lensignal w)
    (stream w) (N w) (taper w) (taperlen w) (df w) (freqs_all w)
    (keepind w) (freqs w) (sampletimes w) (maxnum w) (signals w).

Definition set_reason (v : Z) (w : worker) : worker :=
  mkWorker (tabID w) (starttime w) (fftwindow w) (dt w) (alpha w)
    (isrunning w) v (fromAudio w) (fs w) (audiostream w) (lensignal w)
    (stream w) (N w) (taper w) (taperlen w) (df w) (freqs_all w)
    (keepind w) (freqs w) (sampletimes w) (maxnum w) (signals w).

Definition set_audiostream (v : list Z) (w : worker) : worker :=
  mkWorker (tabID w) (starttime w) (fftwindow w) (dt w) (alpha w)
    (isrunning w) (reason w) (fromAudio w) (fs w) v (lensignal w)
    (stream w) (N w) (taper w) (taperlen w) (df w) (freqs_all w)
    (keepind w) (freqs w) (sampletimes w) (maxnum w) (signals w).

Definition set_stream (v : stream_state) (w : worker) : worker :=
  mkWorker (tabID w) (starttime w) (fftwindow w) (dt w) (alpha w)
    (isrunning w) (reason w) (fromAudio w) (fs w) (audiostream w)
    (lensignal w) v (N w) (taper w) (taperlen w) (df w) (freqs_all w)
    (keepind w) (freqs w) (sampletimes w) (maxnum w) (signals w).

Definition set_N (v : Z) (w : worker) : worker :=
  mkWorker (tabID w) (starttime w) (fftwindow w) (dt w) (alpha w)
    (isrunning w) (reason w) (fromAudio w) (fs w) (audiostream w)
    (lensignal w) (stream w) v (taper w) (taperlen w) (df w) (freqs_all w)
    (keepind w) (freqs w) (sampletimes w) (maxnum w) (signals w).

Definition set_taper (v : list R) (w : worker) : worker :=
  mkWorker (tabID w) (starttime w) (fftwindow w) (dt w) (alpha w)
    (isrunning w) (reason w) (fromAudio w) (fs w) (audiostream w)
    (lensignal w) (stream w) (N w) v (taperlen w) (df w) (freqs_all w)
    (keepind w) (freqs w) (sampletimes w) (maxnum w) (signals w).

Definition set_taperlen (v : Z) (w : worker) : worker :=
  mkWorker (tabID w) (starttime w) (fftwindow w) (dt w) (alpha w)
    (isrunning w) (reason w) (fromAudio w) (fs w) (audiostream w)
    (lensignal w) (stream w) (N w) (taper w) v (df w) (freqs_all w)
    (keepind w) (freqs w) (sampletimes w) (maxnum w) (signals w).

Definition set_df (v : Q) (w : worker) : worker :=
  mkWorker (tabID w) (starttime w) (fftwindow w) (dt w) (alpha w)
    (isrunning w) (reason w) (fromAudio w) (fs w) (audiostream w)
    (lensignal w) (stream w) (N w) (taper w) (taperlen w) v (freqs_all w)
    (keepind w) (freqs w) (sampletimes w) (maxnum w) (signals w).

Definition set_freqs_all (v : list Q) (w : worker) : worker :=
  mkWorker (tabID w) (starttime w) (fftwindow w) (dt w) (alpha w)
    (isrunning w) (reason w) (fromAudio w) (fs w) (audiostream w)
    (lensignal w) (stream w) (N w) (taper w) (taperlen w) (df w) v
    (keepind w) (freqs w) (sampletimes w) (maxnum w) (signals w).

Definition set_keepind (v : list bool) (w : worker) : worker :=
  mkWorker (tabID w) (starttime w) (fftwindow w) (dt w) (alpha w)
    (isrunning w) (reason w) (fromAudio w) (fs w) (audiostream w)
    (lensignal w) (stream w) (N w) (taper w) (taperlen w) (df w)
    (freqs_all w) v (freqs w) (sampletimes w) (maxnum w) (signals w).

Definition set_freqs (v : list Q) (w : worker) : worker :=
  mkWorker (tabID w) (starttime w) (fftwindow w) (dt w) (alpha w)
    (isrunning w) (reason w) (fromAudio w) (fs w) (audiostream w)
    (lensignal w) (stream w) (N w) (taper w) (taperlen w) (df w)
    (freqs_all w) (keepind w) v (sampletimes w) (maxnum w) (signals w).

Definition set_sampletimes (v : list Q) (w : worker) : worker :=
  mkWorker (tabID w) (starttime w) (fftwindow w) (dt w) (alpha w)
    (isrunning w) (reason w) (fromAudio w) (fs w) (audiostream w)
    (lensignal w) (stream w) (N w) (taper w) (taperlen w) (df w)
    (freqs_all w) (keepind w) (freqs w) v (maxnum w) (signals w).

Definition set_maxnum (v : Z) (w : worker) : worker :=
  mkWorker (tabID w) (starttime w) (fftwindow w) (dt w) (alpha w)
    (isrunning w) (reason w) (fromAudio w) (fs w) (audiostream w)
    (lensignal w) (stream w) (N w) (taper w) (taperlen w) (df w)
    (freqs_all w) (keepind w) (freqs w) (sampletimes w) v (signals w).

Definition set_signals (v : list signal) (w : worker) : worker :=
  mkWorker (tabID w) (starttime w) (fftwindow w) (dt w) (alpha w)
    (isrunning w) (reason w) (fromAudio w) (fs w) (audiostream w)
    (lensignal w) (stream w) (N w) (taper w) (taperlen w) (df w)
    (freqs_all w) (keepind w) (freqs w) (sampletimes w) (maxnum w) v.


(** ** Statements that may raise: a state monad with exceptions

    A raised exception keeps the attribute writes made before it. *)

Inductive exn : Type :=
| ZeroDivisionError
| ValueError
| IndexError
| AttributeError
| FileNotFoundError
| OSError
| WaveError.

Inductive result (A : Type) : Type :=
| Ok (a : A)
| Raise (e : exn).
Arguments Ok {A} a.
Arguments Raise {A} e.

Definition M (A : Type) : Type := worker -> result A * worker.

Definition ret {A : Type} (a : A) : M A := fun w => (Ok a, w).

Definition bind {A B : Type} (m : M A) (k : A -> M B) : M B :=
  fun w =>
    match m w with
    | (Ok a, w') => k a w'
    | (Raise e, w') => (Raise e, w')
    end.

Definition raise {A : Type} (e : exn) : M A := fun w => (Raise e, w).

Definition get : M worker := fun w => (Ok w, w).

Definition modify (f : worker -> worker) : M unit := fun w => (Ok tt, f w).

(** [try: m except Exception: h] *)
Definition try_except {A : Type} (m : M A) (h : M A) : M A :=
  fun w =>
    match m w with
    | (Ok a, w') => (Ok a, w')
    | (Raise _, w') => h w'
    end.

Definition lift {A : Type} (e : exn) (o : option A) : M A :=
  match o with
  | Some a => ret a
  | None => raise e
  end.

Definition emit (s : signal) : M unit :=
  modify (fun w => set_signals (signals w ++ [s]) w).

Declare Scope py_scope.
Delimit Scope py_scope with py.
Notation "x <- m ;; k" := (bind m (fun x => k))
  (at level 61, m at next level, right associativity) : py_scope.
Notation "m ;;; k" := (bind m (fun _ => k))
  (at level 61, right associativity) : py_scope.
Local Open Scope py_scope.

(** ** The methods of [AudioProcessor] *)

Section Worker.

Context {lib : Lib}.

(** [range(n)] *)
Definition range (n : Z) : list Z := map Z.of_nat (seq 0 (Z.to_nat n)).

(** The floor that [dofft] writes over infinite PSD values. *)
Definition psd_floor : R := (1 / 100000000)%R.

(** [calc_settings]: derives [N], the taper, [df], the bin frequencies and
    the mask of kept bins from [fs], [fftwindow] and [alpha], and publishes
    them with [statsupdated].  The product and the quotient are exact
    here; [Binary64.calc_settings_N] and [Binary64.calc_settings_df] give
    them as the code rounds them. *)
Definition calc_settings : M unit :=
  w0 <- get ;;
  let N0 := np_round (inject_Z (fs w0) * fftwindow w0) in
  let N1 := if negb (N0 mod 2 =? 0) then N0 + 1 else N0 in
  modify (set_N N1) ;;;
  (if Qltb 0 (alpha w0) then
     tp <- lift ValueError (tukey N1 (alpha w0)) ;;
     modify (set_taper tp) ;;;
     modify (set_taperlen (Z.of_nat (length tp)))
   else modify (set_taperlen 0)) ;;;
  (if N1 =? 0 then raise ZeroDivisionError else ret tt) ;;;
  let df1 := (inject_Z (fs w0) / inject_Z N1)%Q in
  modify (set_df df1) ;;;
  let fa :=
    map (fun n => if Qltb (inject_Z n) (inject_Z N1 / 2)
                  then (df1 * inject_Z n)%Q
                  else (df1 * inject_Z (n - N1))%Q) (range N1) in
  modify (set_freqs_all fa) ;;;
  let keep := map (fun f => Qle_bool 0 f) fa in
  modify (set_keepind keep) ;;;
  let fr := select fa keep in
  modify (set_freqs fr) ;;;
  emit (StatsUpdated (tabID w0) (fs w0) df1 N1 fr).

(** [changethresholds(fftwindow, dt, alpha)] *)
Definition changethresholds (fftwindow' dt' alpha' : Q) : M unit :=
  (if Qle_bool fftwindow' 1 then modify (set_fftwindow fftwindow')
   else modify (set_fftwindow 1)) ;;;
  modify (set_dt dt') ;;;
  (if Qltb 1 alpha' then modify (set_alpha 1)
   else if Qltb alpha' 0 then modify (set_alpha 0)
   else modify (set_alpha alpha')) ;;;
  calc_settings.

Definition changethresholds_slot (fftwindow' dt' alpha' : Q) : M unit :=
  changethresholds fftwindow' dt' alpha'.

(** [terminate(reason)] *)
Definition terminate (reason' : Z) : M unit :=
  modify (set_reason reason') ;;;
  modify (set_isrunning false) ;;;
  w <- get ;;
  (if negb (fromAudio w) then
     match stream w with
     | NoStream => raise AttributeError
     | s => s' <- lift OSError (pa_stop_close s) ;; modify (set_stream s')
     end
   else ret tt) ;;;
  emit (Terminated (tabID w) reason').

(** [abort()] *)
Definition abort : M unit := terminate 0.

(** The PSD of one FFT bin: [|X^2| / df]. *)
Definition psd (df' : Q) (z : complex) : fval :=
  np_div (Cabs (Cmul z z)) (Q2R df').

(** [spectra[np.isinf(spectra)] = 1.0E-8] on one element. *)
Definition replace_inf (v : fval) : fval :=
  if isinf v then Fin psd_floor else v.

(** [dofft(pcmdata)] *)
Definition dofft (pcmdata : list Z) : M (list fval) :=
  w0 <- get ;;
  let x := map IZR pcmdata in
  x' <- (if Qltb 0 (alpha w0) then
           (if Z.of_nat (length pcmdata) =? taperlen w0 then ret tt
            else tp <- lift ValueError
                         (tukey (Z.of_nat (length pcmdata)) (alpha w0)) ;;
                 modify (set_taper tp)) ;;;
           w1 <- get ;;
           lift ValueError (np_mul x (taper w1))
         else ret x) ;;
  X <- lift ValueError (fft x') ;;
  let spectra := map replace_inf (map (psd (df w0)) X) in
  kept <- lift IndexError (np_mask spectra (keepind w0)) ;;
  ret (map log10 kept).

(** *** The constructor *)

(** The source descriptor after the constructor has decoded the string
    [datasource]: ['AAA-<channel>-<path>'], ['MMM-<device index>'], or
    anything else. *)
Inductive source : Type :=
| FileSource (chnum : Z) (audiofile : string)
| DeviceSource (audiosourceindex : Z)
| OtherSource.

(** What [scipy.io.wavfile.read] returns besides the rate: a one-channel
    file gives a one-dimensional array, any other a column per channel. *)
Inductive wavdata : Type :=
| Mono (samples : list Z)
| Multi (channels : list (list Z)).

(** The world outside the worker: the file system, the audio devices, and
    whether PyAudio can open the input stream. *)
Record env : Type := mkEnv {
  file_exists : string -> bool;
  wav_read : string -> option (Z * wavdata);
  default_rate : Z -> option Q;
  stream_opens : bool
}.

(** [snd[:, chnum-1]] for a positive [chnum], [snd] itself otherwise.  The
    model keeps one-dimensional buffers: a file of several channels read
    with [chnum <= 0] is taken at its first channel. *)
Definition select_channel (chnum : Z) (d : wavdata) : option (list Z) :=
  if 0 <? chnum then
    match d with
    | Mono _ => None
    | Multi chans => nth_error chans (Z.to_nat (chnum - 1))
    end
  else
    match d with
    | Mono l => Some l
    | Multi chans => Some (hd [] chans)
    end.

(** Length of the rolling buffer of a device source. *)
Definition buffer_len : nat := Z.to_nat 100000.

(** The object as the first lines of [__init__] leave it. *)
Definition new_worker (tab : Z) (start fftwindow' dt' alpha' : Q) : worker :=
  mkWorker tab start fftwindow' dt' alpha' false 0 false 0 [] 0 NoStream
           0 [] 0 0 [] [] [] [] 0 [].

Definition set_fromAudio (v : bool) (w : worker) : worker :=
  mkWorker (tabID w) (starttime w) (fftwindow w) (dt w) (alpha w)
    (isrunning w) (reason w) v (fs w) (audiostream w) (lensignal w)
    (stream w) (N w) (taper w) (taperlen w) (df w) (freqs_all w)
    (keepind w) (freqs w) (sampletimes w) (maxnum w) (signals w).

Definition set_fs (v : Z) (w : worker) : worker :=
  mkWorker (tabID w) (starttime w) (fftwindow w) (dt w) (alpha w)
    (isrunning w) (reason w) (fromAudio w) v (audiostream w) (lensignal w)
    (stream w) (N w) (taper w) (taperlen w) (df w) (freqs_all w)
    (keepind w) (freqs w) (sampletimes w) (maxnum w) (signals w).

Definition set_lensignal (v : Z) (w : worker) : worker :=
  mkWorker (tabID w) (starttime w) (fftwindow w) (dt w) (alpha w)
    (isrunning w) (reason w) (fromAudio w) (fs w) (audiostream w) v
    (stream w) (N w) (taper w) (taperlen w) (df w) (freqs_all w)
    (keepind w) (freqs w) (sampletimes w) (maxnum w) (signals w).

(** The body of [__init__] after the attribute initialisation. *)
Definition init_body (E : env) (ds : source) : M unit :=
  match ds with
  | FileSource chnum audiofile =>
      modify (set_fromAudio true) ;;;
      (if negb (file_exists E audiofile) then terminate 1 else ret tt) ;;;
      (* shutil.copy of a missing file raises *)
      (if file_exists E audiofile then ret tt
       else raise FileNotFoundError) ;;;
      rd <- lift ValueError (wav_read E audiofile) ;;
      modify (set_fs (fst rd)) ;;;
      a <- lift IndexError (select_channel chnum (snd rd)) ;;
      modify (set_audiostream a) ;;;
      modify (set_lensignal (Z.of_nat (List.length a)))
  | DeviceSource idx =>
      modify (set_fromAudio false) ;;;
      r <- lift OSError (default_rate E idx) ;;
      modify (set_fs (np_round r)) ;;;
      modify (set_audiostream (repeat 0 buffer_len)) ;;;
      (* wave.Wave_write.setframerate refuses a rate that is not positive *)
      (if np_round r <=? 0 then raise WaveError else ret tt)
  | OtherSource => terminate 1
  end ;;;
  modify (set_isrunning true).

(** [AudioProcessor(p, datasource, savedir, slash, tabID, starttime,
    fftwindow, dt, alpha)]: the outcome of [__init__] and the object it
    leaves. *)
Definition init (E : env) (ds : source) (tab : Z)
    (start fftwindow' dt' alpha' : Q) : result unit * worker :=
  init_body E ds (new_worker tab start fftwindow' dt' alpha').

(** *** The hardware callback and the commands of the user interface *)

(** [updateaudiobuffer(bufferdata, nframes, ...)], defined by [run] for a
    device source: append the delivery, delete [nframes] items from the
    front. *)
Definition updateaudiobuffer (bufferdata : list Z) (nframes : Z)
    (w : worker) : worker :=
  if isrunning w then
    let l := (audiostream w ++ bufferdata)%list in
    set_audiostream
      (skipn (Z.to_nat (slice_bound (List.length l) nframes)) l) w
  else w.

(** What other threads do to the worker between two cycles of the loop. *)
Inductive event : Type :=
| Callback (bufferdata : list Z) (nframes : Z)
| Abort
| Reconfigure (fftwindow' dt' alpha' : Q).

(** An exception raised in another thread does not reach the loop; the
    attribute writes made before it stay. *)
Definition apply_event (e : event) (w : worker) : worker :=
  match e with
  | Callback b n =>
      if negb (fromAudio w) then updateaudiobuffer b n w else w
  | Abort => snd (abort w)
  | Reconfigure f d a => snd (changethresholds_slot f d a w)
  end.

Definition apply_events (es : list event) (w : worker) : worker :=
  fold_left (fun w e => apply_event e w) es w.

(** One turn of the loop: what happened since the previous turn, and the
    clock reading [utcnow()] in seconds at the top of the turn. *)
Record tick : Type := mkTick {
  before : list event;
  now : Q
}.

(** *** [run] *)

(** The wait at the top of [run].  The result says whether [run] goes on
    ([Some true]) or returns ([Some false]); [None] is an exhausted poll
    budget, which 101 polls never reach. *)
Fixpoint barrier (polls : nat) (counts : Z) : M (option bool) :=
  w <- get ;;
  if isrunning w then ret (Some true)
  else
    match polls with
    | O => ret None
    | S polls' =>
        let counts' := counts + 1 in
        if negb (reason w =? 0) then ret (Some false)
        else if 100 <? counts' then terminate 3 ;;; ret (Some false)
        else barrier polls' counts'
    end.

(** The PCM segment of one turn (the branch on [fromAudio] in the loop):
    [None] when the file has no more grid times (the caller terminates),
    otherwise the sample time and the window, if there is one.  The
    product [ctime * fs] is exact here; the code rounds it before
    [np.round], which moves the centre by one sample when the rounded
    product is a tie. *)
Definition pull_pcm (i : Z) (t : Q) (w : worker)
    : option (Q * option (list Z)) :=
  if fromAudio w then
    if i <? maxnum w then
      let ctime := nth (Z.to_nat i) (sampletimes w) 0%Q in
      let ctrind := np_round (ctime * inject_Z (fs w)) in
      let pmind := Z.quot (N w) 2 in
      if (0 <=? ctrind - pmind) && (ctrind + pmind <? lensignal w) then
        Some (ctime,
              Some (slice (ctrind - pmind) (ctrind + pmind) (audiostream w)))
      else Some (ctime, None)
    else None
  else
    Some ((t - starttime w)%Q, Some (tail_slice (N w) (audiostream w))).

(** The body of the [while self.isrunning] loop for iteration index [i];
    [false] when the body returns from [run]. *)
Definition cycle (i : Z) (t : Q) : M bool :=
  w <- get ;;
  match pull_pcm i t w with
  | None => terminate 0 ;;; ret false
  | Some (ctime, pcm) =>
      match pcm with
      | Some pcmdata =>
          spectra <- dofft pcmdata ;;
          emit (Iterated i (maxnum w) (tabID w) ctime spectra)
      | None => ret tt
      end ;;;
      ret true
  end.

(** The loop, one turn per tick; [i] is the index of the previous turn.
    The list of ticks is the horizon of the observation: the loop of a
    device source has no end of its own. *)
Fixpoint loop (ticks : list tick) (i : Z) : M unit :=
  match ticks with
  | [] => ret tt
  | t :: ticks' =>
      modify (apply_events (before t)) ;;;
      w <- get ;;
      if isrunning w then
        go <- cycle (i + 1) (now t) ;;
        if go then loop ticks' (i + 1) else ret tt
      else ret tt
  end.

(** [run()] *)
Definition run (E : env) (ticks : list tick) : M unit :=
  ready <- barrier 101 0 ;;
  w <- get ;;
  if negb (match ready with Some true => true | _ => false end) then ret tt
  else if negb (reason w =? 0) then ret tt
  else
    changethresholds (fftwindow w) (dt w) (alpha w) ;;;
    w1 <- get ;;
    (if fromAudio w1 then
       (if fs w1 =? 0 then raise ZeroDivisionError else ret tt) ;;;
       st <- lift ZeroDivisionError
               (arange (inject_Z (lensignal w1) / inject_Z (fs w1)) (dt w1)) ;;
       modify (set_sampletimes st) ;;;
       modify (set_maxnum (Z.of_nat (List.length st)))
     else
       modify (set_maxnum 0) ;;;
       (if stream_opens E then modify (set_stream StreamOpen)
        else terminate 2)) ;;;
    try_except (loop ticks (-1))
               (modify (set_isrunning false) ;;; terminate 4).

End Worker.

(** ** An instance of the library calls

    [tukey_window] follows scipy's formula for the symmetric window: ones
    for [alpha <= 0], the Hann window for [alpha >= 1], and otherwise a
    cosine ramp over the first and last [floor(alpha (M-1) / 2) + 1]
    points; a negative length raises.  Closing a stream succeeds and is
    idempotent. *)

Definition tukey_coeff (M : Z) (a : Q) (n : Z) : R :=
  if Qle_bool a 0 then 1%R
  else if Qle_bool 1 a then
    (1 / 2 - 1 / 2 * cos (2 * PI * IZR n / IZR (M - 1)))%R
  else
    let width := Qfloor (a * inject_Z (M - 1) / 2) in
    if n <=? width then
      (1 / 2 * (1 + cos (PI * (-1 + 2 * IZR n / Q2R a / IZR (M - 1)))))%R
    else if n <? M - width - 1 then 1%R
    else
      (1 / 2 * (1 + cos (PI * (-2 / Q2R a + 1
                               + 2 * IZR n / Q2R a / IZR (M - 1)))))%R.

Definition tukey_window (M : Z) (a : Q) : option (list R) :=
  if M <? 0 then None
  else Some (map (tukey_coeff M a) (map Z.of_nat (seq 0 (Z.to_nat M)))).

Definition scipy_pyaudio : Lib := {|
  tukey := tukey_window;
  pa_stop_close := fun _ => Some StreamClosed
|}.

(** ** Vocabulary of the statements *)

(** What the properties below ask of [scipy.signal.tukey]: for a length
    [M >= 0] it returns a window of [M] coefficients. *)
Definition tukey_ok (lib : Lib) : Prop :=
  forall (M : Z) (a : Q), 0 <= M ->
    exists tp, tukey M a = Some tp /\ List.length tp = Z.to_nat M.

(** The FFT length that [calc_settings] derives from a worker. *)
Definition derived_N (w : worker) : Z :=
  let N0 := np_round (inject_Z (fs w) * fftwindow w) in
  if negb (N0 mod 2 =? 0) then N0 + 1 else N0.

(** The specification's wording of the same length: the rounded product,
    rounded up to the next even integer. *)
Definition round_up_even (r : Z) : Z := 2 * ((r + 1) / 2).

(** The derived settings are in place for a window of [N] samples: the
    mask has [N] entries and, when a taper is in use, the cached taper has
    the recorded length [N]. *)
Definition settled (w : worker) : Prop :=
  0 < N w /\
  List.length (keepind w) = Z.to_nat (N w) /\
  (Qltb 0 (alpha w) = true ->
   taperlen w = N w /\ List.length (taper w) = Z.to_nat (N w)).

(** The mask that keeps the first [h] of [2h] bins. *)
Definition low_half (h : nat) : list bool :=
  (repeat true h ++ repeat false h)%list.

(** The spectral records in a log of signals: iteration index and sample
    time, in order of emission. *)
Fixpoint records (l : list signal) : list (Z * Q) :=
  match l with
  | [] => []
  | Iterated i _ _ ctime _ :: l' => (i, ctime) :: records l'
  | _ :: l' => records l'
  end.

(** The termination notifications in a log of signals. *)
Fixpoint terminations (l : list signal) : list (Z * Z) :=
  match l with
  | [] => []
  | Terminated tab r :: l' => (tab, r) :: terminations l'
  | _ :: l' => terminations l'
  end.

(** Order of two spectral records: earlier index, not later time. *)
Definition record_before (a b : Z * Q) : Prop :=
  fst a < fst b /\ (snd a <= snd b)%Q.

(** The clock readings of the ticks never go back. *)
Fixpoint clock_monotone (ticks : list tick) : Prop :=
  match ticks with
  | [] => True
  | t :: ticks' =>
      (forall t', In t' ticks' -> (now t <= now t')%Q) /\
      clock_monotone ticks'
  end.

(** [terminate] called once for each reason of a list, in order. *)
Definition terminate_all {lib : Lib} (rs : list Z) (w : worker) : worker :=
  fold_left (fun w r => snd (terminate r w)) rs w.

(** *** Concrete workers and environments used as examples *)

(** A file of eight samples at 4 Hz on an existing path; device 0 at 4 Hz;
    the stream opens. *)
Definition demo_env : env := {|
  file_exists := fun p => String.eqb p "a.wav";
  wav_read := fun _ => Some (4, Mono [1; 2; 3; 4; 5; 6; 7; 8]);
  default_rate := fun _ => Some (4 # 1);
  stream_opens := true
|}.

(** Workers with a window of one second, a cadence of half a second and
    no taper. *)
Definition demo_file : worker :=
  snd (init (lib := scipy_pyaudio) demo_env (FileSource 0 "a.wav")
            7 0 1 (1 # 2) 0).

Definition demo_device : worker :=
  snd (init (lib := scipy_pyaudio) demo_env (DeviceSource 0)
            7 0 1 (1 # 2) 0).

(** [demo_file] after its settings were computed ([N = 4], [df = 1]). *)
Definition demo_settled : worker :=
  snd (changethresholds (lib := scipy_pyaudio) 1 (1 # 2) 0 demo_file).

(** [demo_file] with a taper in use ([alpha = 1/2]) and its settings
    computed. *)
Definition demo_tapered : worker :=
  snd (changethresholds (lib := scipy_pyaudio) 1 (1 # 2) (1 # 2) demo_file).

(** The window after the taper step of [dofft], when the cached taper is
    the one in use: the samples as floats, multiplied by the taper if
    [alpha > 0]. *)
Definition tapered (w : worker) (pcm : list Z) : list R :=
  if Qltb 0 (alpha w) then
    map (fun p => (fst p * snd p)%R) (combine (map IZR pcm) (taper w))
  else map IZR pcm.

(** The PSD of every FFT bin of that window, infinite values replaced by
    the floor: the array [spectra] of [dofft] before the mask is applied. *)
Definition spectrum (w : worker) (pcm : list Z) : list fval :=
  let x := tapered w pcm in
  map replace_inf (map (psd (df w)) (map (dft_bin x) (seq 0 (List.length x)))).

(** [demo_file] and [demo_device] once [run] has stored the settings and
    set up the source, before the first turn of the loop. *)
Definition demo_file_running : worker :=
  snd (run (lib := scipy_pyaudio) demo_env [] demo_file).

Definition demo_device_running : worker :=
  snd (run (lib := scipy_pyaudio) demo_env [] demo_device).

(** The values that [changethresholds] stores for its first and third
    argument. *)
Definition stored_window (f : Q) : Q := if Qle_bool f 1 then f else 1%Q.

Definition stored_alpha (a : Q) : Q :=
  if Qltb 1 a then 1%Q else if Qltb a 0 then 0%Q else a.

(** The attributes that only the constructor and the start of [run]
    assign: the estimator, the settings computation, the commands of the
    user interface and the cycles of the loop leave them as they are. *)
Definition grid_of (w : worker) : Z * Q * bool * list Q * Z :=
  (tabID w, starttime w, fromAudio w, sampletimes w, maxnum w).

(** The attributes that [calc_settings] reads or leaves alone. *)
Definition inputs_of (w : worker)
  : Q * Q * Q * bool * Z * Z * list Z * Z * stream_state :=
  (fftwindow w, dt w, alpha w, isrunning w, reason w, fs w, audiostream w,
   lensignal w, stream w).

(** The grid of sample times of a file source is in order, and [maxnum]
    is its length. *)
Definition grid_sorted (w : worker) : Prop :=
  maxnum w = Z.of_nat (List.length (sampletimes w)) /\
  forall a b : nat, (a <= b)%nat -> (b < List.length (sampletimes w))%nat ->
    (nth a (sampletimes w) 0 <= nth b (sampletimes w) 0)%Q.

(** Where the sample time of a spectral record [p] comes from: for a file
    source, the entry of the time grid at the record's index; for a device
    source, the clock reading of one of the turns, counted from
    [starttime]. *)
Definition turn_time (w : worker) (ticks : list tick) (p : Z * Q) : Prop :=
  if fromAudio w then
    0 <= fst p < maxnum w /\
    snd p = nth (Z.to_nat (fst p)) (sampletimes w) 0%Q
  else exists t, In t ticks /\ snd p = (now t - starttime w)%Q.

(** The records that a file source owes for the grid indices [k], ...,
    [k + n - 1]: one for each index at which the read of the loop gives a
    window, with the sample time that the read returns. *)
Definition grid_records (w : worker) (k n : nat) : list (Z * Q) :=
  flat_map
    (fun j => match pull_pcm (Z.of_nat j) 0 w with
              | Some (c, Some _) => [(Z.of_nat j, c)]
              | _ => []
              end)
    (seq k n).

(** A delivery of the hardware callback that brings at least as many
    items as it removes. *)
Definition good_delivery (e : event) : Prop :=
  match e with
  | Callback b n => 0 <= n <= Z.of_nat (List.length b)
  | _ => False
  end.

(** The records expected from a device source: one for each turn, with
    consecutive indices from [i] on and the clock reading of the turn
    counted from [start]. *)
Fixpoint device_records (start : Q) (i : Z) (ticks : list tick)
    : list (Z * Q) :=
  match ticks with
  | [] => []
  | t :: ticks' => (i, (now t - start)%Q) :: device_records start (i + 1) ticks'
  end.

(** Order of two spectral records by iteration index alone. *)
Definition index_before (a b : Z * Q) : Prop := fst a < fst b.

(** The turns that the loop takes over a list of ticks, from the worker
    [w] and the previous index [i]: for each turn its index, its clock
    reading and the worker at the top of its body, the events of the tick
    applied.  The loop stops at the first turn that finds [isrunning]
    clear and after the first turn whose body returns from [run] or
    raises. *)
Fixpoint turns {lib : Lib} (ticks : list tick) (i : Z) (w : worker)
    : list (Z * Q * worker) :=
  match ticks with
  | [] => []
  | t :: ticks' =>
      let w1 := apply_events (before t) w in
      if isrunning w1 then
        (i + 1, now t, w1) ::
        match cycle (i + 1) (now t) w1 with
        | (Ok true, w2) => turns ticks' (i + 1) w2
        | _ => []
        end
      else []
  end.

(** What a turn owes the log: the record of its index and sample time
    when its read gives a window and the estimator returns on it, and
    nothing otherwise. *)
Definition emitted {lib : Lib} (x : Z * Q * worker) : list (Z * Q) :=
  let '(i, t, w) := x in
  match pull_pcm i t w with
  | Some (c, Some pcm) =>
      match fst (dofft pcm w) with
      | Ok _ => [(i, c)]
      | Raise _ => []
      end
  | _ => []
  end.

(** The worker with which [run] enters its loop: the settings stored, the
    time grid of a file source computed, the stream of a device source
    opened (or the failure to open it notified).  [None] when [run]
    returns or raises before the loop. *)
Definition loop_entry {lib : Lib} (E : env) (w : worker) : option worker :=
  if isrunning w && (reason w =? 0) then
    match changethresholds (fftwindow w) (dt w) (alpha w) w with
    | (Ok _, wc) =>
        if fromAudio wc then
          if fs wc =? 0 then None
          else
            match arange (inject_Z (lensignal wc) / inject_Z (fs wc))
                         (dt wc) with
            | None => None
            | Some st =>
                Some (set_maxnum (Z.of_nat (List.length st))
                        (set_sampletimes st wc))
            end
        else if stream_opens E then
          Some (set_stream StreamOpen (set_maxnum 0 wc))
        else
          match terminate 2 (set_maxnum 0 wc) with
          | (Ok _, wt) => Some wt
          | (Raise _, _) => None
          end
    | (Raise _, _) => None
    end
  else None.

(** The spectral records that one call of [run] owes the log: those of
    the turns of its loop. *)
Definition run_emits {lib : Lib} (E : env) (ticks : list tick) (w : worker)
    : list (Z * Q) :=
  match loop_entry E w with
  | Some w1 => flat_map emitted (turns ticks (-1) w1)
  | None => []
  end.

(** ** [listaudiodevices]

    What the function asks of PyAudio: the number of devices, the input
    channels of device [i] of host API 0, and the name of device [i]
    ([None] when the call raises). *)
Record pa_host : Type := mkHost {
  device_count : Z;
  api0_input_channels : Z -> option Z;
  device_name : Z -> option string
}.

(** The loop of [listaudiodevices] over the indices [ixs]. *)
Fixpoint scan_devices (h : pa_host) (ixs : list Z)
    : option (list string * list Z) :=
  match ixs with
  | [] => Some ([], [])
  | i :: ixs' =>
      match api0_input_channels h i with
      | None => None
      | Some c =>
          if 0 <? c then
            match device_name h i with
            | None => None
            | Some nm =>
                match scan_devices h ixs' with
                | None => None
                | Some (miclist, indices) => Some (nm :: miclist, i :: indices)
                end
            end
          else scan_devices h ixs'
      end
  end.

(** [listaudiodevices()]: the names and the indices of the devices with
    input channels ([None] when a PyAudio call raises). *)
Definition listaudiodevices (h : pa_host) : option (list string * list Z) :=
  scan_devices h (range (device_count h)).

(** ** The data source string

    [main.py] writes the source into one string and [__init__] takes it
    apart again.  Strings are sequences of bytes; the prefix that the
    constructor inspects is ASCII. *)

(** [str(z)] of an integer. *)
Definition py_str (z : Z) : string := NilZero.string_of_int (Z.to_int z).

(** [int(s)] of a string of decimal digits with an optional minus sign in
    front, the strings that [str] and the format [05d] produce ([None]
    for [ValueError]).  Python's [int] also accepts white space around
    the number, a plus sign and underscores between digits; these are
    read here as errors. *)
Definition py_int (s : string) : option Z :=
  option_map Z.of_int (NilZero.int_of_string s).

Fixpoint zeros (n : nat) : string :=
  match n with
  | O => EmptyString
  | S n' => String "0" (zeros n')
  end.

(** The format [{z:05d}]: the sign, then the digits padded with zeros on
    the left to a width of five, sign included. *)
Definition format_05d (z : Z) : string :=
  if z <? 0 then
    String "-" (zeros (4 - String.length (py_str (- z))) ++ py_str (- z))
  else (zeros (5 - String.length (py_str z)) ++ py_str z)%string.

(** The slice [s[n:]]. *)
Fixpoint str_from (n : nat) (s : string) : string :=
  match n, s with
  | O, _ => s
  | S n', String _ s' => str_from n' s'
  | S _, EmptyString => EmptyString
  end.

(** [f"AAA-{selectedChannel:05d}-{fname}"] of [AudioWindow.selectChannel],
    [f"AAA-00000-{fname}"] and [f"MMM-{dataindex}"] of [startprocessor]. *)
Definition channel_datasource (ch : Z) (fname : string) : string :=
  ("AAA-" ++ format_05d ch ++ "-" ++ fname)%string.

Definition mono_datasource (fname : string) : string :=
  ("AAA-00000-" ++ fname)%string.

Definition device_datasource (dataindex : Z) : string :=
  ("MMM-" ++ py_str dataindex)%string.

(** The reading of [datasource] at the top of [__init__]: the prefix
    [datasource[:3]], the channel [int(datasource[4:9])] and the path
    [datasource[10:]], or the device index [int(datasource[4:])]
    ([None] when [int] raises). *)
Definition decode_datasource (ds : string) : option source :=
  if String.eqb (substring 0 3 ds) "AAA" then
    match py_int (substring 4 5 ds) with
    | Some chnum => Some (FileSource chnum (str_from 10 ds))
    | None => None
    end
  else if String.eqb (substring 0 3 ds) "MMM" then
    match py_int (str_from 4 ds) with
    | Some idx => Some (DeviceSource idx)
    | None => None
    end
  else Some OtherSource.

(** * Properties *)

(** ** The monad and the primitives *)

Ltac monad_unfold :=
  cbv beta iota delta
    [emit lift bind modify ret get raise try_except] in *.

(** Reads of attributes after writes, without touching the values. *)
Ltac fields :=
  cbv beta iota delta
    [tabID starttime fftwindow dt alpha isrunning reason fromAudio fs
     audiostream lensignal stream N taper taperlen df freqs_all keepind
     freqs sampletimes maxnum signals
     set_fftwindow set_dt set_alpha set_isrunning set_reason
     set_audiostream set_stream set_N set_taper set_taperlen set_df
     set_freqs_all set_keepind set_freqs set_sampletimes set_maxnum
     set_signals set_fromAudio set_fs set_lensignal fst snd
     emit lift bind modify ret get raise try_except].

Lemma Qltb_true (a b : Q) : Qltb a b = true <-> (a < b)%Q.
Proof.
  unfold Qltb. rewrite negb_true_iff. split; intro H.
  - apply Qnot_le_lt. intro Hle. apply Qle_bool_iff in Hle. congruence.
  - destruct (Qle_bool b a) eqn:E; [|reflexivity].
    apply Qle_bool_iff in E. exfalso. apply (Qlt_not_le _ _ H E).
Qed.

Lemma Qltb_false (a b : Q) : Qltb a b = false <-> (b <= a)%Q.
Proof.
  unfold Qltb. rewrite negb_false_iff. apply Qle_bool_iff.
Qed.

Lemma Qle_bool_false (a b : Q) : Qle_bool a b = false <-> (b < a)%Q.
Proof.
  split; intro H.
  - apply Qnot_le_lt. intro Hle. apply Qle_bool_iff in Hle. congruence.
  - destruct (Qle_bool a b) eqn:E; [|reflexivity].
    apply Qle_bool_iff in E. exfalso. apply (Qlt_not_le _ _ H E).
Qed.

(** ** Settings: [calc_settings] and [changethresholds] *)

Section Settings.

Context {lib : Lib}.

Lemma calc_settings_inputs (w : worker) :
  inputs_of (snd (calc_settings w)) = inputs_of w.
Proof.
  unfold calc_settings. monad_unfold. cbn.
  destruct (Qltb 0 (alpha w)); cbn.
  - destruct (tukey _ (alpha w)); cbn; [|reflexivity].
    destruct (_ =? 0); reflexivity.
  - destruct (_ =? 0); reflexivity.
Qed.

Lemma calc_settings_grid (w : worker) :
  grid_of (snd (calc_settings w)) = grid_of w.
Proof.
  unfold calc_settings. monad_unfold. cbn.
  destruct (Qltb 0 (alpha w)); cbn.
  - destruct (tukey _ (alpha w)); cbn; [|reflexivity].
    destruct (_ =? 0); reflexivity.
  - destruct (_ =? 0); reflexivity.
Qed.

Lemma records_app (l1 l2 : list signal) :
  records (l1 ++ l2) = (records l1 ++ records l2)%list.
Proof.
  induction l1 as [|s l1 IH]; [reflexivity|].
  destruct s; cbn; rewrite IH; reflexivity.
Qed.

Lemma terminations_app (l1 l2 : list signal) :
  terminations (l1 ++ l2) = (terminations l1 ++ terminations l2)%list.
Proof.
  induction l1 as [|s l1 IH]; [reflexivity|].
  destruct s; cbn; rewrite IH; reflexivity.
Qed.

Lemma calc_settings_records (w : worker) :
  records (signals (snd (calc_settings w))) = records (signals w) /\
  terminations (signals (snd (calc_settings w))) = terminations (signals w).
Proof.
  unfold calc_settings. monad_unfold. cbn.
  destruct (Qltb 0 (alpha w)); cbn.
  - destruct (tukey _ (alpha w)); cbn; [|split; reflexivity].
    destruct (_ =? 0); cbn; [split; reflexivity|].
    rewrite records_app, terminations_app. cbn.
    rewrite !app_nil_r. split; reflexivity.
  - destruct (_ =? 0); cbn; [split; reflexivity|].
    rewrite records_app, terminations_app. cbn.
    rewrite !app_nil_r. split; reflexivity.
Qed.

(** The frequency that [calc_settings] assigns to bin [n]. *)
Lemma calc_settings_fields (w w' : worker) :
  calc_settings w = (Ok tt, w') ->
  N w' = derived_N w /\ N w' <> 0 /\
  df w' = (inject_Z (fs w) / inject_Z (N w'))%Q /\
  keepind w' =
    map (fun f => Qle_bool 0 f)
      (map (fun n => if Qltb (inject_Z n) (inject_Z (N w') / 2)
                     then (df w' * inject_Z n)%Q
                     else (df w' * inject_Z (n - N w'))%Q) (range (N w'))) /\
  freqs w' = select (freqs_all w') (keepind w') /\
  (Qltb 0 (alpha w) = true ->
   exists tp, tukey (N w') (alpha w) = Some tp /\ taper w' = tp /\
              taperlen w' = Z.of_nat (List.length tp)) /\
  signals w' =
    (signals w ++ [StatsUpdated (tabID w) (fs w) (df w') (N w') (freqs w')])%list.
Proof.
  unfold calc_settings, derived_N. monad_unfold. cbn.
  set (N1 := if negb (_ =? 0) then _ else _).
  destruct (Qltb 0 (alpha w)) eqn:Ea; cbn.
  - destruct (tukey N1 (alpha w)) as [tp|] eqn:Et; cbn; [|discriminate].
    destruct (N1 =? 0) eqn:En; cbn; [discriminate|].
    intro H. apply (f_equal snd) in H. cbn [snd] in H. subst w'.
    apply Z.eqb_neq in En. destruct w. fields.
    repeat split; try assumption; try reflexivity.
    intros _. exists tp. repeat split; assumption.
  - destruct (N1 =? 0) eqn:En; cbn; [discriminate|].
    intro H. apply (f_equal snd) in H. cbn [snd] in H. subst w'.
    apply Z.eqb_neq in En. destruct w. fields.
    repeat split; try assumption; try reflexivity.
    discriminate.
Qed.

Lemma calc_settings_succeeds (w : worker) :
  tukey_ok lib -> 0 < derived_N w ->
  exists w', calc_settings w = (Ok tt, w').
Proof.
  intros Htk Hpos.
  unfold calc_settings. monad_unfold. cbn. fold (derived_N w).
  destruct (Qltb 0 (alpha w)) eqn:Ea; cbn.
  - destruct (Htk (derived_N w) (alpha w)) as [tp [-> _]]; [lia|]. cbn.
    destruct (derived_N w =? 0) eqn:En; [apply Z.eqb_eq in En; lia|].
    cbn. eauto.
  - destruct (derived_N w =? 0) eqn:En; [apply Z.eqb_eq in En; lia|].
    cbn. eauto.
Qed.

Lemma derived_N_even (w : worker) : Z.even (derived_N w) = true.
Proof.
  unfold derived_N.
  set (r := np_round _).
  destruct (r mod 2 =? 0) eqn:E; cbn.
  - apply Z.eqb_eq in E. rewrite Zeven_mod, E. reflexivity.
  - apply Z.eqb_neq in E. rewrite Zeven_mod.
    apply Z.eqb_eq. rewrite Z.add_mod by lia.
    pose proof (Z.mod_pos_bound r 2 ltac:(lia)) as B.
    replace (r mod 2) with 1 by lia. reflexivity.
Qed.

Lemma derived_N_round_up (w : worker) :
  derived_N w = round_up_even (np_round (inject_Z (fs w) * fftwindow w)).
Proof.
  unfold derived_N, round_up_even.
  set (r := np_round _).
  destruct (r mod 2 =? 0) eqn:E; cbn [negb].
  - apply Z.eqb_eq in E. Z.div_mod_to_equations. lia.
  - apply Z.eqb_neq in E. Z.div_mod_to_equations. lia.
Qed.

Lemma round_up_even_least (r : Z) :
  Z.even (round_up_even r) = true /\ r <= round_up_even r /\
  forall m, Z.even m = true -> r <= m -> round_up_even r <= m.
Proof.
  unfold round_up_even.
  repeat split.
  - rewrite Z.even_mul. reflexivity.
  - Z.div_mod_to_equations. lia.
  - intros m Hm Hle. apply Z.even_spec in Hm. destruct Hm as [k ->].
    Z.div_mod_to_equations. lia.
Qed.

Lemma map_const_repeat {A B : Type} (f : A -> B) (b : B) (l : list A) :
  (forall x, In x l -> f x = b) -> map f l = repeat b (List.length l).
Proof.
  induction l as [|x l IH]; intro H; [reflexivity|].
  cbn. rewrite (H x (or_introl eq_refl)), IH; [reflexivity|].
  intros y Hy. apply H. right. exact Hy.
Qed.

(** With a positive rate and a positive even length [N = 2h], the bins
    [0 .. h-1] get a non-negative frequency and the bins [h .. N-1] a
    negative one: the mask keeps exactly the first half. *)
Lemma keep_mask_low_half (fs' N' : Z) (h : nat) :
  0 < fs' -> (0 < h)%nat -> N' = Z.of_nat (h + h) ->
  map (fun f => Qle_bool 0 f)
    (map (fun n => if Qltb (inject_Z n) (inject_Z N' / 2)
                   then (inject_Z fs' / inject_Z N' * inject_Z n)%Q
                   else (inject_Z fs' / inject_Z N' * inject_Z (n - N'))%Q)
         (range N'))
  = low_half h.
Proof.
  intros Hfs Hh HN.
  destruct N' as [|p|p]; try lia.
  unfold range, low_half.
  replace (Z.to_nat (Z.pos p)) with (h + h)%nat by lia.
  rewrite seq_app, !map_app. f_equal.
  - rewrite !map_map.
    rewrite (map_const_repeat _ true), length_seq; [reflexivity|].
    intros k Hk. apply in_seq in Hk.
    assert (E : Qltb (inject_Z (Z.of_nat k)) (inject_Z (Z.pos p) / 2) = true).
    { apply Qltb_true. unfold Qlt, Qdiv, Qmult, Qinv, inject_Z.
      cbn. lia. }
    rewrite E. apply Qle_bool_iff.
    unfold Qle, Qdiv, Qmult, Qinv, inject_Z. cbn. nia.
  - rewrite !map_map.
    rewrite (map_const_repeat _ false), length_seq; [reflexivity|].
    intros k Hk. apply in_seq in Hk.
    assert (E : Qltb (inject_Z (Z.of_nat k)) (inject_Z (Z.pos p) / 2) = false).
    { apply Qltb_false. unfold Qle, Qdiv, Qmult, Qinv, inject_Z.
      cbn. lia. }
    rewrite E. apply Qle_bool_false.
    assert (Hneg : Z.of_nat k - Z.pos p < 0) by lia.
    unfold Qlt, Qdiv, Qmult, Qinv, inject_Z. cbn. nia.
Qed.

End Settings.

(** The length that [Binary64.calc_settings_N] returns, from the rounded
    product on. *)
Lemma parity_fix_round_up (r : Z) :
  (if negb (r mod 2 =? 0) then r + 1 else r) = round_up_even r.
Proof.
  unfold round_up_even.
  destruct (r mod 2 =? 0) eqn:E; cbn [negb].
  - apply Z.eqb_eq in E. Z.div_mod_to_equations. lia.
  - apply Z.eqb_neq in E. Z.div_mod_to_equations. lia.
Qed.



(** The doubles of the decimal windows 0.05, 0.34 and 0.3, and the lengths
    they give: at 22050 Hz the product of 0.05 is the tie 1102.5, at
    11025 Hz the product of 0.34 lies above the tie 3748.5, and at
    11025 Hz the product of 0.3 is the tie 3307.5. *)
Example binary64_lengths :
  Binary64.decimal 5 2 = Some (S754_finite false 7205759403792794 (-57)) /\
  option_map (Binary64.calc_settings_N 22050) (Binary64.decimal 5 2)
    = Some (Some 1102) /\
  option_map (Binary64.calc_settings_N 11025) (Binary64.decimal 34 2)
    = Some (Some 3750) /\
  option_map (Binary64.calc_settings_N 11025) (Binary64.decimal 3 1)
    = Some (Some 3308) /\
  Binary64.calc_settings_N 0 (S754_finite false 7205759403792794 (-57))
    = Some 0 /\
  Binary64.calc_settings_df 11025 0 = None.
Proof. vm_compute. repeat split. Qed.

(** The resolution is the quotient as a double, not as a rational: at
    22050 Hz and [N = 1102] the stored [df] times [N] is not the rate. *)
Example binary64_resolution_rounded :
  exists df q,
    Binary64.calc_settings_df 22050 1102 = Some df /\
    Binary64.value df = Some q /\
    ~ (q * inject_Z 1102 == inject_Z 22050)%Q.
Proof.
  eexists. eexists. split; [vm_compute; reflexivity|].
  split; [vm_compute; reflexivity|].
  vm_compute. discriminate.
Qed.

(** ** Reconfiguration *)

(** C5 (as the code has it). After [changethresholds(fftwindow, dt,
    alpha)], whether or not the settings computation that ends it raises,
    the stored window length is the argument when that is at most 1 and 1
    otherwise (so it is at most 1, and positive when the argument is), the
    stored alpha lies in [0,1], and the stored [dt] is the argument. *)
Theorem changethresholds_stores (lib : Lib) (w : worker) (f d a : Q) :
  let w' := snd (changethresholds f d a w) in
  fftwindow w' = (if Qle_bool f 1 then f else 1%Q) /\
  (fftwindow w' <= 1)%Q /\
  ((0 < f)%Q -> (0 < fftwindow w')%Q) /\
  (0 <= alpha w' <= 1)%Q /\
  dt w' = d.
Proof.
  intro w'. subst w'. unfold changethresholds.
  set (w1 := if Qle_bool f 1 then set_fftwindow f w else set_fftwindow 1 w).
  set (w2 := set_dt d w1).
  set (w3 := if Qltb 1 a then set_alpha 1 w2
             else if Qltb a 0 then set_alpha 0 w2 else set_alpha a w2).
  assert (E : snd (bind (if Qle_bool f 1 then modify (set_fftwindow f)
                         else modify (set_fftwindow 1))
                     (fun _ => bind (modify (set_dt d))
                        (fun _ => bind
                           (if Qltb 1 a then modify (set_alpha 1)
                            else if Qltb a 0 then modify (set_alpha 0)
                            else modify (set_alpha a))
                           (fun _ => calc_settings))) w)
              = snd (calc_settings w3)).
  { subst w3 w2 w1. unfold bind, modify.
    destruct (Qle_bool f 1), (Qltb 1 a), (Qltb a 0); reflexivity. }
  rewrite E. clear E.
  pose proof (calc_settings_inputs w3) as Hin.
  unfold inputs_of in Hin.
  injection Hin as Hf Hd Ha _ _ _ _ _ _.
  rewrite Hf, Hd, Ha. subst w3 w2 w1.
  destruct (Qle_bool f 1) eqn:Ef, (Qltb 1 a) eqn:E1, (Qltb a 0) eqn:E0;
    fields;
    try apply Qle_bool_iff in Ef; try apply Qle_bool_false in Ef;
    try apply Qltb_true in E1; try apply Qltb_false in E1;
    try apply Qltb_true in E0; try apply Qltb_false in E0;
    repeat split; try assumption; try reflexivity; try lra;
    try (intros; lra).
Qed.

(** C5 as stated fails: a negative window length is stored as it is. *)
Lemma changethresholds_keeps_negative_window :
  let w' := snd (changethresholds (lib := scipy_pyaudio)
                   (-1 # 1) (1 # 2) 0 demo_file) in
  fftwindow w' = (-1 # 1)%Q /\ ~ (0 < fftwindow w' <= 1)%Q.
Proof.
  vm_compute. split; [reflexivity|]. intros [H _]. discriminate H.
Qed.

(** ** Termination: [terminate] and [abort] *)

Section Termination.

Context {lib : Lib}.

Lemma terminate_file (r : Z) (w : worker) :
  fromAudio w = true ->
  terminate r w =
    (Ok tt,
     set_signals (signals w ++ [Terminated (tabID w) r])
       (set_isrunning false (set_reason r w))).
Proof.
  intro H. destruct w. cbn in H. subst.
  unfold terminate. fields. reflexivity.
Qed.

(** Whatever the outcome of the release of the device, [terminate] stores
    the reason, clears [isrunning] and emits no spectral record. *)
Lemma terminate_effect (r : Z) (w : worker) :
  let w' := snd (terminate r w) in
  reason w' = r /\ isrunning w' = false /\ grid_of w' = grid_of w /\
  records (signals w') = records (signals w).
Proof.
  destruct w as [? ? ? ? ? ? ? fa ? ? ? st ? ? ? ? ? ? ? ? ? ?].
  unfold terminate, grid_of, lift. fields.
  destruct fa; cbn [negb]; fields.
  - rewrite records_app. cbn. rewrite app_nil_r. auto.
  - destruct st; fields.
    + auto.
    + destruct (pa_stop_close StreamOpen); fields;
        rewrite ?records_app; cbn; rewrite ?app_nil_r; auto.
    + destruct (pa_stop_close StreamClosed); fields;
        rewrite ?records_app; cbn; rewrite ?app_nil_r; auto.
Qed.

End Termination.

Lemma last_cons_default {A : Type} (x : A) (l : list A) (d d' : A) :
  last (x :: l) d = last (x :: l) d'.
Proof.
  revert x. induction l as [|y l IH]; intro x; [reflexivity|].
  change (last (y :: l) d = last (y :: l) d'). apply IH.
Qed.

(** C8 (as the code has it). On a file-backed worker every call of
    [terminate] (and so of [abort], which is [terminate(0)]) stores its
    reason over the previous one and emits one notification: after the
    calls with reasons [rs] the log holds one more notification per call,
    in order, and the stored reason is the last of [rs]. *)
Theorem terminate_all_file (lib : Lib) (rs : list Z) (w : worker) :
  fromAudio w = true ->
  let w' := terminate_all rs w in
  terminations (signals w') =
    (terminations (signals w) ++ map (fun r => (tabID w, r)) rs)%list /\
  reason w' = last rs (reason w).
Proof.
  revert w. induction rs as [|r rs IH]; intros w Hf.
  - cbn. rewrite app_nil_r. auto.
  - cbn [terminate_all fold_left].
    rewrite (terminate_file r w Hf). cbn [snd].
    set (w1 := set_signals _ _).
    assert (Hf1 : fromAudio w1 = true) by exact Hf.
    destruct (IH w1 Hf1) as [Ht Hr].
    unfold terminate_all in Ht, Hr. rewrite Ht, Hr. split.
    + subst w1. fields. rewrite terminations_app. cbn.
      rewrite <- app_assoc. reflexivity.
    + subst w1. destruct rs as [|z rs]; [destruct w; reflexivity|].
      change (last (r :: z :: rs) (reason w)) with (last (z :: rs) (reason w)).
      apply last_cons_default.
Qed.

Lemma terminate_all_file_witness :
  let w' := terminate_all (lib := scipy_pyaudio) [0; 0] demo_file in
  terminations (signals w') =
    (terminations (signals demo_file)
       ++ map (fun r => (tabID demo_file, r)) [0; 0])%list /\
  reason w' = last [0; 0] (reason demo_file).
Proof.
  apply (terminate_all_file scipy_pyaudio [0; 0] demo_file).
  reflexivity.
Defined.

(** C8 as stated fails: a second [terminate] with another reason replaces
    the first reason, and each call notifies the sink. *)
Lemma terminate_twice_overwrites_and_notifies_twice :
  let w' := terminate_all (lib := scipy_pyaudio) [1; 4] demo_file in
  reason w' = 4 /\ reason w' <> 1 /\
  terminations (signals w') = [(7, 1); (7, 4)].
Proof.
  vm_compute. repeat split. discriminate.
Qed.

(** ** The estimator *)

Section Estimator.

Context {lib : Lib}.

Lemma dofft_frame (pcm : list Z) (w : worker) :
  (Qltb 0 (alpha w) = true -> Z.of_nat (List.length pcm) = taperlen w) ->
  snd (dofft pcm w) = w.
Proof.
  intro H. unfold dofft. monad_unfold. cbn [fst snd].
  destruct (Qltb 0 (alpha w)) eqn:Ea.
  - rewrite (H eq_refl), Z.eqb_refl.
    destruct (np_mul _ _) as [x'|]; [|reflexivity].
    destruct (fft x'); [|reflexivity].
    destruct (np_mask _ _); reflexivity.
  - destruct (fft (map IZR pcm)); [|reflexivity].
    destruct (np_mask _ _); reflexivity.
Qed.

End Estimator.

(** C10. With the cached taper recorded at the current window length [N]
    (or no taper in use), [dofft] on a window of [N] samples leaves every
    attribute of the worker as it was, and a second call on the same window
    returns the same outcome as the first. *)
Theorem dofft_deterministic_and_pure (lib : Lib) (pcm : list Z)
    (w : worker) :
  Z.of_nat (List.length pcm) = N w ->
  (Qltb 0 (alpha w) = true -> taperlen w = N w) ->
  snd (dofft pcm w) = w /\
  dofft pcm (snd (dofft pcm w)) = dofft pcm w.
Proof.
  intros Hlen Hcache.
  assert (E : snd (dofft pcm w) = w).
  { apply dofft_frame. intro Ha. rewrite Hlen, (Hcache Ha). reflexivity. }
  split; [exact E | rewrite E; reflexivity].
Qed.

Lemma dofft_deterministic_and_pure_witness :
  snd (dofft (lib := scipy_pyaudio) [1; 2; 3; 4] demo_tapered)
    = demo_tapered /\
  dofft (lib := scipy_pyaudio) [1; 2; 3; 4]
      (snd (dofft (lib := scipy_pyaudio) [1; 2; 3; 4] demo_tapered))
    = dofft (lib := scipy_pyaudio) [1; 2; 3; 4] demo_tapered.
Proof.
  apply (dofft_deterministic_and_pure scipy_pyaudio [1; 2; 3; 4]
           demo_tapered); [reflexivity | intros _; reflexivity].
Defined.

(** ** The constructor and the start of [run] *)

Section Lifecycle.

Context {lib : Lib}.

Lemma changethresholds_unfold (f d a : Q) (w : worker) :
  changethresholds f d a w =
  calc_settings
    (set_alpha (stored_alpha a) (set_dt d (set_fftwindow (stored_window f) w))).
Proof.
  unfold changethresholds, stored_window, stored_alpha, bind, modify.
  destruct (Qle_bool f 1), (Qltb 1 a), (Qltb a 0); reflexivity.
Qed.

Lemma changethresholds_effect (f d a : Q) (w : worker) :
  let w' := snd (changethresholds f d a w) in
  isrunning w' = isrunning w /\ reason w' = reason w /\
  grid_of w' = grid_of w /\
  records (signals w') = records (signals w).
Proof.
  cbv zeta. rewrite changethresholds_unfold.
  set (w3 := set_alpha _ _).
  pose proof (calc_settings_inputs w3) as Hin.
  pose proof (calc_settings_grid w3) as Hg.
  destruct (calc_settings_records w3) as [Hr _].
  unfold inputs_of in Hin. injection Hin as _ _ _ Hi Hre _ _ _ _.
  rewrite Hi, Hre, Hg, Hr. subst w3. destruct w. repeat split.
Qed.

Lemma apply_event_not_running (e : event) (w : worker) :
  isrunning w = false ->
  isrunning (apply_event e w) = false /\
  records (signals (apply_event e w)) = records (signals w).
Proof.
  intro H. destruct e as [b n| |f d a]; cbn [apply_event].
  - unfold updateaudiobuffer. rewrite H.
    destruct (negb (fromAudio w)); auto.
  - unfold abort. destruct (terminate_effect 0 w) as (_ & Hi & _ & Hr). auto.
  - unfold changethresholds_slot.
    destruct (changethresholds_effect f d a w) as (Hi & _ & _ & Hr).
    rewrite Hi, Hr. auto.
Qed.

Lemma apply_events_not_running (es : list event) (w : worker) :
  isrunning w = false ->
  isrunning (apply_events es w) = false /\
  records (signals (apply_events es w)) = records (signals w).
Proof.
  revert w. induction es as [|e es IH]; intros w H; [cbn; auto|].
  cbn [apply_events fold_left].
  destruct (apply_event_not_running e w H) as [Hi Hr].
  destruct (IH _ Hi) as [Hi' Hr'].
  unfold apply_events in Hi', Hr'. rewrite Hi', Hr', Hr. auto.
Qed.

(** While [isrunning] is clear the wait never lets [run] go on. *)
Lemma barrier_not_running (polls : nat) (c : Z) (w : worker) :
  isrunning w = false ->
  exists r w', barrier polls c w = (r, w') /\ r <> Ok (Some true) /\
    isrunning w' = false /\
    records (signals w') = records (signals w).
Proof.
  revert c. induction polls as [|polls IH]; intros c H.
  - exists (Ok None), w. cbn. monad_unfold. rewrite H.
    repeat split; auto. discriminate.
  - cbn [barrier]. monad_unfold. rewrite H.
    destruct (negb (reason w =? 0)).
    + exists (Ok (Some false)), w. repeat split; auto. discriminate.
    + destruct (100 <? c + 1).
      * destruct (terminate_effect 3 w) as (_ & Hi & _ & Hr).
        destruct (terminate 3 w) as [[[]|e] w'] eqn:Et; cbn [snd] in *.
        -- exists (Ok (Some false)), w'. repeat split; auto. discriminate.
        -- exists (Raise e), w'. repeat split; auto. discriminate.
      * apply IH. exact H.
Qed.

Lemma barrier_reason_set (polls : nat) (c : Z) (w : worker) :
  isrunning w = false -> reason w <> 0 ->
  barrier (S polls) c w = (Ok (Some false), w).
Proof.
  intros H Hr. cbn [barrier]. monad_unfold. rewrite H.
  apply Z.eqb_neq in Hr. rewrite Hr. reflexivity.
Qed.

(** A worker whose [isrunning] is clear never reaches the loop: [run]
    emits no spectral record. *)
Lemma run_not_running (E : env) (ticks : list tick) (w : worker) :
  isrunning w = false ->
  isrunning (snd (run E ticks w)) = false /\
  records (signals (snd (run E ticks w))) = records (signals w).
Proof.
  intro H.
  destruct (barrier_not_running 101 0 w H) as (r & w' & Hb & Hne & Hi & Hr).
  assert (E1 : snd (run E ticks w) = w').
  { unfold run. unfold bind at 1. rewrite Hb.
    destruct r as [[[|]|]|e]; try congruence; reflexivity. }
  rewrite E1. split; assumption.
Qed.

Lemma run_reason_set (E : env) (ticks : list tick) (w : worker) :
  isrunning w = false -> reason w <> 0 ->
  run E ticks w = (Ok tt, w).
Proof.
  intros H Hr. unfold run. unfold bind at 1.
  rewrite (barrier_reason_set 100 0 w H Hr). reflexivity.
Qed.

End Lifecycle.

(** C6. Constructing a file-backed worker on a path that does not exist
    stores reason 1 (source not found), leaves [isrunning] clear and emits
    the one notification [(tabID, 1)]; the constructor then raises on the
    copy of the missing file.  On that object [run] returns at once and
    changes nothing, and whatever the user interface does before, [run]
    emits no spectral record and [isrunning] stays clear: the loop is
    never entered. *)
Theorem init_missing_file (lib : Lib) (E : env) (chnum : Z) (path : string)
    (tab : Z) (start f d a : Q) :
  file_exists E path = false ->
  let r := init E (FileSource chnum path) tab start f d a in
  fst r = Raise FileNotFoundError /\
  reason (snd r) = 1 /\ isrunning (snd r) = false /\
  signals (snd r) = [Terminated tab 1] /\
  (forall ticks, run E ticks (snd r) = (Ok tt, snd r)) /\
  (forall es ticks,
     let w' := snd (run E ticks (apply_events es (snd r))) in
     records (signals w') = [] /\ isrunning w' = false).
Proof.
  intros Hex r.
  assert (Er : r = (Raise FileNotFoundError,
                    set_signals [Terminated tab 1]
                      (set_isrunning false
                         (set_reason 1
                            (set_fromAudio true
                               (new_worker tab start f d a)))))).
  { subst r. unfold init, init_body, terminate, new_worker. fields.
    rewrite Hex. reflexivity. }
  rewrite Er. cbn [fst snd].
  set (w := set_signals _ _).
  assert (Hi : isrunning w = false) by reflexivity.
  assert (Hr : reason w <> 0) by (cbn; discriminate).
  do 4 (split; [reflexivity|]). split.
  - intro ticks. apply run_reason_set; assumption.
  - intros es ticks. cbv zeta.
    destruct (apply_events_not_running es w Hi) as [Hi' Hr'].
    destruct (run_not_running E ticks _ Hi') as [Hi'' Hr''].
    rewrite Hr'', Hr'. split; [reflexivity | exact Hi''].
Qed.

Lemma init_missing_file_witness :
  let r := init (lib := scipy_pyaudio) demo_env (FileSource 0 "b.wav")
             7 0 1 (1 # 2) 0 in
  fst r = Raise FileNotFoundError /\
  reason (snd r) = 1 /\ isrunning (snd r) = false /\
  signals (snd r) = [Terminated 7 1] /\
  (forall ticks,
     run (lib := scipy_pyaudio) demo_env ticks (snd r) = (Ok tt, snd r)) /\
  (forall es ticks,
     let w' := snd (run (lib := scipy_pyaudio) demo_env ticks
                      (apply_events (lib := scipy_pyaudio) es (snd r))) in
     records (signals w') = [] /\ isrunning w' = false).
Proof.
  apply (init_missing_file scipy_pyaudio demo_env 0 "b.wav" 7 0 1 (1 # 2) 0).
  reflexivity.
Defined.

(** ** The estimator on settled workers *)

Section Spectra.

Context {lib : Lib}.

Lemma fft_defined (x : list R) :
  x <> [] -> fft x = Some (map (dft_bin x) (seq 0 (List.length x))).
Proof. destruct x; [congruence | reflexivity]. Qed.

Lemma np_mul_same_length (a b : list R) :
  List.length a = List.length b ->
  np_mul a b = Some (map (fun p => (fst p * snd p)%R) (combine a b)).
Proof. intro H. unfold np_mul. rewrite H, Nat.eqb_refl. reflexivity. Qed.

Lemma np_mask_same_length {A : Type} (a : list A) (m : list bool) :
  List.length a = List.length m -> np_mask a m = Some (select a m).
Proof. intro H. unfold np_mask. rewrite H, Nat.eqb_refl. reflexivity. Qed.

Lemma tapered_length (w : worker) (pcm : list Z) :
  settled w -> Z.of_nat (List.length pcm) = N w ->
  List.length (tapered w pcm) = Z.to_nat (N w).
Proof.
  intros (Hpos & _ & Htp) Hlen. unfold tapered.
  destruct (Qltb 0 (alpha w)) eqn:Ea.
  - destruct (Htp eq_refl) as [_ Hl].
    rewrite length_map, length_combine, length_map, Hl. lia.
  - rewrite length_map. lia.
Qed.

Lemma spectrum_length (w : worker) (pcm : list Z) :
  settled w -> Z.of_nat (List.length pcm) = N w ->
  List.length (spectrum w pcm) = Z.to_nat (N w).
Proof.
  intros Hs Hlen. unfold spectrum.
  rewrite !length_map, length_seq. apply tapered_length; assumption.
Qed.

(** On a settled worker [dofft] returns, writes nothing, and its result is
    the logarithm of the masked spectrum. *)
Lemma dofft_settled (w : worker) (pcm : list Z) :
  settled w -> Z.of_nat (List.length pcm) = N w ->
  dofft pcm w =
    (Ok (map log10 (select (spectrum w pcm) (keepind w))), w).
Proof.
  intros Hs Hlen.
  pose proof (tapered_length w pcm Hs Hlen) as Htl.
  pose proof (spectrum_length w pcm Hs Hlen) as Hsl.
  destruct Hs as (Hpos & Hk & Htp).
  assert (Hne : tapered w pcm <> []).
  { intro E. rewrite E in Htl. cbn in Htl. lia. }
  unfold spectrum in Hsl. unfold dofft, spectrum. unfold tapered in *.
  monad_unfold.
  destruct (Qltb 0 (alpha w)) eqn:Ea.
  - destruct (Htp eq_refl) as [Ht Hl].
    rewrite Hlen, Ht, Z.eqb_refl.
    rewrite np_mul_same_length by (rewrite length_map; lia).
    rewrite (fft_defined _ Hne).
    rewrite np_mask_same_length by (rewrite Hsl, Hk; reflexivity).
    reflexivity.
  - rewrite (fft_defined _ Hne).
    rewrite np_mask_same_length by (rewrite Hsl, Hk; reflexivity).
    reflexivity.
Qed.

Lemma select_low_half {A : Type} (h : nat) (a : list A) :
  List.length a = (h + h)%nat -> select a (low_half h) = firstn h a.
Proof.
  unfold low_half. intro H.
  assert (G : forall k (l : list A), (k <= List.length l)%nat ->
            select l (repeat true k ++ repeat false (List.length l - k))
            = firstn k l).
  { induction k as [|k IH]; intros l Hk.
    - cbn. rewrite Nat.sub_0_r. clear Hk.
      induction l as [|x l IHl]; [reflexivity|]. cbn. exact IHl.
    - destruct l as [|x l]; [cbn in Hk; lia|].
      cbn. f_equal. apply IH. cbn in Hk. lia. }
  specialize (G h a ltac:(lia)).
  replace (List.length a - h)%nat with h in G by lia. exact G.
Qed.

(** After [calc_settings] with a positive rate and a positive length the
    worker is settled and the mask keeps the bins [0 .. N/2 - 1]. *)
Lemma calc_settings_settled (w0 w : worker) :
  tukey_ok lib -> 0 < fs w0 ->
  calc_settings w0 = (Ok tt, w) -> 0 < N w ->
  settled w /\ keepind w = low_half (Z.to_nat (N w / 2)) /\
  (Z.to_nat (N w / 2) + Z.to_nat (N w / 2))%nat = Z.to_nat (N w) /\
  (0 < df w)%Q.
Proof.
  intros Htk Hfs Hc Hpos.
  destruct (calc_settings_fields w0 w Hc)
    as (HN & Hnz & Hdf & Hk & _ & Htp & _).
  pose proof (derived_N_even w0) as Hev. rewrite <- HN in Hev.
  apply Z.even_spec in Hev. destruct Hev as [k Hk2].
  assert (Hh : Z.to_nat (N w / 2) = Z.to_nat k).
  { rewrite Hk2, Z.mul_comm, Z.div_mul by lia. reflexivity. }
  assert (Hsum : (Z.to_nat (N w / 2) + Z.to_nat (N w / 2))%nat
                 = Z.to_nat (N w)) by (rewrite Hh; lia).
  assert (Hmask : keepind w = low_half (Z.to_nat (N w / 2))).
  { rewrite Hk, Hdf. apply keep_mask_low_half; lia. }
  assert (Ha : alpha w = alpha w0).
  { pose proof (calc_settings_inputs w0) as Hin. rewrite Hc in Hin.
    unfold inputs_of in Hin. cbn [snd] in Hin. congruence. }
  repeat split.
  - exact Hpos.
  - rewrite Hmask. unfold low_half.
    rewrite length_app, !repeat_length. exact Hsum.
  - rewrite Ha in H. destruct (Htp H) as (tp & Ht & _ & Hl).
    destruct (Htk (N w) (alpha w0) ltac:(lia)) as (tp' & Ht' & Hl').
    rewrite Ht in Ht'. injection Ht' as <-. rewrite Hl, Hl'. lia.
  - rewrite Ha in H. destruct (Htp H) as (tp & Ht & Htap & _).
    destruct (Htk (N w) (alpha w0) ltac:(lia)) as (tp' & Ht' & Hl').
    rewrite Ht in Ht'. injection Ht' as <-. rewrite Htap. exact Hl'.
  - exact Hmask.
  - exact Hsum.
  - rewrite Hdf. destruct (N w) as [|p|p]; try lia.
    unfold Qlt, Qdiv, Qmult, Qinv, inject_Z. cbn. lia.
Qed.

End Spectra.

Lemma tukey_window_ok : tukey_ok scipy_pyaudio.
Proof.
  intros M a HM. cbn. unfold tukey_window.
  destruct (M <? 0) eqn:E; [apply Z.ltb_lt in E; lia|].
  eexists. split; [reflexivity|].
  rewrite !length_map, length_seq. reflexivity.
Qed.

(** C2 (as the code has it). After [calc_settings] with a positive rate
    and a positive length [N], [dofft] on a window of [N] samples returns
    [log10] of the floored PSD over the FFT bins [0 .. N/2 - 1] and no
    other: [N/2] values, the first [N/2] entries of the [N]-bin spectrum.
    Bin [N/2] is mapped to the negative frequency [-fs/2] and is dropped. *)
Theorem dofft_keeps_bins_below_half (lib : Lib) (w0 w : worker)
    (pcm : list Z) :
  tukey_ok lib -> 0 < fs w0 ->
  calc_settings w0 = (Ok tt, w) -> 0 < N w ->
  Z.of_nat (List.length pcm) = N w ->
  List.length (spectrum w pcm) = Z.to_nat (N w) /\
  dofft pcm w =
    (Ok (map log10 (firstn (Z.to_nat (N w / 2)) (spectrum w pcm))), w) /\
  List.length (map log10 (firstn (Z.to_nat (N w / 2)) (spectrum w pcm)))
    = Z.to_nat (N w / 2).
Proof.
  intros Htk Hfs Hc Hpos Hlen.
  destruct (calc_settings_settled w0 w Htk Hfs Hc Hpos)
    as (Hs & Hmask & Hsum & _).
  pose proof (spectrum_length w pcm Hs Hlen) as Hsl.
  split; [exact Hsl|]. split.
  - rewrite (dofft_settled w pcm Hs Hlen), Hmask.
    rewrite select_low_half by (rewrite Hsl, Hsum; reflexivity).
    reflexivity.
  - rewrite length_map, length_firstn, Hsl. lia.
Qed.

Lemma demo_settled_by_calc_settings :
  calc_settings (lib := scipy_pyaudio)
    (set_alpha 0 (set_dt (1 # 2) (set_fftwindow 1 demo_file)))
  = (Ok tt, demo_settled).
Proof. reflexivity. Qed.

Lemma dofft_keeps_bins_below_half_witness :
  List.length (spectrum demo_settled [1; 2; 3; 4]) = Z.to_nat (N demo_settled)
  /\
  dofft (lib := scipy_pyaudio) [1; 2; 3; 4] demo_settled =
    (Ok (map log10 (firstn (Z.to_nat (N demo_settled / 2))
                      (spectrum demo_settled [1; 2; 3; 4]))), demo_settled)
  /\
  List.length (map log10 (firstn (Z.to_nat (N demo_settled / 2))
                            (spectrum demo_settled [1; 2; 3; 4])))
    = Z.to_nat (N demo_settled / 2).
Proof.
  apply (dofft_keeps_bins_below_half scipy_pyaudio
           (set_alpha 0 (set_dt (1 # 2) (set_fftwindow 1 demo_file)))
           demo_settled [1; 2; 3; 4]).
  - exact tukey_window_ok.
  - reflexivity.
  - exact demo_settled_by_calc_settings.
  - reflexivity.
  - reflexivity.
Defined.

Lemma demo_settled_is_settled :
  settled demo_settled /\ keepind demo_settled = low_half 2.
Proof.
  split; [|reflexivity]. unfold settled.
  split; [reflexivity|]. split; [reflexivity|].
  intro H. discriminate H.
Qed.

(** C2 as stated fails: with [N = 4] the mask is [true; true; false;
    false], so [dofft] returns two values, not [N/2 + 1 = 3], and bin
    [N/2 = 2] is not among them. *)
Lemma dofft_drops_bin_N_half :
  N demo_settled = 4 /\
  keepind demo_settled = [true; true; false; false] /\
  nth (Z.to_nat (N demo_settled / 2)) (keepind demo_settled) true = false /\
  exists out,
    dofft (lib := scipy_pyaudio) [1; 2; 3; 4] demo_settled
      = (Ok out, demo_settled) /\
    List.length out = 2%nat /\
    List.length out <> Z.to_nat (N demo_settled / 2 + 1).
Proof.
  destruct demo_settled_is_settled as [Hs Hm].
  do 3 (split; [reflexivity|]).
  eexists. split.
  - apply (dofft_settled demo_settled [1; 2; 3; 4] Hs). reflexivity.
  - rewrite Hm, length_map.
    rewrite select_low_half
      by (rewrite (spectrum_length demo_settled [1; 2; 3; 4] Hs eq_refl);
          reflexivity).
    rewrite length_firstn,
      (spectrum_length demo_settled [1; 2; 3; 4] Hs eq_refl).
    split; [reflexivity|]. intro H. discriminate H.
Qed.

(** ** The all-zero window *)

Section ZeroWindow.

Context {lib : Lib}.

Lemma mul_zero_window (n : nat) (t : list R) :
  List.length t = n ->
  map (fun p => (fst p * snd p)%R) (combine (repeat 0%R n) t) = repeat 0%R n.
Proof.
  revert t. induction n as [|n IH]; intros t Ht.
  - reflexivity.
  - destruct t as [|y t]; [discriminate|]. cbn. f_equal.
    + apply Rmult_0_l.
    + apply IH. cbn in Ht. lia.
Qed.

Lemma tapered_zero (w : worker) (n : nat) :
  settled w -> n = Z.to_nat (N w) ->
  tapered w (repeat 0 n) = repeat 0%R n.
Proof.
  intros (_ & _ & Htp) Hn. unfold tapered. rewrite map_repeat.
  destruct (Qltb 0 (alpha w)) eqn:Ea; [|reflexivity].
  destruct (Htp eq_refl) as [_ Hl].
  apply mul_zero_window. rewrite Hl, Hn. reflexivity.
Qed.

Lemma dft_sum_zero (g : nat * R -> complex) (l : list nat) (m : nat) :
  fold_right Cadd C0
    (map (fun mx => Cscale (snd mx) (g mx)) (combine l (repeat 0%R m))) = C0.
Proof.
  revert m. induction l as [|j l IH]; intro m; [reflexivity|].
  destruct m as [|m]; [reflexivity|].
  cbn [repeat combine map fold_right]. rewrite IH.
  unfold Cadd, Cscale, C0. cbn [fst snd]. f_equal; ring.
Qed.

Lemma dft_bin_zero (n k : nat) : dft_bin (repeat 0%R n) k = C0.
Proof.
  unfold dft_bin.
  apply (dft_sum_zero
           (fun mx => twiddle (List.length (repeat 0%R n)) (fst mx * k))).
Qed.

Lemma psd_zero (d : Q) : (0 < d)%Q -> psd d C0 = Fin 0.
Proof.
  intro Hd. unfold psd, np_div, Cabs, Cmul, C0. cbn [fst snd].
  apply Qlt_Rlt in Hd. rewrite RMicromega.Q2R_0 in Hd.
  replace ((0 * 0 - 0 * 0) * (0 * 0 - 0 * 0)
           + (0 * 0 + 0 * 0) * (0 * 0 + 0 * 0))%R with 0%R by ring.
  rewrite sqrt_0.
  destruct (Req_dec_T (Q2R d) 0) as [E|_].
  - rewrite E in Hd. exfalso. exact (Rlt_irrefl 0 Hd).
  - f_equal. unfold Rdiv. apply Rmult_0_l.
Qed.

Lemma log10_zero : log10 (Fin 0) = NInf.
Proof.
  unfold log10.
  destruct (Rlt_dec 0 0) as [H|_]; [exfalso; exact (Rlt_irrefl 0 H)|].
  destruct (Req_dec_T 0 0) as [_|H]; [reflexivity | congruence].
Qed.

(** The spectrum of the all-zero window is zero in every bin: nothing in
    it is infinite, and the floor is not written anywhere. *)
Lemma spectrum_zero (w : worker) (n : nat) :
  settled w -> (0 < df w)%Q -> n = Z.to_nat (N w) ->
  spectrum w (repeat 0 n) = repeat (Fin 0) n.
Proof.
  intros Hs Hd Hn. unfold spectrum. rewrite (tapered_zero w n Hs Hn).
  rewrite repeat_length, !map_map.
  rewrite (map_const_repeat _ (Fin 0)), length_seq; [reflexivity|].
  intros k _. rewrite dft_bin_zero, (psd_zero _ Hd). reflexivity.
Qed.

Lemma firstn_repeat_le {A : Type} (v : A) (h n : nat) :
  (h <= n)%nat -> firstn h (repeat v n) = repeat v h.
Proof.
  revert n. induction h as [|h IH]; intros n H; [reflexivity|].
  destruct n as [|n]; [lia|]. cbn. f_equal. apply IH. lia.
Qed.

Lemma skipn_repeat {A : Type} (v : A) (k n : nat) :
  skipn k (repeat v n) = repeat v (n - k).
Proof.
  revert n. induction k as [|k IH]; intro n.
  - rewrite Nat.sub_0_r. reflexivity.
  - destruct n as [|n]; [reflexivity|]. cbn. apply IH.
Qed.

Lemma dofft_zero_settled (w : worker) (h : nat) :
  settled w -> (0 < df w)%Q -> keepind w = low_half h ->
  (h + h)%nat = Z.to_nat (N w) ->
  dofft (repeat 0 (Z.to_nat (N w))) w = (Ok (repeat NInf h), w).
Proof.
  intros Hs Hd Hm Hh.
  assert (Hlen : Z.of_nat (List.length (repeat 0 (Z.to_nat (N w)))) = N w).
  { rewrite repeat_length. destruct Hs as [Hpos _]. lia. }
  rewrite (dofft_settled w _ Hs Hlen).
  rewrite (spectrum_zero w _ Hs Hd eq_refl), Hm.
  rewrite select_low_half by (rewrite repeat_length; symmetry; exact Hh).
  rewrite firstn_repeat_le by lia.
  rewrite map_repeat, log10_zero. reflexivity.
Qed.

End ZeroWindow.

(** C3 (what the code does at the failing input). After [calc_settings]
    with a positive rate and a positive length [N], [dofft] on the window
    of [N] zeros returns minus infinity in each of its [N/2] entries: the
    PSD of every bin is 0, which is not infinite, so the floor is not
    written and [log10 0] follows. *)
Theorem dofft_zero_window_minus_infinity (lib : Lib) (w0 w : worker) :
  tukey_ok lib -> 0 < fs w0 ->
  calc_settings w0 = (Ok tt, w) -> 0 < N w ->
  dofft (repeat 0 (Z.to_nat (N w))) w
    = (Ok (repeat NInf (Z.to_nat (N w / 2))), w) /\
  (0 < Z.to_nat (N w / 2))%nat /\ is_finite NInf = false.
Proof.
  intros Htk Hfs Hc Hpos.
  destruct (calc_settings_settled w0 w Htk Hfs Hc Hpos)
    as (Hs & Hmask & Hsum & Hd).
  split; [|split; [lia | reflexivity]].
  apply dofft_zero_settled; assumption.
Qed.

Lemma dofft_zero_window_minus_infinity_witness :
  dofft (lib := scipy_pyaudio) (repeat 0 (Z.to_nat (N demo_settled)))
      demo_settled
    = (Ok (repeat NInf (Z.to_nat (N demo_settled / 2))), demo_settled) /\
  (0 < Z.to_nat (N demo_settled / 2))%nat /\ is_finite NInf = false.
Proof.
  apply (dofft_zero_window_minus_infinity scipy_pyaudio
           (set_alpha 0 (set_dt (1 # 2) (set_fftwindow 1 demo_file)))
           demo_settled).
  - exact tukey_window_ok.
  - reflexivity.
  - exact demo_settled_by_calc_settings.
  - reflexivity.
Defined.

(** ** One turn of the loop *)

Section Cycle.

Context {lib : Lib}.

Lemma cycle_no_window (i : Z) (t c : Q) (w : worker) :
  pull_pcm i t w = Some (c, None) -> cycle i t w = (Ok true, w).
Proof.
  intro H. unfold cycle. monad_unfold. rewrite H. reflexivity.
Qed.

Lemma cycle_window (i : Z) (t c : Q) (w w1 : worker) (pcm : list Z)
    (sp : list fval) :
  pull_pcm i t w = Some (c, Some pcm) ->
  dofft pcm w = (Ok sp, w1) ->
  cycle i t w =
    (Ok true,
     set_signals (signals w1 ++ [Iterated i (maxnum w) (tabID w) c sp]) w1).
Proof.
  intros H Hd. unfold cycle. monad_unfold. rewrite H, Hd. reflexivity.
Qed.

Lemma pull_pcm_none (i : Z) (t : Q) (w : worker) :
  pull_pcm i t w = None <-> fromAudio w = true /\ maxnum w <= i.
Proof.
  unfold pull_pcm. destruct (fromAudio w).
  - destruct (i <? maxnum w) eqn:E.
    + apply Z.ltb_lt in E.
      destruct (_ && _); split; try discriminate; intros [_ H]; lia.
    + apply Z.ltb_ge in E. split; auto.
  - split; [discriminate | intros [H _]; discriminate].
Qed.

(** A file-backed worker whose iteration index has reached the length of
    the grid terminates with reason 0 and leaves the loop. *)
Lemma cycle_grid_exhausted (i : Z) (t : Q) (w : worker) :
  fromAudio w = true -> maxnum w <= i ->
  cycle i t w =
    (Ok false,
     set_signals (signals w ++ [Terminated (tabID w) 0])
       (set_isrunning false (set_reason 0 w))).
Proof.
  intros Hf Hi.
  assert (H : pull_pcm i t w = None) by (apply pull_pcm_none; auto).
  unfold cycle. unfold bind at 1. unfold get. rewrite H.
  unfold bind. rewrite (terminate_file 0 w Hf). reflexivity.
Qed.

Lemma pull_pcm_device (i : Z) (t : Q) (w : worker) :
  fromAudio w = false ->
  pull_pcm i t w =
    Some ((t - starttime w)%Q, Some (tail_slice (N w) (audiostream w))).
Proof. intro H. unfold pull_pcm. rewrite H. reflexivity. Qed.

Lemma tail_slice_length {A : Type} (n : Z) (l : list A) :
  0 < n <= Z.of_nat (List.length l) ->
  Z.of_nat (List.length (tail_slice n l)) = n.
Proof.
  intro H. unfold tail_slice, slice_bound.
  destruct (- n <? 0) eqn:E; [|apply Z.ltb_ge in E; lia].
  rewrite length_skipn. lia.
Qed.

(** On a settled device-backed worker whose buffer holds at least [N]
    entries, a turn of the loop reads a window, runs the estimator with no
    error and emits the record. *)
Lemma cycle_device_emits (i : Z) (t : Q) (w : worker) :
  fromAudio w = false -> settled w ->
  N w <= Z.of_nat (List.length (audiostream w)) ->
  cycle i t w =
    (Ok true,
     set_signals
       (signals w ++
        [Iterated i (maxnum w) (tabID w) (t - starttime w)
           (map log10
              (select (spectrum w (tail_slice (N w) (audiostream w)))
                      (keepind w)))]) w).
Proof.
  intros Hf Hs Hlen.
  assert (Hl : Z.of_nat (List.length (tail_slice (N w) (audiostream w)))
               = N w).
  { apply tail_slice_length. destruct Hs as [Hpos _]. lia. }
  apply (cycle_window i t _ w w _ _ (pull_pcm_device i t w Hf)).
  apply dofft_settled; assumption.
Qed.

End Cycle.

(** C4 (as the code has it). In the loop, a read that returns no window
    occurs only for a file-backed worker, at an iteration index inside
    the time grid; the turn then emits nothing and leaves every attribute
    as it was, and the loop continues: the worker does not terminate. *)
Theorem no_window_skips_and_continues (lib : Lib) (i : Z) (t c : Q)
    (w : worker) :
  pull_pcm i t w = Some (c, None) ->
  fromAudio w = true /\ i < maxnum w /\ cycle i t w = (Ok true, w).
Proof.
  intro H. split; [|split].
  - destruct (fromAudio w) eqn:Hf; [reflexivity|].
    rewrite (pull_pcm_device i t w Hf) in H. discriminate H.
  - destruct (Z.lt_ge_cases i (maxnum w)) as [Hlt|Hge]; [exact Hlt|].
    destruct (fromAudio w) eqn:Hf.
    + assert (Hn : pull_pcm i t w = None) by (apply pull_pcm_none; auto).
      rewrite Hn in H. discriminate H.
    + rewrite (pull_pcm_device i t w Hf) in H. discriminate H.
  - apply (cycle_no_window i t c w H).
Qed.

Lemma no_window_skips_and_continues_witness :
  fromAudio demo_file_running = true /\ 0 < maxnum demo_file_running /\
  cycle (lib := scipy_pyaudio) 0 0 demo_file_running
    = (Ok true, demo_file_running).
Proof.
  apply (no_window_skips_and_continues scipy_pyaudio 0 0 (0 # 2)
           demo_file_running).
  reflexivity.
Defined.

(** C4 as stated fails: the first turn of a file-backed worker reads at
    grid time 0, where the window would start before the buffer; the read
    returns no window, and after the turn the worker is still running and
    no termination was notified. *)
Lemma file_worker_survives_missing_window :
  pull_pcm 0 0 demo_file_running = Some (0 # 2, None) /\
  let out := run (lib := scipy_pyaudio) demo_env [mkTick [] 0] demo_file in
  fst out = Ok tt /\ isrunning (snd out) = true /\
  terminations (signals (snd out)) = [] /\ records (signals (snd out)) = [].
Proof.
  vm_compute. repeat split.
Qed.

Section Device.

Context {lib : Lib}.

Lemma init_device (E : env) (idx tab : Z) (start f d a r : Q) :
  default_rate E idx = Some r -> 0 < np_round r ->
  init E (DeviceSource idx) tab start f d a =
    (Ok tt,
     set_isrunning true
       (set_audiostream (repeat 0 buffer_len)
          (set_fs (np_round r)
             (set_fromAudio false (new_worker tab start f d a))))).
Proof.
  intros H Hr. unfold init, init_body. monad_unfold. rewrite H.
  cbn [fst snd].
  destruct (np_round r <=? 0) eqn:E0; [apply Z.leb_le in E0; lia|].
  reflexivity.
Qed.

Lemma tail_slice_repeat {A : Type} (v : A) (n : Z) (m : nat) :
  0 < n <= Z.of_nat m ->
  tail_slice n (repeat v m) = repeat v (Z.to_nat n).
Proof.
  intro H. unfold tail_slice, slice_bound. rewrite repeat_length.
  destruct (- n <? 0) eqn:E; [|apply Z.ltb_ge in E; lia].
  rewrite skipn_repeat. f_equal. lia.
Qed.

(** A running device-backed worker whose stream opens goes from the start
    of [run] to the loop with the settings stored by [changethresholds]. *)
Lemma run_enters_loop (E : env) (ticks : list tick) (w wcs : worker) :
  isrunning w = true -> reason w = 0 -> fromAudio w = false ->
  stream_opens E = true ->
  changethresholds (fftwindow w) (dt w) (alpha w) w = (Ok tt, wcs) ->
  run E ticks w =
    try_except (loop ticks (-1))
      (bind (modify (set_isrunning false)) (fun _ => terminate 4))
      (set_stream StreamOpen (set_maxnum 0 wcs)).
Proof.
  intros Hi Hr Hf Ho Hc.
  destruct (changethresholds_effect (fftwindow w) (dt w) (alpha w) w)
    as (_ & _ & Hg & _).
  rewrite Hc in Hg. cbn [snd] in Hg.
  assert (Hf' : fromAudio wcs = false).
  { unfold grid_of in Hg. congruence. }
  unfold run. cbn [barrier].
  unfold bind at 1. unfold bind at 1. unfold get at 1. rewrite Hi.
  unfold ret at 1. unfold bind at 1. unfold get at 1.
  cbn [negb]. rewrite Hr. cbn [Z.eqb negb].
  unfold bind at 1. rewrite Hc.
  unfold bind at 1. unfold get at 1.
  unfold bind at 1. rewrite Hf'.
  unfold bind at 1. unfold modify at 1. rewrite Ho.
  unfold modify at 1. reflexivity.
Qed.

End Device.

(** The device-backed demonstration worker at the top of the loop of
    [run]: the stream is open, [N = 4], and the rolling buffer still holds
    the 100000 zeros that [__init__] put there. *)
Lemma demo_device_started :
  exists w1 : worker,
    (forall ticks,
       run (lib := scipy_pyaudio) demo_env ticks demo_device =
         try_except (loop (lib := scipy_pyaudio) ticks (-1))
           (bind (modify (set_isrunning false))
                 (fun _ => terminate (lib := scipy_pyaudio) 4)) w1) /\
    fromAudio w1 = false /\ isrunning w1 = true /\ settled w1 /\
    N w1 = 4 /\ keepind w1 = low_half 2 /\
    audiostream w1 = repeat 0 buffer_len /\
    tabID w1 = 7 /\ starttime w1 = 0%Q /\ maxnum w1 = 0 /\
    records (signals w1) = [] /\ (0 < df w1)%Q.
Proof.
  pose proof (init_device (lib := scipy_pyaudio) demo_env 0 7 0 1 (1 # 2) 0
                (4 # 1) eq_refl eq_refl) as Hinit.
  unfold demo_device. rewrite Hinit. clear Hinit.
  cbn [snd].
  set (w := set_isrunning true _).
  assert (Ha : audiostream w = repeat 0 buffer_len) by reflexivity.
  set (w3 := set_alpha (stored_alpha (alpha w))
               (set_dt (dt w) (set_fftwindow (stored_window (fftwindow w)) w))).
  assert (HN : derived_N w3 = 4) by reflexivity.
  destruct (calc_settings_succeeds (lib := scipy_pyaudio) w3 tukey_window_ok
              ltac:(rewrite HN; lia)) as [wcs Hcs].
  assert (Hc : changethresholds (lib := scipy_pyaudio)
                 (fftwindow w) (dt w) (alpha w) w = (Ok tt, wcs)).
  { rewrite (changethresholds_unfold (lib := scipy_pyaudio)). exact Hcs. }
  destruct (calc_settings_fields (lib := scipy_pyaudio) w3 wcs Hcs)
    as (HNw & _ & _ & _ & _ & _ & Hsig).
  rewrite HN in HNw.
  destruct (calc_settings_settled (lib := scipy_pyaudio) w3 wcs
              tukey_window_ok eq_refl Hcs ltac:(rewrite HNw; lia))
    as (Hs & Hm & Hsum & Hd).
  pose proof (calc_settings_inputs (lib := scipy_pyaudio) w3) as Hin.
  rewrite Hcs in Hin. cbn [snd] in Hin.
  assert (Hrun : isrunning wcs = isrunning w3).
  { apply (f_equal (fun t => snd (fst (fst (fst (fst (fst t))))))) in Hin.
    exact Hin. }
  assert (Haud : audiostream wcs = audiostream w3).
  { apply (f_equal (fun t => snd (fst (fst t)))) in Hin. exact Hin. }
  clear Hin.
  pose proof (calc_settings_grid (lib := scipy_pyaudio) w3) as Hg.
  rewrite Hcs in Hg. cbn [snd] in Hg.
  assert (Htab : tabID wcs = tabID w3).
  { apply (f_equal (fun t => fst (fst (fst (fst t))))) in Hg. exact Hg. }
  assert (Hstart : starttime wcs = starttime w3).
  { apply (f_equal (fun t => snd (fst (fst (fst t))))) in Hg. exact Hg. }
  assert (Hfa : fromAudio wcs = fromAudio w3).
  { apply (f_equal (fun t => snd (fst (fst t)))) in Hg. exact Hg. }
  clear Hg.
  exists (set_stream StreamOpen (set_maxnum 0 wcs)).
  split; [|split; [|split; [|split; [|split; [|split; [|split;
    [|split; [|split; [|split; [|split]]]]]]]]]].
  - intro ticks.
    apply (run_enters_loop (lib := scipy_pyaudio) demo_env ticks w wcs
             eq_refl eq_refl eq_refl eq_refl Hc).
  - exact Hfa.
  - change (isrunning wcs = true). rewrite Hrun. reflexivity.
  - exact Hs.
  - exact HNw.
  - change (keepind wcs = low_half 2). rewrite Hm, HNw. reflexivity.
  - change (audiostream wcs = repeat 0 buffer_len). rewrite Haud. exact Ha.
  - change (tabID wcs = 7). rewrite Htab. reflexivity.
  - change (starttime wcs = 0%Q). rewrite Hstart. reflexivity.
  - reflexivity.
  - change (records (signals wcs) = []). rewrite Hsig, records_app.
    reflexivity.
  - exact Hd.
Qed.

Lemma buffer_len_holds (n : Z) :
  n <= 100000 -> n <= Z.of_nat (List.length (repeat 0 buffer_len)).
Proof.
  intro H. rewrite repeat_length. unfold buffer_len. lia.
Qed.

Lemma tail_slice_suffix {A : Type} (n : Z) (l : list A) :
  exists pre, l = (pre ++ tail_slice n l)%list.
Proof.
  unfold tail_slice.
  exists (firstn (Z.to_nat (slice_bound (List.length l) (- n))) l).
  symmetry. apply firstn_skipn.
Qed.

Lemma select_length {A B : Type} (a : list A) (b : list B)
    (mask : list bool) :
  List.length a = List.length b ->
  List.length (select a mask) = List.length (select b mask).
Proof.
  revert b mask. induction a as [|x a IH]; intros b mask H.
  - destruct b; [|discriminate H]. reflexivity.
  - destruct b as [|y b]; [discriminate H|].
    destruct mask as [|m mask]; [reflexivity|].
    cbn in H. injection H as H.
    cbn. destruct m; cbn; rewrite (IH b mask H); reflexivity.
Qed.

(** C7 (as the code has it).  A device-backed worker never skips a cycle
    for want of samples: whenever its settings are in place and the
    rolling buffer holds at least [N] entries (it holds 100000 zeros from
    construction on), the read of the turn returns the last [N] entries of
    the buffer, whether or not they came from the hardware callback; the
    estimator returns on them, leaving the worker as it was; and the turn
    appends exactly one spectral record to the log, with the index of the
    turn, the clock reading counted from [starttime] and the spectrum of
    those [N] entries, one value per kept bin, and goes on. *)
Theorem device_cycle_always_emits (lib : Lib) (i : Z) (t : Q) (w : worker) :
  fromAudio w = false -> settled w ->
  N w <= Z.of_nat (List.length (audiostream w)) ->
  exists pre pcm,
    audiostream w = (pre ++ pcm)%list /\
    Z.of_nat (List.length pcm) = N w /\
    pull_pcm i t w = Some ((t - starttime w)%Q, Some pcm) /\
    let sp := map log10 (select (spectrum w pcm) (keepind w)) in
    dofft pcm w = (Ok sp, w) /\
    cycle i t w =
      (Ok true,
       set_signals
         (signals w ++ [Iterated i (maxnum w) (tabID w) (t - starttime w) sp])
         w) /\
    List.length sp
      = List.length (select (repeat tt (Z.to_nat (N w))) (keepind w)).
Proof.
  intros Hf Hs Hlen.
  destruct (tail_slice_suffix (N w) (audiostream w)) as [pre Hpre].
  exists pre, (tail_slice (N w) (audiostream w)).
  assert (Hl : Z.of_nat (List.length (tail_slice (N w) (audiostream w)))
               = N w).
  { apply tail_slice_length. destruct Hs as [Hpos _]. lia. }
  split; [exact Hpre|]. split; [exact Hl|].
  split; [apply pull_pcm_device; exact Hf|].
  cbv zeta.
  split; [apply dofft_settled; assumption|].
  split; [apply cycle_device_emits; assumption|].
  rewrite length_map. apply select_length.
  rewrite (spectrum_length w _ Hs Hl), repeat_length. reflexivity.
Qed.

Lemma device_cycle_always_emits_witness :
  exists pre pcm,
    audiostream demo_device_running = (pre ++ pcm)%list /\
    Z.of_nat (List.length pcm) = N demo_device_running /\
    pull_pcm 0 1 demo_device_running
      = Some ((1 - starttime demo_device_running)%Q, Some pcm) /\
    let sp := map log10 (select (spectrum demo_device_running pcm)
                                (keepind demo_device_running)) in
    dofft (lib := scipy_pyaudio) pcm demo_device_running
      = (Ok sp, demo_device_running) /\
    cycle (lib := scipy_pyaudio) 0 1 demo_device_running =
      (Ok true,
       set_signals
         (signals demo_device_running ++
          [Iterated 0 (maxnum demo_device_running)
             (tabID demo_device_running)
             (1 - starttime demo_device_running) sp])
         demo_device_running) /\
    List.length sp =
      List.length (select (repeat tt (Z.to_nat (N demo_device_running)))
                     (keepind demo_device_running)).
Proof.
  destruct demo_device_started
    as (w1 & Hrun & Hf & _ & Hs & HN & _ & Ha & _).
  assert (Hw : demo_device_running = w1).
  { unfold demo_device_running. rewrite Hrun. reflexivity. }
  rewrite Hw.
  apply (device_cycle_always_emits scipy_pyaudio 0 1 w1 Hf Hs).
  rewrite Ha, HN. apply buffer_len_holds. lia.
Defined.

(** C7 as stated fails: the first turn of a device-backed worker, taken
    before the hardware callback has delivered anything, emits a spectral
    record; it is computed from the zeros that [__init__] put in the
    rolling buffer, which is still unchanged after the turn. *)
Lemma device_emits_before_any_sample :
  let out := run (lib := scipy_pyaudio) demo_env [mkTick [] 1] demo_device in
  fst out = Ok tt /\
  audiostream (snd out) = repeat 0 buffer_len /\
  records (signals (snd out)) = [(0, (1 - 0)%Q)] /\
  exists l, signals (snd out) =
    (l ++ [Iterated 0 0 7 (1 - 0) [NInf; NInf]])%list.
Proof.
  cbv zeta.
  destruct demo_device_started
    as (w1 & Hr & Hfa & Hrun & Hs1 & Hw1 & Hm & Ha1 & Htab & Hstart & Hmax
        & Hrec & Hd).
  rewrite Hr.
  assert (Hcy : cycle (lib := scipy_pyaudio) 0 1 w1 =
                (Ok true,
                 set_signals
                   (signals w1 ++ [Iterated 0 0 7 (1 - 0) [NInf; NInf]]) w1)).
  { assert (Hp : pull_pcm 0 1 w1
                 = Some ((1 - 0)%Q, Some (repeat 0 (Z.to_nat (N w1))))).
    { rewrite pull_pcm_device by exact Hfa.
      rewrite Hstart.
      rewrite Ha1, tail_slice_repeat; [reflexivity|].
      rewrite Hw1. unfold buffer_len. lia. }
    rewrite (cycle_window (lib := scipy_pyaudio) 0 1 _ w1 w1 _
               (repeat NInf 2) Hp).
    - rewrite Hmax, Htab. reflexivity.
    - apply (dofft_zero_settled (lib := scipy_pyaudio)); try assumption.
      rewrite Hw1. reflexivity. }
  assert (Hl : loop (lib := scipy_pyaudio) [mkTick [] 1] (-1) w1 =
               (Ok tt,
                set_signals
                  (signals w1 ++ [Iterated 0 0 7 (1 - 0) [NInf; NInf]]) w1)).
  { cbn [loop before now]. unfold apply_events. cbn [fold_left].
    change (-1 + 1) with 0.
    cbv beta iota delta [bind modify get ret]. rewrite Hrun, Hcy.
    reflexivity. }
  unfold try_except. rewrite Hl. cbn [fst snd].
  split; [reflexivity|]. split; [exact Ha1|]. split.
  - change (records (signals w1 ++ [Iterated 0 0 7 (1 - 0) [NInf; NInf]])
            = [(0, (1 - 0)%Q)]).
    rewrite records_app, Hrec. reflexivity.
  - eexists. reflexivity.
Qed.

(** ** Order of the spectral records of a run *)

Lemma arange_sorted (stop step : Q) (st : list Q) :
  (0 <= stop)%Q -> arange stop step = Some st ->
  forall a b : nat, (a <= b)%nat -> (b < List.length st)%nat ->
    (nth a st 0 <= nth b st 0)%Q.
Proof.
  intros Hstop H a b Hab Hb. unfold arange in H.
  destruct (Qeq_bool step 0) eqn:E; [discriminate H|].
  injection H as H. subst st.
  rewrite length_map, length_seq in Hb.
  set (f := fun k : nat => (inject_Z (Z.of_nat k) * step)%Q).
  assert (Hn : forall k, (k < Z.to_nat (Qceiling (stop / step)))%nat ->
            nth k (map f (seq 0 (Z.to_nat (Qceiling (stop / step))))) 0%Q
            = f k).
  { intros k Hk.
    rewrite (nth_indep _ 0%Q (f 0%nat))
      by (rewrite length_map, length_seq; exact Hk).
    rewrite map_nth, seq_nth by exact Hk. reflexivity. }
  rewrite (Hn a) by lia. rewrite (Hn b) by lia. unfold f.
  destruct (Qlt_le_dec 0 step) as [Hpos|Hneg].
  - apply Qmult_le_compat_r; [|apply Qlt_le_weak; exact Hpos].
    rewrite <- Zle_Qle. lia.
  - exfalso.
    assert (Hne : ~ (step == 0)%Q).
    { intro Heq. apply Qeq_bool_iff in Heq. congruence. }
    assert (Hlt : (0 < - step)%Q).
    { destruct (Qlt_le_dec 0 (- step)) as [Hl|Hl]; [exact Hl|].
      exfalso. apply Hne. lra. }
    assert (Hq : (stop / step <= 0)%Q).
    { assert (Heq : (stop / step == (- stop) / (- step))%Q)
        by (field; exact Hne).
      rewrite Heq. apply Qle_shift_div_r; [exact Hlt|]. lra. }
    assert (Hc : Qceiling (stop / step) <= 0).
    { pose proof (Qceiling_lt (stop / step)) as Hcl.
      assert (Hz : (inject_Z (Qceiling (stop / step) - 1) < inject_Z 0)%Q)
        by (eapply Qlt_le_trans; [exact Hcl | exact Hq]).
      rewrite <- Zlt_Qlt in Hz. lia. }
    lia.
Qed.

Lemma turn_time_grid (w w' : worker) (ticks : list tick) (p : Z * Q) :
  grid_of w' = grid_of w -> turn_time w' ticks p -> turn_time w ticks p.
Proof.
  unfold grid_of, turn_time. intro H.
  injection H as _ Hs Hf Hst Hm. rewrite Hs, Hf, Hst, Hm. auto.
Qed.

Lemma turn_time_later (w : worker) (t : tick) (ticks : list tick)
    (p : Z * Q) :
  turn_time w ticks p -> turn_time w (t :: ticks) p.
Proof.
  unfold turn_time. destruct (fromAudio w); [auto|].
  intros (t' & Hin & Hp). exists t'. split; [right; exact Hin | exact Hp].
Qed.

Lemma grid_sorted_grid (w w' : worker) :
  grid_of w' = grid_of w -> grid_sorted w -> grid_sorted w'.
Proof.
  unfold grid_of, grid_sorted. intro H.
  injection H as _ _ _ Hst Hm. rewrite Hst, Hm. auto.
Qed.

Lemma pull_pcm_window (i : Z) (t c : Q) (pcm : list Z) (w : worker) :
  pull_pcm i t w = Some (c, Some pcm) ->
  if fromAudio w then
    i < maxnum w /\ c = nth (Z.to_nat i) (sampletimes w) 0%Q
  else c = (t - starttime w)%Q.
Proof.
  unfold pull_pcm. destruct (fromAudio w).
  - destruct (i <? maxnum w) eqn:E; [|discriminate].
    apply Z.ltb_lt in E.
    destruct (_ && _); intro H; [|discriminate H].
    injection H as Hc _. split; [exact E | symmetry; exact Hc].
  - intro H. injection H as Hc _. symmetry. exact Hc.
Qed.

Section Ordering.

Context {lib : Lib}.

(** [dofft] writes at most the cached taper. *)
Lemma dofft_log (pcm : list Z) (w : worker) :
  signals (snd (dofft pcm w)) = signals w /\
  grid_of (snd (dofft pcm w)) = grid_of w.
Proof.
  unfold dofft. monad_unfold. cbn [fst snd].
  destruct (Qltb 0 (alpha w)).
  - destruct (_ =? taperlen w).
    + destruct (np_mul _ _) as [x'|]; [|split; reflexivity].
      destruct (fft x'); [|split; reflexivity].
      destruct (np_mask _ _); split; reflexivity.
    + destruct (tukey _ _) as [tp|]; [|split; reflexivity].
      cbn [fst snd].
      destruct (np_mul _ _) as [x'|]; [|split; reflexivity].
      destruct (fft x'); [|split; reflexivity].
      destruct (np_mask _ _); split; reflexivity.
  - destruct (fft (map IZR pcm)); [|split; reflexivity].
    destruct (np_mask _ _); split; reflexivity.
Qed.

(** One turn of the loop leaves the grid alone and appends at most one
    spectral record: the one of its own index and sample time, when the
    read gave a window and the estimator returned. *)
Lemma cycle_records (i : Z) (t : Q) (w : worker) :
  grid_of (snd (cycle i t w)) = grid_of w /\
  (records (signals (snd (cycle i t w))) = records (signals w) \/
   exists c pcm,
     pull_pcm i t w = Some (c, Some pcm) /\
     fst (cycle i t w) = Ok true /\
     records (signals (snd (cycle i t w)))
       = (records (signals w) ++ [(i, c)])%list).
Proof.
  destruct (pull_pcm i t w) as [[c [pcm|]]|] eqn:Hp.
  - destruct (dofft_log pcm w) as [Hs Hg].
    destruct (dofft pcm w) as [[sp|e] w'] eqn:Hd; cbn [fst snd] in Hs, Hg.
    + rewrite (cycle_window i t c w w' pcm sp Hp Hd). cbn [fst snd].
      split; [exact Hg|]. right. exists c, pcm.
      split; [reflexivity|]. split; [reflexivity|].
      change (records (signals w' ++ [Iterated i (maxnum w) (tabID w) c sp])
              = (records (signals w) ++ [(i, c)])%list).
      rewrite records_app, Hs. reflexivity.
    + assert (Heq : cycle i t w = (Raise e, w')).
      { unfold cycle. monad_unfold. rewrite Hp, Hd. reflexivity. }
      rewrite Heq. cbn [fst snd].
      split; [exact Hg|]. left. rewrite Hs. reflexivity.
  - rewrite (cycle_no_window i t c w Hp). cbn [fst snd].
    split; [reflexivity|]. left. reflexivity.
  - destruct (terminate_effect 0 w) as (_ & _ & Hg & Hr). cbv zeta in Hg, Hr.
    assert (Heq : snd (cycle i t w) = snd (terminate 0 w)).
    { unfold cycle. unfold bind at 1. unfold get at 1. rewrite Hp.
      unfold bind. destruct (terminate 0 w) as [[u|e] w']; reflexivity. }
    rewrite Heq. split; [exact Hg | left; exact Hr].
Qed.

Lemma apply_event_grid (e : event) (w : worker) :
  grid_of (apply_event e w) = grid_of w /\
  records (signals (apply_event e w)) = records (signals w).
Proof.
  destruct e as [b n| |f d a]; cbn [apply_event].
  - unfold updateaudiobuffer.
    destruct (negb (fromAudio w)); [|auto].
    destruct (isrunning w); auto.
  - unfold abort. destruct (terminate_effect 0 w) as (_ & _ & Hg & Hr). auto.
  - unfold changethresholds_slot.
    destruct (changethresholds_effect f d a w) as (_ & _ & Hg & Hr). auto.
Qed.

Lemma apply_events_grid (es : list event) (w : worker) :
  grid_of (apply_events es w) = grid_of w /\
  records (signals (apply_events es w)) = records (signals w).
Proof.
  revert w. induction es as [|e es IH]; intro w; [cbn; auto|].
  cbn [apply_events fold_left].
  destruct (apply_event_grid e w) as [Hg Hr].
  destruct (IH (apply_event e w)) as [Hg' Hr'].
  unfold apply_events in Hg', Hr'.
  rewrite Hg', Hr'. auto.
Qed.

Lemma grid_of_fields (w w' : worker) :
  grid_of w' = grid_of w ->
  tabID w' = tabID w /\ starttime w' = starttime w /\
  fromAudio w' = fromAudio w /\ sampletimes w' = sampletimes w /\
  maxnum w' = maxnum w.
Proof.
  unfold grid_of. intro H. injection H as H1 H2 H3 H4 H5. auto.
Qed.

Lemma loop_step (t : tick) (ticks : list tick) (i : Z) (w : worker) :
  loop (t :: ticks) i w =
    let w1 := apply_events (before t) w in
    if isrunning w1 then
      match cycle (i + 1) (now t) w1 with
      | (Ok true, w2) => loop ticks (i + 1) w2
      | (Ok false, w2) => (Ok tt, w2)
      | (Raise e, w2) => (Raise e, w2)
      end
    else (Ok tt, w1).
Proof.
  cbn [loop]. cbv beta iota zeta delta [bind modify get ret].
  destruct (isrunning (apply_events (before t) w)); [|reflexivity].
  destruct (cycle (i + 1) (now t) (apply_events (before t) w))
    as [[[|]|e] w2]; reflexivity.
Qed.

(** The records that the loop appends are in order, each later than the
    index the loop started from, and each with the sample time of its
    turn. *)
Lemma loop_records (ticks : list tick) : forall (i : Z) (w : worker),
  -1 <= i ->
  (fromAudio w = true -> grid_sorted w) ->
  (fromAudio w = false -> clock_monotone ticks) ->
  exists new,
    records (signals (snd (loop ticks i w)))
      = (records (signals w) ++ new)%list /\
    StronglySorted record_before new /\
    Forall (fun p => i < fst p /\ turn_time w ticks p) new.
Proof.
  induction ticks as [|t ticks IH]; intros i w Hi Hgs Hck.
  - exists []. cbn. rewrite app_nil_r. repeat split; constructor.
  - rewrite loop_step. cbv zeta.
    destruct (apply_events_grid (before t) w) as [Hg1 Hr1].
    set (w1 := apply_events (before t) w) in *.
    assert (Hstop : forall r w2,
              records (signals w2) = records (signals w1) ->
              exists new,
                records (signals (snd (r : result unit, w2)))
                  = (records (signals w) ++ new)%list /\
                StronglySorted record_before new /\
                Forall (fun p => i < fst p /\ turn_time w (t :: ticks) p) new).
    { intros r w2 H. exists []. cbn [snd]. rewrite H, Hr1, app_nil_r.
      repeat split; constructor. }
    destruct (isrunning w1); [|apply Hstop; reflexivity].
    destruct (cycle_records (i + 1) (now t) w1) as [Hg2 Hc].
    destruct (cycle (i + 1) (now t) w1) as [[[|]|e] w2] eqn:Hcy;
      cbn [fst snd] in Hg2, Hc.
    + assert (Hg : grid_of w2 = grid_of w) by congruence.
      destruct (grid_of_fields w w1 Hg1) as (_ & Hst1 & Hfa1 & Hsa1 & Hmx1).
      destruct (grid_of_fields w w2 Hg) as (_ & _ & Hfa2 & _ & _).
      destruct (IH (i + 1) w2) as (new' & Hn & Hsort & Hall).
      * lia.
      * intro H. apply (grid_sorted_grid w w2 Hg). apply Hgs. congruence.
      * intro H. rewrite Hfa2 in H. destruct (Hck H) as [_ Hck']. exact Hck'.
      * assert (Hweak : Forall
                  (fun p => i < fst p /\ turn_time w (t :: ticks) p) new').
        { eapply Forall_impl; [|exact Hall]. intros p [Hp1 Hp2].
          split; [lia|]. apply turn_time_later.
          apply (turn_time_grid w w2); assumption. }
        destruct Hc as [Hsame | (c & pcm & Hp & _ & Happ)].
        -- exists new'. rewrite Hn, Hsame, Hr1. auto.
        -- exists ((i + 1, c) :: new').
           rewrite Hn, Happ, Hr1, <- app_assoc.
           split; [reflexivity|].
           pose proof (pull_pcm_window _ _ _ _ _ Hp) as Hw.
           rewrite Hfa1, Hst1, Hsa1, Hmx1 in Hw.
           split.
           ++ constructor; [exact Hsort|].
              rewrite Forall_forall in Hall |- *. intros p Hin.
              destruct (Hall p Hin) as [Hlt Htt].
              apply (turn_time_grid w w2 _ _ Hg) in Htt.
              unfold turn_time in Htt.
              split; [cbn [fst]; lia|]. cbn [snd].
              destruct (fromAudio w) eqn:Hf.
              ** destruct Hw as [Hlt' Hc']. destruct Htt as [[_ Hb] Hsp].
                 rewrite Hc', Hsp.
                 destruct (Hgs eq_refl) as [Hmax Hord].
                 apply Hord; lia.
              ** destruct Htt as (t' & Hin' & Hsp). rewrite Hw, Hsp.
                 destruct (Hck eq_refl) as [Hnow _].
                 pose proof (Hnow t' Hin') as Hle. lra.
           ++ constructor; [|exact Hweak].
              split; [cbn [fst]; lia|].
              unfold turn_time. cbn [fst snd].
              destruct (fromAudio w).
              ** destruct Hw as [Hlt' Hc']. split; [lia | exact Hc'].
              ** exists t. split; [left; reflexivity | exact Hw].
    + apply Hstop. destruct Hc as [H | (c & pcm & _ & H & _)];
        [exact H | discriminate H].
    + apply Hstop. destruct Hc as [H | (c & pcm & _ & H & _)];
        [exact H | discriminate H].
Qed.

Lemma changethresholds_source (f d a : Q) (w : worker) :
  let w' := snd (changethresholds f d a w) in
  fs w' = fs w /\ lensignal w' = lensignal w.
Proof.
  cbv zeta. rewrite changethresholds_unfold.
  set (w3 := set_alpha _ _).
  pose proof (calc_settings_inputs w3) as Hin.
  unfold inputs_of in Hin. injection Hin as _ _ _ _ _ Hfs _ Hlen _.
  rewrite Hfs, Hlen. subst w3. destruct w. split; reflexivity.
Qed.

(** The state in which [run] leaves a worker that passes the barrier. *)
Lemma run_running (E : env) (ticks : list tick) (w : worker) :
  isrunning w = true -> reason w = 0 ->
  snd (run E ticks w) =
    match changethresholds (fftwindow w) (dt w) (alpha w) w with
    | (Ok _, wc) =>
        if fromAudio wc then
          if fs wc =? 0 then wc
          else
            match arange (inject_Z (lensignal wc) / inject_Z (fs wc))
                         (dt wc) with
            | None => wc
            | Some st =>
                snd (try_except (loop ticks (-1))
                       (bind (modify (set_isrunning false))
                             (fun _ => terminate 4))
                       (set_maxnum (Z.of_nat (List.length st))
                          (set_sampletimes st wc)))
            end
        else if stream_opens E then
          snd (try_except (loop ticks (-1))
                 (bind (modify (set_isrunning false)) (fun _ => terminate 4))
                 (set_stream StreamOpen (set_maxnum 0 wc)))
        else
          match terminate 2 (set_maxnum 0 wc) with
          | (Ok _, wt) =>
              snd (try_except (loop ticks (-1))
                     (bind (modify (set_isrunning false))
                           (fun _ => terminate 4)) wt)
          | (Raise _, wt) => wt
          end
    | (Raise _, wc) => wc
    end.
Proof.
  intros Hi Hr. unfold run. cbn [barrier].
  unfold bind at 1. unfold bind at 1. unfold get at 1. rewrite Hi.
  unfold ret at 1. unfold bind at 1. unfold get at 1.
  cbn [negb]. rewrite Hr. cbn [Z.eqb negb].
  unfold bind at 1.
  destruct (changethresholds (fftwindow w) (dt w) (alpha w) w)
    as [[u|e] wc]; [|reflexivity].
  unfold bind at 1. unfold get at 1.
  unfold bind at 1.
  destruct (fromAudio wc).
  - unfold bind at 1.
    destruct (fs wc =? 0); [reflexivity|].
    unfold ret at 1. unfold bind at 1. unfold bind at 1.
    destruct (arange _ (dt wc)) as [st|]; [|reflexivity].
    unfold lift, ret. unfold bind at 1. unfold modify. reflexivity.
  - unfold bind at 1. unfold modify at 1.
    destruct (stream_opens E); [reflexivity|].
    destruct (terminate 2 (set_maxnum 0 wc)) as [[u'|e'] wt]; reflexivity.
Qed.

(** An exception in the loop is caught; the handler emits no record. *)
Lemma guarded_loop_records (ticks : list tick) (w : worker) :
  (fromAudio w = true -> grid_sorted w) ->
  (fromAudio w = false -> clock_monotone ticks) ->
  exists new,
    records (signals
               (snd (try_except (loop ticks (-1))
                       (bind (modify (set_isrunning false))
                             (fun _ => terminate 4)) w)))
      = (records (signals w) ++ new)%list /\
    StronglySorted record_before new.
Proof.
  intros Hgs Hck.
  destruct (loop_records ticks (-1) w (Z.le_refl _) Hgs Hck)
    as (new & Hn & Hsort & _).
  exists new. split; [|exact Hsort].
  unfold try_except.
  destruct (loop ticks (-1) w) as [[u|e] w'] eqn:Hl; cbn [snd] in Hn.
  - exact Hn.
  - unfold bind, modify.
    destruct (terminate_effect 4 (set_isrunning false w'))
      as (_ & _ & _ & Hr).
    cbv zeta in Hr. rewrite Hr. exact Hn.
Qed.

Lemma run_reason_pending (E : env) (ticks : list tick) (w : worker) :
  isrunning w = true -> reason w <> 0 -> run E ticks w = (Ok tt, w).
Proof.
  intros Hi Hr. unfold run. cbn [barrier].
  unfold bind at 1. unfold bind at 1. unfold get at 1. rewrite Hi.
  unfold ret at 1. unfold bind at 1. unfold get at 1.
  cbn [negb]. apply Z.eqb_neq in Hr. rewrite Hr. reflexivity.
Qed.

Lemma duration_nonneg (l f : Z) :
  0 <= l -> 0 < f -> (0 <= inject_Z l / inject_Z f)%Q.
Proof.
  intros Hl Hf. apply Qle_shift_div_l.
  - change 0%Q with (inject_Z 0). rewrite <- Zlt_Qlt. exact Hf.
  - rewrite Qmult_0_l. change 0%Q with (inject_Z 0). rewrite <- Zle_Qle.
    exact Hl.
Qed.

(** The spectral records that one call of [run] adds to the log are in
    order. *)
Lemma run_records (E : env) (ticks : list tick) (w : worker) :
  (fromAudio w = true -> 0 <= fs w /\ 0 <= lensignal w) ->
  (fromAudio w = false -> clock_monotone ticks) ->
  exists new,
    records (signals (snd (run E ticks w)))
      = (records (signals w) ++ new)%list /\
    StronglySorted record_before new.
Proof.
  intros Hsrc Hck.
  assert (Hnil : forall w', records (signals w') = records (signals w) ->
            exists new,
              records (signals w') = (records (signals w) ++ new)%list /\
              StronglySorted record_before new).
  { intros w' H. exists []. rewrite app_nil_r. split; [exact H|constructor]. }
  destruct (isrunning w) eqn:Hi.
  2: { apply Hnil. apply (run_not_running E ticks w Hi). }
  destruct (Z.eq_dec (reason w) 0) as [Hr|Hr].
  2: { rewrite (run_reason_pending E ticks w Hi Hr). apply Hnil. reflexivity. }
  rewrite (run_running E ticks w Hi Hr).
  destruct (changethresholds_effect (fftwindow w) (dt w) (alpha w) w)
    as (_ & _ & Hg & Hrec).
  destruct (changethresholds_source (fftwindow w) (dt w) (alpha w) w)
    as (Hfs & Hlen).
  cbv zeta in Hg, Hrec, Hfs, Hlen.
  destruct (changethresholds (fftwindow w) (dt w) (alpha w) w)
    as [[u|e] wc]; cbn [snd] in Hg, Hrec, Hfs, Hlen;
    [|apply Hnil; exact Hrec].
  destruct (grid_of_fields w wc Hg) as (_ & _ & Hfa & _ & _).
  rewrite <- Hrec.
  destruct (fromAudio wc) eqn:Hf.
  - destruct (Hsrc (eq_sym Hfa)) as [Hfs0 Hlen0].
    destruct (fs wc =? 0) eqn:Efs; [exists []; rewrite app_nil_r; split;
                                    [reflexivity | constructor]|].
    apply Z.eqb_neq in Efs.
    destruct (arange _ (dt wc)) as [st|] eqn:Har;
      [|exists []; rewrite app_nil_r; split; [reflexivity | constructor]].
    apply (guarded_loop_records ticks
             (set_maxnum (Z.of_nat (List.length st)) (set_sampletimes st wc))).
    + intros _. split; [reflexivity|].
      change (forall a b : nat, (a <= b)%nat -> (b < List.length st)%nat ->
                (nth a st 0 <= nth b st 0)%Q).
      apply (arange_sorted _ _ st) with (2 := Har).
      apply duration_nonneg; lia.
    + intro H. change (fromAudio wc = false) in H. congruence.
  - assert (Hck' : clock_monotone ticks) by (apply Hck; congruence).
    destruct (stream_opens E).
    + apply (guarded_loop_records ticks
               (set_stream StreamOpen (set_maxnum 0 wc))).
      * intro H. change (fromAudio wc = true) in H. congruence.
      * intros _. exact Hck'.
    + destruct (terminate_effect 2 (set_maxnum 0 wc)) as (_ & _ & Hgt & Hrt).
      cbv zeta in Hgt, Hrt.
      destruct (terminate 2 (set_maxnum 0 wc)) as [[u'|e'] wt];
        cbn [snd] in Hgt, Hrt.
      * destruct (grid_of_fields _ wt Hgt) as (_ & _ & Hfat & _ & _).
        change (fromAudio wt = fromAudio wc) in Hfat.
        change (records (signals wt) = records (signals wc)) in Hrt.
        rewrite <- Hrt.
        apply (guarded_loop_records ticks wt).
        -- intro H. congruence.
        -- intros _. exact Hck'.
      * exists []. rewrite app_nil_r. split; [exact Hrt | constructor].
Qed.

(** One turn appends to the log what it owes, whatever its outcome. *)
Lemma cycle_emitted (i : Z) (t : Q) (w : worker) :
  records (signals (snd (cycle i t w)))
    = (records (signals w) ++ emitted (i, t, w))%list.
Proof.
  unfold emitted.
  destruct (pull_pcm i t w) as [[c [pcm|]]|] eqn:Hp.
  - destruct (dofft_log pcm w) as [Hs _].
    destruct (dofft pcm w) as [[sp|e] w'] eqn:Hd; cbn [fst snd] in Hs |- *.
    + rewrite (cycle_window i t c w w' pcm sp Hp Hd). cbn [snd].
      change (records (signals w' ++ [Iterated i (maxnum w) (tabID w) c sp])
              = (records (signals w) ++ [(i, c)])%list).
      rewrite records_app, Hs. reflexivity.
    + assert (Heq : cycle i t w = (Raise e, w')).
      { unfold cycle. monad_unfold. rewrite Hp, Hd. reflexivity. }
      rewrite Heq. cbn [snd]. rewrite Hs, app_nil_r. reflexivity.
  - rewrite (cycle_no_window i t c w Hp). cbn [snd].
    rewrite app_nil_r. reflexivity.
  - destruct (terminate_effect 0 w) as (_ & _ & _ & Hr). cbv zeta in Hr.
    assert (Heq : snd (cycle i t w) = snd (terminate 0 w)).
    { unfold cycle. unfold bind at 1. unfold get at 1. rewrite Hp.
      unfold bind. destruct (terminate 0 w) as [[u|e] w']; reflexivity. }
    rewrite Heq, app_nil_r. exact Hr.
Qed.

Lemma emitted_cases (i : Z) (t : Q) (w : worker) :
  emitted (i, t, w) = [] \/
  exists c pcm,
    pull_pcm i t w = Some (c, Some pcm) /\ emitted (i, t, w) = [(i, c)].
Proof.
  unfold emitted.
  destruct (pull_pcm i t w) as [[c [pcm|]]|]; [|left; reflexivity..].
  destruct (fst (dofft pcm w)); [|left; reflexivity].
  right. exists c, pcm. split; reflexivity.
Qed.

Lemma turns_step (t : tick) (ticks : list tick) (i : Z) (w : worker) :
  turns (t :: ticks) i w =
    let w1 := apply_events (before t) w in
    if isrunning w1 then
      (i + 1, now t, w1) ::
      match cycle (i + 1) (now t) w1 with
      | (Ok true, w2) => turns ticks (i + 1) w2
      | _ => []
      end
    else [].
Proof. reflexivity. Qed.

(** The log after the loop: the records of its turns, in turn order,
    after what was there. *)
Lemma loop_turns (ticks : list tick) : forall (i : Z) (w : worker),
  records (signals (snd (loop ticks i w)))
    = (records (signals w) ++ flat_map emitted (turns ticks i w))%list.
Proof.
  induction ticks as [|t ticks IH]; intros i w.
  - cbn. rewrite app_nil_r. reflexivity.
  - rewrite loop_step, turns_step. cbv zeta.
    destruct (apply_events_grid (before t) w) as [_ Hr1].
    set (w1 := apply_events (before t) w) in *.
    destruct (isrunning w1).
    + pose proof (cycle_emitted (i + 1) (now t) w1) as Hc.
      destruct (cycle (i + 1) (now t) w1) as [[[|]|e] w2];
        cbn [snd] in Hc; cbn [flat_map].
      * rewrite IH, Hc, Hr1, <- app_assoc. reflexivity.
      * cbn [snd]. rewrite Hc, Hr1, app_nil_r. reflexivity.
      * cbn [snd]. rewrite Hc, Hr1, app_nil_r. reflexivity.
    + cbn [snd flat_map]. rewrite Hr1, app_nil_r. reflexivity.
Qed.

(** The records of the turns: indices strictly increasing; the record of
    index [k] belongs to the turn of that index, and carries the entry
    [k] of the time grid for a file source and the clock reading of the
    turn, counted from [starttime], for a device source. *)
Lemma turns_records (ticks : list tick) : forall (i : Z) (w : worker),
  StronglySorted index_before (flat_map emitted (turns ticks i w)) /\
  Forall
    (fun p => i < fst p /\
       exists t, nth_error ticks (Z.to_nat (fst p - i - 1)) = Some t /\
         if fromAudio w then
           fst p < maxnum w /\
           snd p = nth (Z.to_nat (fst p)) (sampletimes w) 0%Q
         else snd p = (now t - starttime w)%Q)
    (flat_map emitted (turns ticks i w)).
Proof.
  induction ticks as [|t ticks IH]; intros i w.
  - cbn. split; constructor.
  - rewrite turns_step. cbv zeta.
    destruct (apply_events_grid (before t) w) as [Hg1 _].
    set (w1 := apply_events (before t) w) in *.
    destruct (isrunning w1); [|cbn; split; constructor].
    cbn [flat_map].
    destruct (grid_of_fields w w1 Hg1) as (_ & Hst1 & Hfa1 & Hsa1 & Hmx1).
    set (rest := match cycle (i + 1) (now t) w1 with
                 | (Ok true, w2) => turns ticks (i + 1) w2
                 | _ => []
                 end).
    assert (Hrest :
      StronglySorted index_before (flat_map emitted rest) /\
      Forall
        (fun p => i + 1 < fst p /\
           exists t', nth_error (t :: ticks) (Z.to_nat (fst p - i - 1))
                      = Some t' /\
             if fromAudio w then
               fst p < maxnum w /\
               snd p = nth (Z.to_nat (fst p)) (sampletimes w) 0%Q
             else snd p = (now t' - starttime w)%Q)
        (flat_map emitted rest)).
    { unfold rest.
      destruct (cycle_records (i + 1) (now t) w1) as [Hg2 _].
      destruct (cycle (i + 1) (now t) w1) as [[[|]|e] w2];
        cbn [snd] in Hg2; try (cbn; split; constructor).
      destruct (IH (i + 1) w2) as [Hsort Hall].
      split; [exact Hsort|].
      assert (Hg : grid_of w2 = grid_of w) by congruence.
      destruct (grid_of_fields w w2 Hg) as (_ & Hst2 & Hfa2 & Hsa2 & Hmx2).
      eapply Forall_impl; [|exact Hall].
      intros p (Hlt & t' & Hnth & Htime).
      split; [exact Hlt|]. exists t'. split.
      - replace (Z.to_nat (fst p - i - 1))
          with (S (Z.to_nat (fst p - (i + 1) - 1))) by lia.
        exact Hnth.
      - rewrite Hfa2, Hst2, Hsa2, Hmx2 in Htime. exact Htime. }
    destruct Hrest as [Hsort Hall].
    assert (Hweak :
      Forall
        (fun p => i < fst p /\
           exists t', nth_error (t :: ticks) (Z.to_nat (fst p - i - 1))
                      = Some t' /\
             if fromAudio w then
               fst p < maxnum w /\
               snd p = nth (Z.to_nat (fst p)) (sampletimes w) 0%Q
             else snd p = (now t' - starttime w)%Q)
        (flat_map emitted rest)).
    { eapply Forall_impl; [|exact Hall]. intros p [Hlt H].
      split; [lia | exact H]. }
    destruct (emitted_cases (i + 1) (now t) w1)
      as [He | (c & pcm & Hp & He)]; rewrite He.
    + split; [exact Hsort | exact Hweak].
    + cbn [app]. split.
      * constructor; [exact Hsort|].
        eapply Forall_impl; [|exact Hall]. intros p [Hlt _].
        unfold index_before. cbn [fst]. exact Hlt.
      * constructor; [|exact Hweak].
        cbn [fst snd]. split; [lia|]. exists t. split.
        -- replace (i + 1 - i - 1) with 0 by lia. reflexivity.
        -- pose proof (pull_pcm_window _ _ _ _ _ Hp) as Hw.
           rewrite Hfa1, Hst1, Hsa1, Hmx1 in Hw. exact Hw.
Qed.

(** [run] from the top of its loop on: the guarded loop on the worker
    that [loop_entry] gives. *)
Lemma run_from_entry (E : env) (ticks : list tick) (w w1 : worker) :
  loop_entry E w = Some w1 ->
  run E ticks w =
    try_except (loop ticks (-1))
      (bind (modify (set_isrunning false)) (fun _ => terminate 4)) w1.
Proof.
  unfold loop_entry.
  destruct (isrunning w) eqn:Hi; [|discriminate].
  destruct (reason w =? 0) eqn:Hr; [|discriminate]. cbn [andb].
  unfold run. cbn [barrier].
  unfold bind at 1. unfold bind at 1. unfold get at 1. rewrite Hi.
  unfold ret at 1. unfold bind at 1. unfold get at 1.
  cbn [negb]. rewrite Hr. cbn [negb].
  unfold bind at 1.
  destruct (changethresholds (fftwindow w) (dt w) (alpha w) w)
    as [[u|e] wc]; [|discriminate].
  unfold bind at 1. unfold get at 1.
  unfold bind at 1.
  destruct (fromAudio wc).
  - unfold bind at 1.
    destruct (fs wc =? 0); [discriminate|].
    unfold ret at 1. unfold bind at 1. unfold bind at 1.
    destruct (arange _ (dt wc)) as [st|]; [|discriminate].
    intro H. injection H as H. subst w1.
    unfold lift, ret. unfold bind at 1. unfold modify. reflexivity.
  - unfold bind at 1. unfold modify at 1.
    destruct (stream_opens E).
    + intro H. injection H as H. subst w1. reflexivity.
    + destruct (terminate 2 (set_maxnum 0 wc)) as [[u'|e'] wt];
        [|discriminate].
      intro H. injection H as H. subst w1. reflexivity.
Qed.

(** An exception in the loop is caught, and the handler emits no record:
    the log after the guarded loop holds the records of its turns. *)
Lemma guarded_loop_turns (ticks : list tick) (w : worker) :
  records (signals
             (snd (try_except (loop ticks (-1))
                     (bind (modify (set_isrunning false))
                           (fun _ => terminate 4)) w)))
    = (records (signals w) ++ flat_map emitted (turns ticks (-1) w))%list.
Proof.
  pose proof (loop_turns ticks (-1) w) as Hn.
  unfold try_except.
  destruct (loop ticks (-1) w) as [[u|e] w'] eqn:Hl; cbn [snd] in Hn.
  - exact Hn.
  - unfold bind, modify.
    destruct (terminate_effect 4 (set_isrunning false w'))
      as (_ & _ & _ & Hr).
    cbv zeta in Hr. rewrite Hr. exact Hn.
Qed.

(** The worker at the top of the loop is of the kind of the worker that
    [run] started from, and has its start time. *)
Lemma loop_entry_source (E : env) (w w1 : worker) :
  loop_entry E w = Some w1 ->
  fromAudio w1 = fromAudio w /\ starttime w1 = starttime w.
Proof.
  unfold loop_entry.
  destruct (isrunning w && (reason w =? 0)); [|discriminate].
  destruct (changethresholds_effect (fftwindow w) (dt w) (alpha w) w)
    as (_ & _ & Hg & _).
  cbv zeta in Hg.
  destruct (changethresholds (fftwindow w) (dt w) (alpha w) w)
    as [[u|e] wc]; cbn [snd] in Hg; [|discriminate].
  destruct (grid_of_fields w wc Hg) as (_ & Hst & Hfa & _ & _).
  destruct (fromAudio wc) eqn:Hf.
  - destruct (fs wc =? 0); [discriminate|].
    destruct (arange _ (dt wc)) as [st|]; [|discriminate].
    intro H. injection H as H. subst w1.
    split; [rewrite <- Hfa; exact Hf | exact Hst].
  - destruct (stream_opens E).
    + intro H. injection H as H. subst w1.
      split; [rewrite <- Hfa; exact Hf | exact Hst].
    + destruct (terminate_effect 2 (set_maxnum 0 wc)) as (_ & _ & Hgt & _).
      cbv zeta in Hgt.
      destruct (terminate 2 (set_maxnum 0 wc)) as [[u'|e'] wt];
        cbn [snd] in Hgt; [|discriminate].
      destruct (grid_of_fields _ wt Hgt) as (_ & Hstt & Hfat & _ & _).
      intro H. injection H as H. subst w1.
      change (fromAudio wt = fromAudio wc) in Hfat.
      change (starttime wt = starttime wc) in Hstt.
      split; congruence.
Qed.

(** The log after [run]: the records of the turns of its loop, after what
    was there. *)
Lemma run_turns (E : env) (ticks : list tick) (w : worker) :
  records (signals (snd (run E ticks w)))
    = (records (signals w) ++ run_emits E ticks w)%list.
Proof.
  unfold run_emits, loop_entry.
  destruct (isrunning w) eqn:Hi.
  2: { cbn [andb]. rewrite app_nil_r. apply (run_not_running E ticks w Hi). }
  destruct (Z.eq_dec (reason w) 0) as [Hr|Hr].
  2: { rewrite (run_reason_pending E ticks w Hi Hr).
       apply Z.eqb_neq in Hr. rewrite Hr. cbn [andb snd].
       rewrite app_nil_r. reflexivity. }
  rewrite (run_running E ticks w Hi Hr).
  rewrite Hr. cbn [andb Z.eqb].
  destruct (changethresholds_effect (fftwindow w) (dt w) (alpha w) w)
    as (_ & _ & _ & Hrec).
  cbv zeta in Hrec.
  destruct (changethresholds (fftwindow w) (dt w) (alpha w) w)
    as [[u|e] wc]; cbn [snd] in Hrec; [|rewrite app_nil_r; exact Hrec].
  rewrite <- Hrec.
  destruct (fromAudio wc).
  - destruct (fs wc =? 0); [rewrite app_nil_r; reflexivity|].
    destruct (arange _ (dt wc)) as [st|]; [|rewrite app_nil_r; reflexivity].
    apply (guarded_loop_turns ticks
             (set_maxnum (Z.of_nat (List.length st)) (set_sampletimes st wc))).
  - destruct (stream_opens E).
    + apply (guarded_loop_turns ticks
               (set_stream StreamOpen (set_maxnum 0 wc))).
    + destruct (terminate_effect 2 (set_maxnum 0 wc)) as (_ & _ & _ & Hrt).
      cbv zeta in Hrt.
      destruct (terminate 2 (set_maxnum 0 wc)) as [[u'|e'] wt];
        cbn [snd] in Hrt.
      * change (records (signals wt) = records (signals wc)) in Hrt.
        rewrite <- Hrt. apply guarded_loop_turns.
      * rewrite app_nil_r. exact Hrt.
Qed.

(** The records of a run have strictly increasing indices; the record of
    index [k] of a file source carries the entry [k] of the time grid that
    [run] stored, and the record of index [k] of a device source the clock
    reading of the turn [k], counted from [starttime]. *)
Lemma run_emits_turns (E : env) (ticks : list tick) (w : worker) :
  StronglySorted index_before (run_emits E ticks w) /\
  (fromAudio w = true ->
   forall w1, loop_entry E w = Some w1 ->
     Forall (fun p => 0 <= fst p < maxnum w1 /\
               snd p = nth (Z.to_nat (fst p)) (sampletimes w1) 0%Q)
            (run_emits E ticks w)) /\
  (fromAudio w = false ->
   Forall (fun p => 0 <= fst p /\
             exists t, nth_error ticks (Z.to_nat (fst p)) = Some t /\
                       snd p = (now t - starttime w)%Q)
          (run_emits E ticks w)).
Proof.
  unfold run_emits.
  destruct (loop_entry E w) as [w1|] eqn:He;
    [|split; [constructor
             |split; [intros _ w1 H; discriminate H | intros _; constructor]]].
  destruct (loop_entry_source E w w1 He) as [Hfa Hst].
  destruct (turns_records ticks (-1) w1) as [Hsort Hall].
  split; [exact Hsort|]. split.
  - intros Hf w1' H1. injection H1 as H1. subst w1'.
    eapply Forall_impl; [|exact Hall].
    intros p (Hlt & t & _ & Htime).
    rewrite Hfa, Hf in Htime. destruct Htime as [Hmax Htime].
    split; [lia | exact Htime].
  - intro Hf. eapply Forall_impl; [|exact Hall].
    intros p (Hlt & t & Hnth & Htime).
    rewrite Hfa, Hf, Hst in Htime.
    split; [lia|]. exists t. split; [|exact Htime].
    replace (fst p) with (fst p - -1 - 1) at 1 by lia. exact Hnth.
Qed.

(** They are in order of sample time as well, for a file source of rate
    and length that are not negative, and for a device source whose clock
    readings never go back. *)
Lemma run_emits_sorted (E : env) (ticks : list tick) (w : worker) :
  (fromAudio w = true -> 0 <= fs w /\ 0 <= lensignal w) ->
  (fromAudio w = false -> clock_monotone ticks) ->
  StronglySorted record_before (run_emits E ticks w).
Proof.
  intros Hsrc Hck.
  destruct (run_records E ticks w Hsrc Hck) as (new & Hn & Hsort).
  rewrite run_turns in Hn. apply app_inv_head in Hn.
  rewrite Hn. exact Hsort.
Qed.

End Ordering.

(** ** The loop of a device source *)

Section DeviceRun.

Context {lib : Lib}.

Lemma apply_events_deliveries (es : list event) : forall w : worker,
  isrunning w = true -> fromAudio w = false ->
  Forall good_delivery es ->
  exists l,
    apply_events es w = set_audiostream l w /\
    (List.length (audiostream w) <= List.length l)%nat.
Proof.
  induction es as [|e es IH]; intros w Hi Hf Hg.
  - exists (audiostream w). split; [destruct w; reflexivity | lia].
  - inversion Hg as [|e0 es0 He Hes]; subst e0 es0.
    destruct e as [b n| |f d a]; cbn in He; try contradiction.
    cbn [apply_events fold_left apply_event]. rewrite Hf. cbn [negb].
    unfold updateaudiobuffer. rewrite Hi.
    set (l1 := skipn _ (audiostream w ++ b)).
    assert (Hl1 : (List.length (audiostream w) <= List.length l1)%nat).
    { unfold l1, slice_bound.
      destruct (n <? 0) eqn:E; [apply Z.ltb_lt in E; lia|].
      rewrite length_skipn, length_app. lia. }
    destruct (IH (set_audiostream l1 w) Hi Hf Hes) as (l & Hl & Hlen).
    exists l. split.
    + unfold apply_events in Hl. rewrite Hl. reflexivity.
    + change (List.length l1 <= List.length l)%nat in Hlen. lia.
Qed.

Lemma device_loop_records : forall (ticks : list tick) (i : Z) (w : worker),
  isrunning w = true -> fromAudio w = false -> settled w ->
  N w <= Z.of_nat (List.length (audiostream w)) ->
  Forall (fun t => Forall good_delivery (before t)) ticks ->
  exists wf,
    loop ticks i w = (Ok tt, wf) /\ isrunning wf = true /\
    records (signals wf)
      = (records (signals w) ++ device_records (starttime w) (i + 1) ticks)%list
    /\
    terminations (signals wf) = terminations (signals w) /\
    (List.length (audiostream w) <= List.length (audiostream wf))%nat.
Proof.
  induction ticks as [|t ticks IH]; intros i w Hi Hf Hs Hbuf Hg.
  - exists w. cbn. rewrite app_nil_r. repeat split; auto.
  - inversion Hg as [|t0 ticks0 Ht Hrest]; subst t0 ticks0.
    rewrite loop_step. cbv zeta.
    destruct (apply_events_deliveries (before t) w Hi Hf Ht) as (l & Hl & Hlen).
    rewrite Hl.
    change (isrunning (set_audiostream l w)) with (isrunning w). rewrite Hi.
    assert (Hbuf1 : N (set_audiostream l w)
                    <= Z.of_nat (List.length
                                   (audiostream (set_audiostream l w)))).
    { change (N w <= Z.of_nat (List.length l)). lia. }
    rewrite (cycle_device_emits (i + 1) (now t) (set_audiostream l w) Hf Hs
               Hbuf1).
    match goal with
    | |- exists wf, loop ticks (i + 1) ?w2 = _ /\ _ =>
        destruct (IH (i + 1) w2 Hi Hf Hs Hbuf1 Hrest)
          as (wf & Hlo & Hir & Hrc & Htm & Hle)
    end.
    exists wf. split; [exact Hlo|]. split; [exact Hir|].
    split; [|split].
    + rewrite Hrc.
      match goal with
      | |- (records (signals (set_signals ?s _)) ++ _)%list = _ =>
          change (records (signals (set_signals s (set_audiostream l w))))
            with (records s)
      end.
      rewrite records_app, <- app_assoc. reflexivity.
    + rewrite Htm.
      match goal with
      | |- terminations (signals (set_signals ?s _)) = _ =>
          change (terminations (signals (set_signals s (set_audiostream l w))))
            with (terminations s)
      end.
      rewrite terminations_app. cbn. apply app_nil_r.
    + change (List.length l <= List.length (audiostream wf))%nat in Hle. lia.
Qed.

End DeviceRun.

(** C9 (as the code has it).  The spectral records that one call of
    [run] adds to the log are, after the records that were already there,
    exactly the records of the turns of its loop, in the order of the
    turns: a turn whose read gives a window and whose estimator returns
    adds the record of its index and sample time, a turn without a window
    adds nothing, and no other record is added, dropped or moved.  Their
    iteration indices are strictly increasing.  For a file source the
    record of index [k] carries the entry [k] of the time grid that [run]
    stored, and for a rate and a length that are not negative the sample
    times never decrease.  For a device source the record of index [k]
    carries the clock reading of the turn [k], counted from [starttime]:
    the sample times never decrease if the clock readings never go
    back. *)
Theorem run_records_in_order (lib : Lib) (E : env) (ticks : list tick)
    (w : worker) :
  let new := run_emits E ticks w in
  records (signals (snd (run E ticks w))) = (records (signals w) ++ new)%list /\
  StronglySorted index_before new /\
  (fromAudio w = true ->
   forall w1, loop_entry E w = Some w1 ->
     Forall (fun p => 0 <= fst p < maxnum w1 /\
               snd p = nth (Z.to_nat (fst p)) (sampletimes w1) 0%Q) new) /\
  (fromAudio w = true -> 0 <= fs w -> 0 <= lensignal w ->
   StronglySorted record_before new) /\
  (fromAudio w = false ->
   Forall (fun p => 0 <= fst p /\
             exists t, nth_error ticks (Z.to_nat (fst p)) = Some t /\
                       snd p = (now t - starttime w)%Q) new) /\
  (fromAudio w = false -> clock_monotone ticks ->
   StronglySorted record_before new).
Proof.
  cbv zeta.
  destruct (run_emits_turns E ticks w) as (Hidx & Hfile & Hdev).
  split; [apply run_turns|]. split; [exact Hidx|].
  split; [exact Hfile|].
  split; [|split; [exact Hdev|]].
  - intros Hf Hfs Hlen. apply run_emits_sorted.
    + intros _. split; assumption.
    + intro H. congruence.
  - intros Hf Hck. apply run_emits_sorted.
    + intro H. congruence.
    + intros _. exact Hck.
Qed.

(** The demonstration file, three turns: the turns of index 1 and 2 have a
    window (grid times 1/2 and 1), the turn of index 0 has none. *)
Lemma run_records_in_order_witness :
  let ticks := [mkTick [] 0; mkTick [] 1; mkTick [] 2] in
  let new := run_emits (lib := scipy_pyaudio) demo_env ticks demo_file in
  records (signals (snd (run (lib := scipy_pyaudio) demo_env ticks demo_file)))
    = (records (signals demo_file) ++ new)%list /\
  StronglySorted index_before new /\
  StronglySorted record_before new /\
  new = [(1, 1 # 2); (2, 2 # 2)].
Proof.
  cbv zeta.
  destruct (run_records_in_order scipy_pyaudio demo_env
              [mkTick [] 0; mkTick [] 1; mkTick [] 2] demo_file)
    as (H1 & H2 & _ & H3 & _).
  split; [exact H1|]. split; [exact H2|]. split.
  - apply H3; [reflexivity | vm_compute; discriminate
               | vm_compute; discriminate].
  - vm_compute. reflexivity.
Defined.

(** C9 as stated fails for a device source: the sample time of a record
    is the reading of the wall clock ([utcnow()]) counted from
    [starttime], and when that clock is set back between two turns the
    later record carries the earlier sample time. *)
Lemma device_sample_time_goes_back :
  let out :=
    run (lib := scipy_pyaudio) demo_env [mkTick [] 2; mkTick [] 1]
      demo_device in
  fst out = Ok tt /\
  records (signals (snd out)) = [(0, (2 - 0)%Q); (1, (1 - 0)%Q)] /\
  (1 - 0 < 2 - 0)%Q /\
  ~ StronglySorted record_before (records (signals (snd out))).
Proof.
  cbv zeta.
  destruct demo_device_started
    as (w1 & Hr & Hfa & Hrun & Hs1 & Hw1 & _ & Ha1 & _ & Hstart & _
        & Hrec & _).
  rewrite Hr.
  destruct (device_loop_records (lib := scipy_pyaudio)
              [mkTick [] 2; mkTick [] 1] (-1) w1 Hrun Hfa Hs1)
    as (wf & Hl & _ & Hrc & _).
  - rewrite Ha1, Hw1. apply buffer_len_holds. lia.
  - repeat constructor.
  - unfold try_except. rewrite Hl. cbn [fst snd].
    rewrite Hrc, Hrec, Hstart. cbn [app device_records now].
    change (-1 + 1) with 0. change (0 + 1) with 1.
    split; [reflexivity|]. split; [reflexivity|].
    split; [reflexivity|].
    intro H. inversion H as [|a l _ Hall]; subst.
    inversion Hall as [|b l' [_ Hle] _]; subst.
    cbn [snd] in Hle. revert Hle. vm_compute. intro Hle. apply Hle.
    reflexivity.
Qed.

(** * Further properties of the worker *)

(** ** The published settings *)

Section Axis.

Context {lib : Lib}.

Lemma calc_settings_freqs_all (w w' : worker) :
  calc_settings w = (Ok tt, w') ->
  freqs_all w' =
    map (fun n => if Qltb (inject_Z n) (inject_Z (N w') / 2)
                  then (df w' * inject_Z n)%Q
                  else (df w' * inject_Z (n - N w'))%Q) (range (N w')).
Proof.
  unfold calc_settings. monad_unfold. cbn.
  set (N1 := if negb (_ =? 0) then _ else _).
  destruct (Qltb 0 (alpha w)) eqn:Ea; cbn.
  - destruct (tukey N1 (alpha w)) as [tp|] eqn:Et; cbn; [|discriminate].
    destruct (N1 =? 0) eqn:En; cbn; [discriminate|].
    intro H. apply (f_equal snd) in H. cbn [snd] in H. subst w'.
    destruct w. fields. reflexivity.
  - destruct (N1 =? 0) eqn:En; cbn; [discriminate|].
    intro H. apply (f_equal snd) in H. cbn [snd] in H. subst w'.
    destruct w. fields. reflexivity.
Qed.

Lemma calc_settings_taperlen (w w' : worker) :
  calc_settings w = (Ok tt, w') ->
  taperlen w' =
    if Qltb 0 (alpha w) then
      match tukey (derived_N w) (alpha w) with
      | Some tp => Z.of_nat (List.length tp)
      | None => 0
      end
    else 0.
Proof.
  unfold calc_settings, derived_N. monad_unfold. cbn.
  set (N1 := if negb (_ =? 0) then _ else _).
  destruct (Qltb 0 (alpha w)) eqn:Ea; cbn.
  - destruct (tukey N1 (alpha w)) as [tp|] eqn:Et; cbn; [|discriminate].
    destruct (N1 =? 0) eqn:En; cbn; [discriminate|].
    intro H. apply (f_equal snd) in H. cbn [snd] in H. subst w'.
    destruct w. fields. reflexivity.
  - destruct (N1 =? 0) eqn:En; cbn; [discriminate|].
    intro H. apply (f_equal snd) in H. cbn [snd] in H. subst w'.
    destruct w. fields. reflexivity.
Qed.

Lemma even_halves (n : Z) :
  0 < n -> Z.even n = true ->
  (0 < Z.to_nat (n / 2))%nat /\
  n = Z.of_nat (Z.to_nat (n / 2) + Z.to_nat (n / 2)).
Proof.
  intros Hpos Hev. apply Z.even_spec in Hev. destruct Hev as [k Hk].
  subst n. replace (2 * k / 2) with k by (Z.div_mod_to_equations; lia).
  split; lia.
Qed.

Lemma calc_settings_mask (w w' : worker) :
  0 < fs w -> calc_settings w = (Ok tt, w') -> 0 < N w' ->
  keepind w' = low_half (Z.to_nat (N w' / 2)).
Proof.
  intros Hfs Hc Hpos.
  destruct (calc_settings_fields w w' Hc) as (HN & _ & Hdf & Hk & _).
  pose proof (derived_N_even w) as Hev. rewrite <- HN in Hev.
  destruct (even_halves (N w') Hpos Hev) as [Hh Hsum].
  rewrite Hk, Hdf.
  apply (keep_mask_low_half (fs w) (N w') _ Hfs Hh Hsum).
Qed.

End Axis.

(** X1. The frequency axis that [calc_settings] publishes: the multiples
    [0, df, ..., (N/2 - 1) df] of the resolution, all below the Nyquist
    frequency [fs / 2], sent with [statsupdated] as the last signal. *)
Theorem calc_settings_frequency_axis (lib : Lib) (w w' : worker) :
  0 < fs w -> calc_settings w = (Ok tt, w') -> 0 < N w' ->
  freqs w' =
    map (fun k => (df w' * inject_Z (Z.of_nat k))%Q)
        (seq 0 (Z.to_nat (N w' / 2))) /\
  (forall f, In f (freqs w') ->
     (0 <= f)%Q /\ (f < inject_Z (fs w) / 2)%Q) /\
  signals w' =
    (signals w ++ [StatsUpdated (tabID w) (fs w) (df w') (N w') (freqs w')])%list.
Proof.
  intros Hfs Hc Hpos.
  destruct (calc_settings_fields w w' Hc) as (HN & _ & Hdf & _ & Hfr & _ & Hsig).
  pose proof (derived_N_even w) as Hev. rewrite <- HN in Hev.
  destruct (even_halves (N w') Hpos Hev) as [Hh Hsum].
  set (h := Z.to_nat (N w' / 2)) in *.
  assert (Hax : freqs w' =
            map (fun k => (df w' * inject_Z (Z.of_nat k))%Q) (seq 0 h)).
  { rewrite Hfr, (calc_settings_mask w w' Hfs Hc Hpos).
    fold h. rewrite (calc_settings_freqs_all w w' Hc).
    rewrite select_low_half
      by (unfold range; rewrite !length_map, length_seq; lia).
    unfold range. rewrite !firstn_map.
    replace (Z.to_nat (N w')) with (h + h)%nat by lia.
    assert (Hseq : firstn h (seq 0 (h + h)) = seq 0 h).
    { rewrite seq_app, firstn_app, length_seq, Nat.sub_diag, firstn_O,
        app_nil_r.
      apply firstn_all2. rewrite length_seq. lia. }
    rewrite Hseq.
    rewrite map_map. apply map_ext_in. intros k Hk. apply in_seq in Hk.
    assert (E : Qltb (inject_Z (Z.of_nat k)) (inject_Z (N w') / 2) = true).
    { apply Qltb_true. rewrite Hsum.
      unfold Qlt, Qdiv, Qmult, Qinv, inject_Z. cbn. lia. }
    rewrite E. reflexivity. }
  split; [exact Hax|]. split; [|exact Hsig].
  intros f Hin. rewrite Hax in Hin. apply in_map_iff in Hin.
  destruct Hin as (k & Hf & Hk). apply in_seq in Hk. subst f.
  rewrite Hdf.
  destruct (N w') as [|p|p] eqn:EN; try lia.
  split.
  - unfold Qle, Qdiv, Qmult, Qinv, inject_Z. cbn. nia.
  - unfold Qlt, Qdiv, Qmult, Qinv, inject_Z. cbn. nia.
Qed.

Lemma calc_settings_frequency_axis_witness :
  freqs demo_settled =
    map (fun k => (df demo_settled * inject_Z (Z.of_nat k))%Q)
        (seq 0 (Z.to_nat (N demo_settled / 2))) /\
  (forall f, In f (freqs demo_settled) ->
     (0 <= f)%Q /\
     (f < inject_Z
            (fs (set_alpha 0 (set_dt (1 # 2) (set_fftwindow 1 demo_file))))
          / 2)%Q) /\
  signals demo_settled =
    (signals (set_alpha 0 (set_dt (1 # 2) (set_fftwindow 1 demo_file))) ++
     [StatsUpdated
        (tabID (set_alpha 0 (set_dt (1 # 2) (set_fftwindow 1 demo_file))))
        (fs (set_alpha 0 (set_dt (1 # 2) (set_fftwindow 1 demo_file))))
        (df demo_settled) (N demo_settled) (freqs demo_settled)])%list.
Proof.
  apply (calc_settings_frequency_axis scipy_pyaudio
           (set_alpha 0 (set_dt (1 # 2) (set_fftwindow 1 demo_file)))
           demo_settled).
  - reflexivity.
  - exact demo_settled_by_calc_settings.
  - reflexivity.
Defined.

(** X2. A window so short that the derived length is zero: [calc_settings]
    raises [ZeroDivisionError] at [fs / N].  By then [N = 0] (and the
    taper, if one is in use) is stored, while the resolution, the mask and
    the frequency axis are still the old ones, and nothing is published. *)
Theorem calc_settings_zero_length (lib : Lib) (w : worker) :
  tukey_ok lib -> derived_N w = 0 ->
  exists w',
    calc_settings w = (Raise ZeroDivisionError, w') /\
    N w' = 0 /\ df w' = df w /\ keepind w' = keepind w /\
    freqs w' = freqs w /\ signals w' = signals w.
Proof.
  intros Htk HN.
  unfold calc_settings. monad_unfold. cbn. fold (derived_N w). rewrite HN.
  destruct (Qltb 0 (alpha w)); cbn.
  - destruct (Htk 0 (alpha w) (Z.le_refl 0)) as (tp & Ht & _).
    rewrite Ht. cbn. eexists. split; [reflexivity|].
    destruct w. fields. repeat split.
  - eexists. split; [reflexivity|]. destruct w. fields. repeat split.
Qed.

Lemma calc_settings_zero_length_witness :
  exists w',
    calc_settings (lib := scipy_pyaudio) (set_fftwindow (1 # 10) demo_settled)
      = (Raise ZeroDivisionError, w') /\
    N w' = 0 /\ df w' = df (set_fftwindow (1 # 10) demo_settled) /\
    keepind w' = keepind (set_fftwindow (1 # 10) demo_settled) /\
    freqs w' = freqs (set_fftwindow (1 # 10) demo_settled) /\
    signals w' = signals (set_fftwindow (1 # 10) demo_settled).
Proof.
  apply (calc_settings_zero_length scipy_pyaudio
           (set_fftwindow (1 # 10) demo_settled)).
  - exact tukey_window_ok.
  - reflexivity.
Defined.

(** X3. Reconfiguration has no memory: after two calls of [changethresholds]
    that return, the stored inputs and the derived length, resolution,
    axis, mask and taper length are those of the second call alone. *)
Theorem changethresholds_last_call_wins (lib : Lib)
    (f1 d1 a1 f2 d2 a2 : Q) (w w1 w2 w2' : worker) :
  snd (changethresholds f1 d1 a1 w) = w1 ->
  changethresholds f2 d2 a2 w1 = (Ok tt, w2) ->
  changethresholds f2 d2 a2 w = (Ok tt, w2') ->
  fftwindow w2 = fftwindow w2' /\ dt w2 = dt w2' /\ alpha w2 = alpha w2' /\
  N w2 = N w2' /\ df w2 = df w2' /\ freqs_all w2 = freqs_all w2' /\
  keepind w2 = keepind w2' /\ freqs w2 = freqs w2' /\
  taperlen w2 = taperlen w2'.
Proof.
  intros H1 H2 H2'.
  destruct (changethresholds_source f1 d1 a1 w) as [Hfs _].
  cbv zeta in Hfs. rewrite H1 in Hfs.
  rewrite changethresholds_unfold in H2, H2'.
  set (v := set_alpha (stored_alpha a2)
              (set_dt d2 (set_fftwindow (stored_window f2) w1))) in H2.
  set (v' := set_alpha (stored_alpha a2)
               (set_dt d2 (set_fftwindow (stored_window f2) w))) in H2'.
  assert (Hfv : fs v = fs v') by exact Hfs.
  assert (HdN : derived_N v = derived_N v').
  { unfold derived_N. rewrite Hfv. reflexivity. }
  pose proof (calc_settings_inputs v) as Hi. rewrite H2 in Hi.
  pose proof (calc_settings_inputs v') as Hi'. rewrite H2' in Hi'.
  cbn [snd] in Hi, Hi'. unfold inputs_of in Hi, Hi'.
  injection Hi as Hf Hd Ha _ _ _ _ _ _.
  injection Hi' as Hf' Hd' Ha' _ _ _ _ _ _.
  destruct (calc_settings_fields v w2 H2) as (HN & _ & Hdf & Hk & Hfr & _).
  destruct (calc_settings_fields v' w2' H2') as (HN' & _ & Hdf' & Hk' & Hfr' & _).
  pose proof (calc_settings_freqs_all v w2 H2) as Hfa.
  pose proof (calc_settings_freqs_all v' w2' H2') as Hfa'.
  assert (EN : N w2 = N w2') by congruence.
  assert (Edf : df w2 = df w2') by (rewrite Hdf, Hdf', EN, Hfv; reflexivity).
  assert (Efa : freqs_all w2 = freqs_all w2')
    by (rewrite Hfa, Hfa', EN, Edf; reflexivity).
  assert (Ek : keepind w2 = keepind w2')
    by (rewrite Hk, Hk', EN, Edf; reflexivity).
  split; [rewrite Hf, Hf'; reflexivity|].
  split; [rewrite Hd, Hd'; reflexivity|].
  split; [rewrite Ha, Ha'; reflexivity|].
  split; [exact EN|]. split; [exact Edf|]. split; [exact Efa|].
  split; [exact Ek|]. split; [rewrite Hfr, Hfr', Efa, Ek; reflexivity|].
  rewrite (calc_settings_taperlen v w2 H2), (calc_settings_taperlen v' w2' H2').
  rewrite HdN. reflexivity.
Qed.

Lemma reconfigure_succeeds (w1 : worker) :
  fs w1 = 4 ->
  exists w2,
    changethresholds (lib := scipy_pyaudio) 1 (1 # 2) 0 w1 = (Ok tt, w2).
Proof.
  intro Hfs.
  destruct (calc_settings_succeeds (lib := scipy_pyaudio)
              (set_alpha (stored_alpha 0)
                 (set_dt (1 # 2) (set_fftwindow (stored_window 1) w1)))
              tukey_window_ok) as [w2 H2].
  { unfold derived_N.
    change (fs (set_alpha (stored_alpha 0)
                  (set_dt (1 # 2) (set_fftwindow (stored_window 1) w1))))
      with (fs w1).
    rewrite Hfs. vm_compute. reflexivity. }
  exists w2.
  rewrite (changethresholds_unfold (lib := scipy_pyaudio)). exact H2.
Qed.

Lemma demo_reconfigured :
  exists w2,
    changethresholds (lib := scipy_pyaudio) 1 (1 # 2) 0
      (snd (changethresholds (lib := scipy_pyaudio)
              (1 # 2) (1 # 4) 0 demo_file)) = (Ok tt, w2).
Proof.
  apply reconfigure_succeeds. vm_compute. reflexivity.
Qed.

Lemma demo_settled_by_changethresholds :
  changethresholds (lib := scipy_pyaudio) 1 (1 # 2) 0 demo_file
    = (Ok tt, demo_settled).
Proof.
  rewrite (changethresholds_unfold (lib := scipy_pyaudio)).
  exact demo_settled_by_calc_settings.
Qed.

Lemma changethresholds_last_call_wins_witness :
  exists w2 w2',
    changethresholds (lib := scipy_pyaudio) 1 (1 # 2) 0
      (snd (changethresholds (lib := scipy_pyaudio)
              (1 # 2) (1 # 4) 0 demo_file)) = (Ok tt, w2) /\
    changethresholds (lib := scipy_pyaudio) 1 (1 # 2) 0 demo_file
      = (Ok tt, w2') /\
    (fftwindow w2 = fftwindow w2' /\ dt w2 = dt w2' /\ alpha w2 = alpha w2' /\
     N w2 = N w2' /\ df w2 = df w2' /\ freqs_all w2 = freqs_all w2' /\
     keepind w2 = keepind w2' /\ freqs w2 = freqs w2' /\
     taperlen w2 = taperlen w2').
Proof.
  destruct demo_reconfigured as [w2 Hc2].
  exists w2, demo_settled.
  split; [exact Hc2|]. split; [exact demo_settled_by_changethresholds|].
  exact (changethresholds_last_call_wins scipy_pyaudio
           (1 # 2) (1 # 4) 0 1 (1 # 2) 0 demo_file
           (snd (changethresholds (lib := scipy_pyaudio)
                   (1 # 2) (1 # 4) 0 demo_file))
           w2 demo_settled
           eq_refl Hc2 demo_settled_by_changethresholds).
Defined.

(** ** The estimator on a window of the wrong length *)

Lemma dofft_rejects (lib : Lib) (pcm : list Z) (w : worker) :
  tukey_ok lib -> settled w ->
  pcm <> [] -> Z.of_nat (List.length pcm) <> N w ->
  exists tp,
    dofft pcm w = (Raise IndexError, set_taper tp w) /\
    (Qltb 0 (alpha w) = false -> tp = taper w) /\
    (Qltb 0 (alpha w) = true -> List.length tp = List.length pcm).
Proof.
  intros Htk (Hpos & Hmask & Htap) Hne Hlen.
  assert (Hx : forall x : list R, List.length x = List.length pcm ->
            exists X, fft x = Some X /\ List.length X = List.length pcm).
  { intros x Hxl. destruct x as [|r x].
    - destruct pcm; [congruence | discriminate Hxl].
    - eexists. split; [reflexivity|].
      rewrite length_map, length_seq. exact Hxl. }
  assert (Hm : forall sp : list fval, List.length sp = List.length pcm ->
            np_mask sp (keepind w) = None).
  { intros sp Hsp. unfold np_mask.
    destruct (Nat.eqb (List.length sp) (List.length (keepind w))) eqn:E;
      [|reflexivity].
    apply Nat.eqb_eq in E. exfalso. apply Hlen. lia. }
  unfold dofft. monad_unfold. cbn [fst snd].
  destruct (Qltb 0 (alpha w)) eqn:Ea.
  - destruct (Htap eq_refl) as [Htl _].
    destruct (Z.of_nat (List.length pcm) =? taperlen w) eqn:E;
      [apply Z.eqb_eq in E; congruence|].
    destruct (Htk (Z.of_nat (List.length pcm)) (alpha w)) as (tp & Ht & Htpl);
      [lia|].
    rewrite Nat2Z.id in Htpl.
    rewrite Ht. cbn [fst snd].
    change (taper (set_taper tp w)) with tp.
    unfold np_mul. rewrite length_map, Htpl, Nat.eqb_refl.
    destruct (Hx (map (fun p => (fst p * snd p)%R)
                    (combine (map IZR pcm) tp))) as (X & HX & HXl).
    { rewrite length_map, length_combine, length_map, Htpl. lia. }
    rewrite HX. rewrite Hm by (rewrite !length_map; exact HXl).
    exists tp. split; [reflexivity|].
    split; [discriminate | intros _; exact Htpl].
  - destruct (Hx (map IZR pcm)) as (X & HX & HXl);
      [apply length_map|].
    rewrite HX. rewrite Hm by (rewrite !length_map; exact HXl).
    exists (taper w). split; [destruct w; reflexivity|].
    split; [reflexivity | discriminate].
Qed.

(** X4. A non-empty window whose length is not [N] makes [dofft] raise
    [IndexError] at the mask.  Without a taper the call changes nothing;
    with a taper, the cached taper has by then been replaced by one of the
    window's length, while [taperlen] still records [N]. *)
Theorem dofft_wrong_length (lib : Lib) (pcm : list Z) (w : worker) :
  tukey_ok lib -> settled w ->
  pcm <> [] -> Z.of_nat (List.length pcm) <> N w ->
  exists w',
    dofft pcm w = (Raise IndexError, w') /\
    signals w' = signals w /\ taperlen w' = taperlen w /\
    (Qltb 0 (alpha w) = false -> w' = w) /\
    (Qltb 0 (alpha w) = true ->
     List.length (taper w') = List.length pcm).
Proof.
  intros Htk Hs Hne Hlen.
  destruct (dofft_rejects lib pcm w Htk Hs Hne Hlen) as (tp & Hd & H0 & H1).
  exists (set_taper tp w). split; [exact Hd|].
  split; [reflexivity|]. split; [reflexivity|]. split.
  - intro Ha. rewrite (H0 Ha). destruct w. reflexivity.
  - exact H1.
Qed.

Lemma dofft_wrong_length_witness :
  exists w',
    dofft (lib := scipy_pyaudio) [1; 2; 3] demo_tapered
      = (Raise IndexError, w') /\
    signals w' = signals demo_tapered /\
    taperlen w' = taperlen demo_tapered /\
    (Qltb 0 (alpha demo_tapered) = false -> w' = demo_tapered) /\
    (Qltb 0 (alpha demo_tapered) = true ->
     List.length (taper w') = List.length [1; 2; 3]).
Proof.
  apply (dofft_wrong_length scipy_pyaudio [1; 2; 3] demo_tapered).
  - exact tukey_window_ok.
  - unfold settled. split; [reflexivity|]. split; [reflexivity|].
    intros _. split; reflexivity.
  - discriminate.
  - vm_compute. discriminate.
Defined.

(** ** The rolling buffer of a device source *)

Lemma skipn_app_le {A : Type} (n : nat) (l1 l2 : list A) :
  (n <= List.length l1)%nat -> skipn n (l1 ++ l2) = (skipn n l1 ++ l2)%list.
Proof.
  intro H. rewrite skipn_app.
  replace (n - List.length l1)%nat with 0%nat by lia. reflexivity.
Qed.

(** X5. A delivery of the hardware callback to a running worker: the first
    [nframes] entries leave the buffer, the delivery is appended, and a
    tail read of the delivery's length gives the delivery back.  The
    buffer keeps its length when the delivery has [nframes] entries, and
    grows when it has more. *)
Theorem updateaudiobuffer_rolls (b : list Z) (n : Z) (w : worker) :
  isrunning w = true ->
  0 <= n <= Z.of_nat (List.length (audiostream w)) ->
  let w' := updateaudiobuffer b n w in
  audiostream w' = (skipn (Z.to_nat n) (audiostream w) ++ b)%list /\
  Z.of_nat (List.length (audiostream w')) =
    Z.of_nat (List.length (audiostream w)) + Z.of_nat (List.length b) - n /\
  (b <> [] -> tail_slice (Z.of_nat (List.length b)) (audiostream w') = b) /\
  signals w' = signals w /\ N w' = N w.
Proof.
  intros Hrun Hn. cbv zeta. unfold updateaudiobuffer. rewrite Hrun.
  unfold slice_bound.
  destruct (n <? 0) eqn:E; [apply Z.ltb_lt in E; lia|].
  assert (Ha : audiostream
                 (set_audiostream
                    (skipn (Z.to_nat n) (audiostream w ++ b)) w)
               = (skipn (Z.to_nat n) (audiostream w) ++ b)%list).
  { change (skipn (Z.to_nat n) (audiostream w ++ b)
            = (skipn (Z.to_nat n) (audiostream w) ++ b)%list).
    apply skipn_app_le. lia. }
  rewrite Ha. split; [reflexivity|]. split; [|split; [|split; reflexivity]].
  - rewrite length_app, length_skipn. lia.
  - intro Hb. unfold tail_slice, slice_bound.
    rewrite length_app, length_skipn.
    assert (Hlb : (0 < List.length b)%nat).
    { destruct b; [congruence | cbn; lia]. }
    destruct (- Z.of_nat (List.length b) <? 0) eqn:E';
      [|apply Z.ltb_ge in E'; lia].
    replace (Z.to_nat (Z.max 0 (- Z.of_nat (List.length b) +
               Z.of_nat (List.length (audiostream w) - Z.to_nat n
                         + List.length b))))
      with (List.length (skipn (Z.to_nat n) (audiostream w)))
      by (rewrite length_skipn; lia).
    rewrite skipn_app, skipn_all, Nat.sub_diag. reflexivity.
Qed.

Lemma updateaudiobuffer_rolls_witness :
  let w := set_audiostream [1; 2; 3; 4] demo_device in
  let w' := updateaudiobuffer [5; 6] 2 w in
  audiostream w' = (skipn (Z.to_nat 2) (audiostream w) ++ [5; 6])%list /\
  Z.of_nat (List.length (audiostream w')) =
    Z.of_nat (List.length (audiostream w)) + Z.of_nat (List.length [5; 6]) - 2
  /\
  ([5; 6] <> [] ->
   tail_slice (Z.of_nat (List.length [5; 6])) (audiostream w') = [5; 6]) /\
  signals w' = signals w /\ N w' = N w.
Proof.
  apply (updateaudiobuffer_rolls [5; 6] 2
           (set_audiostream [1; 2; 3; 4] demo_device)).
  - reflexivity.
  - change (0 <= 2 <= Z.of_nat (List.length [1; 2; 3; 4])). cbn. lia.
Defined.

(** ** Start-up and stop of [run] *)

Section StartStop.

Context {lib : Lib}.

Lemma terminate_no_stream (r : Z) (w : worker) :
  fromAudio w = false -> stream w = NoStream ->
  terminate r w = (Raise AttributeError, set_isrunning false (set_reason r w)).
Proof.
  intros Hf Hs. destruct w. cbn in Hf, Hs. subst.
  unfold terminate. fields. reflexivity.
Qed.

Lemma barrier_times_out (w : worker) :
  isrunning w = false -> reason w = 0 ->
  forall (polls : nat) (c : Z),
    0 <= c -> c + Z.of_nat polls = 101 -> (0 < polls)%nat ->
    barrier polls c w = bind (terminate 3) (fun _ => ret (Some false)) w.
Proof.
  intros Hi Hr. induction polls as [|p IH]; intros c Hc Hsum Hp; [lia|].
  cbn [barrier]. unfold bind at 1. unfold get at 1. rewrite Hi, Hr.
  cbn [Z.eqb negb].
  destruct (100 <? c + 1) eqn:E; [reflexivity|].
  apply Z.ltb_ge in E. apply IH; lia.
Qed.

Lemma apply_events_abort (es : list event) (w : worker) :
  In Abort es -> isrunning (apply_events es w) = false.
Proof.
  intro H. apply in_split in H. destruct H as (es1 & es2 & ->).
  unfold apply_events. rewrite fold_left_app. cbn [fold_left apply_event].
  apply (apply_events_not_running es2). unfold abort.
  destruct (terminate_effect 0 (fold_left (fun w e => apply_event e w) es1 w))
    as (_ & Hi & _). exact Hi.
Qed.

End StartStop.

(** X6. The input stream cannot be opened: [run] calls [terminate(2)], which
    stops at the stream that was never assigned.  [run] ends with
    [AttributeError]; the reason 2 is stored and [isrunning] is clear, but
    no termination is notified and no spectral record is emitted. *)
Theorem run_stream_failure (lib : Lib) (E : env) (ticks : list tick)
    (w : worker) :
  isrunning w = true -> reason w = 0 -> fromAudio w = false ->
  stream w = NoStream -> stream_opens E = false ->
  fst (changethresholds (fftwindow w) (dt w) (alpha w) w) = Ok tt ->
  let out := run E ticks w in
  fst out = Raise AttributeError /\
  reason (snd out) = 2 /\ isrunning (snd out) = false /\
  terminations (signals (snd out)) = terminations (signals w) /\
  records (signals (snd out)) = records (signals w).
Proof.
  intros Hi Hr Hf Hs Ho Hc. cbv zeta.
  destruct (changethresholds_effect (fftwindow w) (dt w) (alpha w) w)
    as (_ & _ & Hg & Hrec).
  cbv zeta in Hg, Hrec.
  assert (Hst : stream (snd (changethresholds (fftwindow w) (dt w) (alpha w) w))
                = stream w /\
                terminations
                  (signals (snd (changethresholds (fftwindow w) (dt w)
                                   (alpha w) w)))
                = terminations (signals w)).
  { rewrite changethresholds_unfold.
    set (w3 := set_alpha _ _).
    pose proof (calc_settings_inputs w3) as Hin.
    destruct (calc_settings_records w3) as [_ Ht].
    split; [|exact Ht].
    apply (f_equal snd) in Hin. exact Hin. }
  destruct Hst as [Hst Hter].
  destruct (changethresholds (fftwindow w) (dt w) (alpha w) w)
    as [r wcs] eqn:Hch.
  cbn [fst snd] in Hc, Hg, Hrec, Hst, Hter. subst r.
  destruct (grid_of_fields w wcs Hg) as (_ & _ & Hfa & _ & _).
  assert (Ht : terminate 2 (set_maxnum 0 wcs) =
               (Raise AttributeError,
                set_isrunning false (set_reason 2 (set_maxnum 0 wcs)))).
  { apply terminate_no_stream.
    - change (fromAudio wcs = false). congruence.
    - change (stream wcs = NoStream). congruence. }
  assert (Hrun : run E ticks w =
                 (Raise AttributeError,
                  set_isrunning false (set_reason 2 (set_maxnum 0 wcs)))).
  { unfold run. cbn [barrier].
    unfold bind at 1. unfold bind at 1. unfold get at 1. rewrite Hi.
    unfold ret at 1. unfold bind at 1. unfold get at 1.
    cbn [negb]. rewrite Hr. cbn [Z.eqb negb].
    unfold bind at 1. rewrite Hch.
    unfold bind at 1. unfold get at 1.
    unfold bind at 1.
    replace (fromAudio wcs) with false by congruence.
    unfold bind at 1. unfold modify at 1. rewrite Ho, Ht. reflexivity. }
  rewrite Hrun. cbn [fst snd].
  split; [reflexivity|]. split; [reflexivity|]. split; [reflexivity|].
  split; [exact Hter | exact Hrec].
Qed.

Lemma run_stream_failure_witness :
  let out :=
    run (lib := scipy_pyaudio)
      (mkEnv (fun _ => false) (fun _ => None) (fun _ => Some (4 # 1)) false)
      [mkTick [] 1] demo_device in
  fst out = Raise AttributeError /\
  reason (snd out) = 2 /\ isrunning (snd out) = false /\
  terminations (signals (snd out)) = terminations (signals demo_device) /\
  records (signals (snd out)) = records (signals demo_device).
Proof.
  apply (run_stream_failure scipy_pyaudio
           (mkEnv (fun _ => false) (fun _ => None) (fun _ => Some (4 # 1))
                  false)
           [mkTick [] 1] demo_device); reflexivity.
Defined.

(** X7. [run] on a file-backed worker whose [isrunning] is clear and whose
    reason is still 0 waits through its 101 polls, then stores reason 3,
    notifies the termination once and returns without entering the
    loop. *)
Theorem run_startup_timeout (lib : Lib) (E : env) (ticks : list tick)
    (w : worker) :
  isrunning w = false -> reason w = 0 -> fromAudio w = true ->
  run E ticks w =
    (Ok tt,
     set_signals (signals w ++ [Terminated (tabID w) 3])
       (set_isrunning false (set_reason 3 w))).
Proof.
  intros Hi Hr Hf. unfold run. unfold bind at 1.
  rewrite (barrier_times_out w Hi Hr 101 0) by lia.
  unfold bind at 1. rewrite (terminate_file 3 w Hf). reflexivity.
Qed.

Lemma run_startup_timeout_witness :
  run (lib := scipy_pyaudio) demo_env [mkTick [] 0]
      (set_isrunning false demo_file) =
    (Ok tt,
     set_signals
       (signals (set_isrunning false demo_file) ++
        [Terminated (tabID (set_isrunning false demo_file)) 3])
       (set_isrunning false (set_reason 3 (set_isrunning false demo_file)))).
Proof.
  apply (run_startup_timeout scipy_pyaudio demo_env [mkTick [] 0]
           (set_isrunning false demo_file)); reflexivity.
Defined.

(** X8. A stop request ([abort]) that arrives before a turn ends the loop at
    that turn, whatever else happened meanwhile and however many turns
    were still to come: [run]'s loop returns normally, and no spectral
    record is added. *)
Theorem abort_stops_loop (lib : Lib) (t : tick) (ticks : list tick) (i : Z)
    (w : worker) :
  In Abort (before t) ->
  loop (t :: ticks) i w = (Ok tt, apply_events (before t) w) /\
  isrunning (apply_events (before t) w) = false /\
  records (signals (apply_events (before t) w)) = records (signals w).
Proof.
  intro H. pose proof (apply_events_abort (before t) w H) as Hi.
  split; [|split; [exact Hi | apply apply_events_grid]].
  rewrite loop_step. cbv zeta. rewrite Hi. reflexivity.
Qed.

Lemma abort_stops_loop_witness :
  loop (lib := scipy_pyaudio)
    (mkTick [Callback [] 0; Abort] 1 :: [mkTick [] 2; mkTick [] 3]) 0
    demo_file_running
  = (Ok tt, apply_events (lib := scipy_pyaudio)
              (before (mkTick [Callback [] 0; Abort] 1)) demo_file_running) /\
  isrunning (apply_events (lib := scipy_pyaudio)
               (before (mkTick [Callback [] 0; Abort] 1)) demo_file_running)
    = false /\
  records (signals (apply_events (lib := scipy_pyaudio)
                      (before (mkTick [Callback [] 0; Abort] 1))
                      demo_file_running))
    = records (signals demo_file_running).
Proof.
  apply (abort_stops_loop scipy_pyaudio (mkTick [Callback [] 0; Abort] 1)
           [mkTick [] 2; mkTick [] 3] 0 demo_file_running).
  cbn. auto.
Defined.

(** ** A file-backed run from the first grid time to the last *)

Lemma slice_length {A : Type} (a b : Z) (l : list A) :
  0 <= a <= b -> b <= Z.of_nat (List.length l) ->
  Z.of_nat (List.length (slice a b l)) = b - a.
Proof.
  intros Hab Hb. unfold slice, slice_bound.
  destruct (a <? 0) eqn:Ea; [apply Z.ltb_lt in Ea; lia|].
  destruct (b <? 0) eqn:Eb; [apply Z.ltb_lt in Eb; lia|].
  rewrite length_firstn, length_skipn. lia.
Qed.

Lemma quot_even_half (n : Z) :
  Z.even n = true -> 2 * Z.quot n 2 = n.
Proof.
  intro H. apply Z.even_spec in H. destruct H as [k ->].
  rewrite (Z.mul_comm 2 k), Z.quot_mul by lia. lia.
Qed.

Lemma file_window_length (i : Z) (t c : Q) (pcm : list Z) (w : worker) :
  fromAudio w = true -> 0 <= N w -> Z.even (N w) = true ->
  lensignal w <= Z.of_nat (List.length (audiostream w)) ->
  pull_pcm i t w = Some (c, Some pcm) ->
  Z.of_nat (List.length pcm) = N w.
Proof.
  intros Hf Hpos Hev Hlen. unfold pull_pcm. rewrite Hf.
  destruct (i <? maxnum w); [|discriminate].
  pose proof (quot_even_half (N w) Hev) as Hq.
  set (ctr := np_round _) in *. set (pm := Z.quot (N w) 2) in *.
  destruct ((0 <=? ctr - pm) && (ctr + pm <? lensignal w)) eqn:E;
    [|discriminate].
  apply andb_prop in E. destruct E as [E1 E2].
  apply Z.leb_le in E1. apply Z.ltb_lt in E2.
  intro H. injection H as _ Hp. subst pcm.
  rewrite slice_length; lia.
Qed.

(** X9. The window that a file source hands to the estimator has exactly [N]
    samples, for an even [N] that is not negative and a buffer as long as
    [lensignal] says. *)
Theorem file_window_has_N_samples (i : Z) (t c : Q) (pcm : list Z)
    (w : worker) :
  fromAudio w = true -> 0 <= N w -> Z.even (N w) = true ->
  lensignal w <= Z.of_nat (List.length (audiostream w)) ->
  pull_pcm i t w = Some (c, Some pcm) ->
  Z.of_nat (List.length pcm) = N w.
Proof.
  intros Hf Hpos Hev Hlen Hp.
  exact (file_window_length i t c pcm w Hf Hpos Hev Hlen Hp).
Qed.

Lemma file_window_has_N_samples_witness :
  Z.of_nat (List.length [1; 2; 3; 4]) = N demo_file_running.
Proof.
  apply (file_window_has_N_samples 1 0 (1 # 2) [1; 2; 3; 4]
           demo_file_running); try reflexivity.
  vm_compute. discriminate.
Defined.

Section FileRun.

Context {lib : Lib}.

(** The read of a file source does not look at the clock. *)
Lemma pull_pcm_file_clock (i : Z) (t t' : Q) (w : worker) :
  fromAudio w = true -> pull_pcm i t w = pull_pcm i t' w.
Proof. intro Hf. unfold pull_pcm. rewrite Hf. reflexivity. Qed.

Lemma grid_records_step (w : worker) (k n : nat) :
  (k < n)%nat ->
  grid_records w k (n - k) =
    (match pull_pcm (Z.of_nat k) 0 w with
     | Some (c, Some _) => [(Z.of_nat k, c)]
     | _ => []
     end ++ grid_records w (S k) (n - S k))%list.
Proof.
  intro H. unfold grid_records.
  replace (n - k)%nat with (S (n - S k)) by lia. reflexivity.
Qed.

(** From any grid index on, a running file-backed worker with its
    settings in place and no event from outside walks the rest of the
    grid, emits the record of every index at which its read gives a
    window, terminates with reason 0 and leaves the loop. *)
Lemma file_loop_completes : forall (ticks : list tick) (k : nat) (w : worker),
  isrunning w = true -> fromAudio w = true -> settled w ->
  Z.even (N w) = true ->
  lensignal w <= Z.of_nat (List.length (audiostream w)) ->
  Forall (fun t => before t = []) ticks ->
  Z.of_nat k <= maxnum w ->
  (Z.to_nat (maxnum w) - k < List.length ticks)%nat ->
  exists wf,
    loop ticks (Z.of_nat k - 1) w = (Ok tt, wf) /\
    isrunning wf = false /\ reason wf = 0 /\
    records (signals wf)
      = (records (signals w)
         ++ grid_records w k (Z.to_nat (maxnum w) - k))%list /\
    terminations (signals wf)
      = (terminations (signals w) ++ [(tabID w, 0)])%list.
Proof.
  induction ticks as [|t ticks IH];
    intros k w Hi Hf Hs Hev Hbuf Hev0 Hk Hticks;
    [cbn in Hticks; lia|].
  inversion Hev0 as [|t0 ticks0 Hb Hrest]; subst t0 ticks0.
  cbn [List.length] in Hticks.
  rewrite loop_step. cbv zeta. rewrite Hb.
  change (apply_events [] w) with w. rewrite Hi.
  replace (Z.of_nat k - 1 + 1) with (Z.of_nat k) by lia.
  destruct (Z.eq_dec (Z.of_nat k) (maxnum w)) as [Hkn|Hkn].
  - rewrite (cycle_grid_exhausted (Z.of_nat k) (now t) w Hf) by lia.
    eexists. split; [reflexivity|].
    split; [reflexivity|]. split; [reflexivity|].
    replace (Z.to_nat (maxnum w) - k)%nat with 0%nat by lia. split.
    + change (records (signals w ++ [Terminated (tabID w) 0])
              = (records (signals w) ++ [])%list).
      rewrite records_app. reflexivity.
    + change (terminations (signals w ++ [Terminated (tabID w) 0])
              = (terminations (signals w) ++ [(tabID w, 0)])%list).
      rewrite terminations_app. reflexivity.
  - assert (Hlt : (k < Z.to_nat (maxnum w))%nat) by lia.
    rewrite (grid_records_step w k _ Hlt).
    rewrite <- (pull_pcm_file_clock (Z.of_nat k) (now t) 0 w Hf).
    destruct (pull_pcm (Z.of_nat k) (now t) w) as [[c [pcm|]]|] eqn:Hp.
    + assert (Hpl : Z.of_nat (List.length pcm) = N w).
      { refine (file_window_length _ _ _ _ w Hf _ Hev Hbuf Hp).
        destruct Hs as [Hpos _]. lia. }
      rewrite (cycle_window _ _ _ w w _ _ Hp (dofft_settled w _ Hs Hpl)).
      match goal with
      | |- exists wf, loop ticks (Z.of_nat k) ?w2 = _ /\ _ =>
          destruct (IH (S k) w2) as (wf & Hl & Hir & Hre & Hrc & Htm);
            try assumption;
            try (change (maxnum w2) with (maxnum w); lia)
      end.
      replace (Z.of_nat (S k) - 1) with (Z.of_nat k) in Hl by lia.
      exists wf. split; [exact Hl|]. split; [exact Hir|]. split; [exact Hre|].
      split.
      * rewrite Hrc.
        match goal with
        | |- (records (signals (set_signals ?s _)) ++ ?g)%list = _ =>
            change (records (signals (set_signals s w))) with (records s);
            change g with (grid_records w (S k) (Z.to_nat (maxnum w) - S k))
        end.
        rewrite records_app, <- app_assoc. reflexivity.
      * rewrite Htm.
        match goal with
        | |- (terminations (signals (set_signals ?s _)) ++ _)%list = _ =>
            change (terminations (signals (set_signals s w)))
              with (terminations s)
        end.
        rewrite terminations_app, app_nil_r. reflexivity.
    + rewrite (cycle_no_window _ _ _ w Hp).
      destruct (IH (S k) w) as (wf & Hl & Hir & Hre & Hrc & Htm);
        try assumption; try lia.
      replace (Z.of_nat (S k) - 1) with (Z.of_nat k) in Hl by lia.
      exists wf. split; [exact Hl|]. split; [exact Hir|]. split; [exact Hre|].
      split; [rewrite Hrc; reflexivity | exact Htm].
    + apply pull_pcm_none in Hp. destruct Hp as [_ Hp]. lia.
Qed.

End FileRun.



Example demo_grid_records :
  grid_records demo_file_running 0 (Z.to_nat (maxnum demo_file_running))
    = [(1, 1 # 2); (2, 2 # 2)].
Proof. reflexivity. Qed.

(** ** Every turn of a device source *)

(** X11. A running device-backed worker with its settings in place, a buffer
    of at least [N] entries and nothing from outside but deliveries of
    the callback that bring at least as many items as they remove: every
    turn of the loop emits its record (none is skipped, none fails), with
    consecutive indices and the clock reading of the turn; the worker is
    still running afterwards, has notified no termination, and its buffer
    is no shorter. *)
Theorem device_loop_emits_every_turn (lib : Lib) (ticks : list tick) (i : Z)
    (w : worker) :
  isrunning w = true -> fromAudio w = false -> settled w ->
  N w <= Z.of_nat (List.length (audiostream w)) ->
  Forall (fun t => Forall good_delivery (before t)) ticks ->
  exists wf,
    loop ticks i w = (Ok tt, wf) /\ isrunning wf = true /\
    records (signals wf)
      = (records (signals w) ++ device_records (starttime w) (i + 1) ticks)%list
    /\
    terminations (signals wf) = terminations (signals w) /\
    (List.length (audiostream w) <= List.length (audiostream wf))%nat.
Proof.
  intros Hi Hf Hs Hbuf Hg.
  exact (device_loop_records ticks i w Hi Hf Hs Hbuf Hg).
Qed.

Lemma device_loop_emits_every_turn_witness :
  exists wf,
    loop (lib := scipy_pyaudio)
      [mkTick [Callback [1; 2; 3; 4] 2] 1; mkTick [] 2] (-1)
      demo_device_running = (Ok tt, wf) /\
    isrunning wf = true /\
    records (signals wf)
      = (records (signals demo_device_running) ++
         device_records (starttime demo_device_running) (-1 + 1)
           [mkTick [Callback [1; 2; 3; 4] 2] 1; mkTick [] 2])%list /\
    terminations (signals wf) = terminations (signals demo_device_running) /\
    (List.length (audiostream demo_device_running)
     <= List.length (audiostream wf))%nat.
Proof.
  destruct demo_device_started
    as (w1 & Hrun & Hf & Hi & Hs & HN & _ & Ha & _).
  assert (Hw : demo_device_running = w1).
  { unfold demo_device_running. rewrite Hrun. reflexivity. }
  rewrite Hw.
  apply (device_loop_emits_every_turn scipy_pyaudio
           [mkTick [Callback [1; 2; 3; 4] 2] 1; mkTick [] 2] (-1) w1
           Hi Hf Hs).
  - rewrite Ha, HN. apply buffer_len_holds. lia.
  - repeat constructor; cbn; lia.
Defined.

(** ** The constructor *)

Section Constructor.

Context {lib : Lib}.

Lemma init_file (E : env) (ch : Z) (path : string) (rate : Z) (d : wavdata)
    (a : list Z) (tab : Z) (start f d' al : Q) :
  file_exists E path = true -> wav_read E path = Some (rate, d) ->
  select_channel ch d = Some a ->
  init E (FileSource ch path) tab start f d' al =
    (Ok tt,
     set_isrunning true
       (set_lensignal (Z.of_nat (List.length a))
          (set_audiostream a
             (set_fs rate
                (set_fromAudio true (new_worker tab start f d' al)))))).
Proof.
  intros He Hr Hs. unfold init, init_body. monad_unfold.
  rewrite He. cbn [negb]. rewrite Hr. cbn [fst snd]. rewrite Hs. reflexivity.
Qed.

(** The worker with which a file-backed [run] enters its loop: the
    settings of [changethresholds] stored, the grid recorded with its
    length, the source as the constructor left it. *)
Lemma loop_entry_file (E : env) (w w1 : worker) :
  tukey_ok lib -> fromAudio w = true -> 0 < fs w ->
  loop_entry E w = Some w1 -> 0 < N w1 ->
  settled w1 /\ Z.even (N w1) = true /\
  isrunning w1 = true /\ fromAudio w1 = true /\
  audiostream w1 = audiostream w /\ lensignal w1 = lensignal w /\
  tabID w1 = tabID w /\
  maxnum w1 = Z.of_nat (List.length (sampletimes w1)) /\
  records (signals w1) = records (signals w) /\
  terminations (signals w1) = terminations (signals w).
Proof.
  intros Htk Hf Hfs. unfold loop_entry.
  destruct (isrunning w) eqn:Hi; [|discriminate].
  destruct (reason w =? 0); [|discriminate]. cbn [andb].
  rewrite changethresholds_unfold.
  set (w3 := set_alpha (stored_alpha (alpha w))
               (set_dt (dt w) (set_fftwindow (stored_window (fftwindow w)) w))).
  pose proof (calc_settings_inputs w3) as Hin.
  pose proof (calc_settings_grid w3) as Hg.
  destruct (calc_settings_records w3) as [Hrec Hter].
  destruct (calc_settings w3) as [[[]|e] wc] eqn:Hcs; [|discriminate].
  cbn [snd] in Hin, Hg, Hrec, Hter.
  destruct (grid_of_fields w3 wc Hg) as (Htab & _ & Hfa & _ & _).
  change (fromAudio w3) with (fromAudio w) in Hfa.
  change (tabID w3) with (tabID w) in Htab.
  rewrite Hfa, Hf.
  destruct (fs wc =? 0); [discriminate|].
  destruct (arange _ (dt wc)) as [st|]; [|discriminate].
  intro H. injection H as H. subst w1. intro HN.
  change (0 < N wc) in HN.
  destruct (calc_settings_settled w3 wc Htk Hfs Hcs HN) as (Hs & _).
  destruct (calc_settings_fields w3 wc Hcs) as (HNw & _).
  split; [exact Hs|].
  split; [change (Z.even (N wc) = true); rewrite HNw; apply derived_N_even|].
  split.
  { change (isrunning wc = true). rewrite <- Hi.
    exact (f_equal (fun t => snd (fst (fst (fst (fst (fst t)))))) Hin). }
  split; [change (fromAudio wc = true); congruence|].
  split; [exact (f_equal (fun t => snd (fst (fst t))) Hin)|].
  split; [exact (f_equal (fun t => snd (fst t)) Hin)|].
  split; [exact Htab|].
  split; [reflexivity|].
  split; [exact Hrec | exact Hter].
Qed.

End Constructor.

(** X12. An unrecognised data source: the constructor calls [terminate(1)],
    which, the worker not being file-backed, stops at the stream that was
    never assigned.  The constructor raises [AttributeError]; reason 1 is
    stored, [isrunning] stays clear and no termination is notified. *)
Theorem init_unknown_source (lib : Lib) (E : env) (tab : Z)
    (start f d a : Q) :
  let out := init E OtherSource tab start f d a in
  fst out = Raise AttributeError /\
  reason (snd out) = 1 /\ isrunning (snd out) = false /\
  signals (snd out) = [].
Proof.
  cbv zeta. unfold init, init_body. unfold bind at 1.
  rewrite (terminate_no_stream 1 (new_worker tab start f d a))
    by reflexivity.
  repeat split.
Qed.

(** X13. Asking for a channel that the file does not have (any positive
    channel of a one-channel file, or one beyond the last of a file with
    several) makes the constructor raise [IndexError]: the worker is not
    running, holds reason 0 and has notified nothing. *)
Theorem init_channel_out_of_range (lib : Lib) (E : env) (ch : Z)
    (path : string) (rate : Z) (d : wavdata) (tab : Z) (start f d' al : Q) :
  file_exists E path = true -> wav_read E path = Some (rate, d) ->
  0 < ch ->
  match d with
  | Mono _ => True
  | Multi chans => Z.of_nat (List.length chans) < ch
  end ->
  let out := init E (FileSource ch path) tab start f d' al in
  fst out = Raise IndexError /\
  isrunning (snd out) = false /\ reason (snd out) = 0 /\
  signals (snd out) = [].
Proof.
  intros He Hr Hch Hd. cbv zeta.
  assert (Hs : select_channel ch d = None).
  { unfold select_channel.
    destruct (0 <? ch) eqn:E0; [|apply Z.ltb_ge in E0; lia].
    destruct d as [l|chans]; [reflexivity|].
    apply nth_error_None. lia. }
  unfold init, init_body. monad_unfold.
  rewrite He. cbn [negb]. rewrite Hr. cbn [fst snd]. rewrite Hs.
  repeat split.
Qed.

Lemma init_channel_out_of_range_witness :
  let out := init (lib := scipy_pyaudio) demo_env (FileSource 1 "a.wav")
               7 0 1 (1 # 2) 0 in
  fst out = Raise IndexError /\
  isrunning (snd out) = false /\ reason (snd out) = 0 /\
  signals (snd out) = [].
Proof.
  apply (init_channel_out_of_range scipy_pyaudio demo_env 1 "a.wav" 4
           (Mono [1; 2; 3; 4; 5; 6; 7; 8]) 7 0 1 (1 # 2) 0).
  - reflexivity.
  - reflexivity.
  - lia.
  - exact I.
Defined.


(** The demonstration file reaches its loop with [N = 4] and a grid of
    four times; the reads at the indices 1 and 2 give a window. *)
Example demo_file_lifecycle :
  match loop_entry (lib := scipy_pyaudio) demo_env demo_file with
  | Some w1 =>
      N w1 = 4 /\ maxnum w1 = 4 /\
      grid_records w1 0 (Z.to_nat (maxnum w1)) = [(1, 1 # 2); (2, 2 # 2)]
  | None => False
  end.
Proof. vm_compute. repeat split. Qed.


(** ** The list of input devices *)

Lemma scan_devices_spec (h : pa_host) (ixs : list Z) :
  forall miclist indices,
    scan_devices h ixs = Some (miclist, indices) ->
    indices =
      filter (fun i => match api0_input_channels h i with
                       | Some c => 0 <? c
                       | None => false
                       end) ixs /\
    map (device_name h) indices = map Some miclist.
Proof.
  induction ixs as [|i ixs IH]; intros ms ix H; cbn in H.
  - injection H as <- <-. split; reflexivity.
  - cbn [filter].
    destruct (api0_input_channels h i) as [c|]; [|discriminate H].
    destruct (0 <? c).
    + destruct (device_name h i) as [nm|] eqn:En; [|discriminate H].
      destruct (scan_devices h ixs) as [[ms' ix']|]; [|discriminate H].
      injection H as <- <-.
      destruct (IH ms' ix' eq_refl) as [Hix Hnm].
      split; [f_equal; exact Hix|]. cbn. rewrite En, Hnm. reflexivity.
    + apply IH. exact H.
Qed.

Lemma range_sorted (n : Z) :
  StronglySorted Z.lt (range n) /\ Forall (fun i => 0 <= i < n) (range n).
Proof.
  unfold range.
  assert (G : forall len start,
            StronglySorted Z.lt (map Z.of_nat (seq start len)) /\
            Forall (fun i => Z.of_nat start <= i < Z.of_nat (start + len))
                   (map Z.of_nat (seq start len))).
  { induction len as [|len IH]; intro start; cbn; [split; constructor|].
    destruct (IH (S start)) as [Hs Hf]. split.
    - constructor; [exact Hs|].
      eapply Forall_impl; [|exact Hf]. intros a Ha. cbn beta in Ha. lia.
    - constructor; [lia|].
      eapply Forall_impl; [|exact Hf]. intros a Ha. cbn beta in Ha. lia. }
  destruct (G (Z.to_nat n) 0%nat) as [Hs Hf]. split; [exact Hs|].
  eapply Forall_impl; [|exact Hf]. intros a Ha. cbn beta in Ha. lia.
Qed.

Lemma filter_sorted (p : Z -> bool) (l : list Z) :
  StronglySorted Z.lt l -> StronglySorted Z.lt (filter p l).
Proof.
  induction 1 as [|a l Hs IH Hf]; cbn; [constructor|].
  destruct (p a); [|exact IH].
  constructor; [exact IH|].
  rewrite Forall_forall in Hf |- *. intros x Hx.
  apply filter_In in Hx. apply Hf. tauto.
Qed.

(** X15. When [listaudiodevices] returns, the indices are those of the devices
    whose entry under host API 0 has input channels, in increasing order
    and within the device count, and the names are the names of the
    devices at these indices, one for each. *)
Theorem listaudiodevices_spec (h : pa_host) (miclist : list string)
    (indices : list Z) :
  listaudiodevices h = Some (miclist, indices) ->
  indices =
    filter (fun i => match api0_input_channels h i with
                     | Some c => 0 <? c
                     | None => false
                     end) (range (device_count h)) /\
  map (device_name h) indices = map Some miclist /\
  List.length miclist = List.length indices /\
  StronglySorted Z.lt indices /\
  Forall (fun i => 0 <= i < device_count h) indices.
Proof.
  intro H. unfold listaudiodevices in H.
  destruct (scan_devices_spec h _ _ _ H) as [Hix Hnm].
  destruct (range_sorted (device_count h)) as [Hs Hf].
  split; [exact Hix|]. split; [exact Hnm|]. split; [|split].
  - apply (f_equal (@List.length _)) in Hnm.
    rewrite !length_map in Hnm. symmetry. exact Hnm.
  - rewrite Hix. apply filter_sorted. exact Hs.
  - rewrite Hix. rewrite Forall_forall in Hf |- *. intros x Hx.
    apply filter_In in Hx. apply Hf. tauto.
Qed.

Lemma listaudiodevices_spec_witness :
  let h := mkHost 3
             (fun i => if i =? 1 then Some 0 else Some 2)
             (fun i => Some (if i =? 0 then "mic"%string else "line"%string)) in
  [0; 2] =
    filter (fun i => match api0_input_channels h i with
                     | Some c => 0 <? c
                     | None => false
                     end) (range (device_count h)) /\
  map (device_name h) [0; 2] = map Some ["mic"%string; "line"%string] /\
  List.length ["mic"%string; "line"%string] = List.length [0; 2] /\
  StronglySorted Z.lt [0; 2] /\
  Forall (fun i => 0 <= i < device_count h) [0; 2].
Proof.
  apply (listaudiodevices_spec
           (mkHost 3
              (fun i => if i =? 1 then Some 0 else Some 2)
              (fun i => Some (if i =? 0 then "mic"%string else "line"%string)))
           ["mic"%string; "line"%string] [0; 2]).
  reflexivity.
Defined.

(** ** A stop request *)

(** X17. The user presses stop ([abort]) between two turns of a file-backed
    run: the worker stores reason 0, notifies the termination once, and
    the loop ends at its next check without a further record or
    notification, whatever turns were still to come. *)
Theorem stop_request_file (lib : Lib) (c : Q) (ticks : list tick) (i : Z)
    (w : worker) :
  fromAudio w = true ->
  loop (mkTick [Abort] c :: ticks) i w =
    (Ok tt,
     set_signals (signals w ++ [Terminated (tabID w) 0])
       (set_isrunning false (set_reason 0 w))).
Proof.
  intro Hf. rewrite loop_step. cbv zeta.
  cbn [before apply_events fold_left apply_event]. unfold abort.
  rewrite (terminate_file 0 w Hf). reflexivity.
Qed.

Lemma stop_request_file_witness :
  loop (lib := scipy_pyaudio) (mkTick [Abort] 1 :: [mkTick [] 2]) 0
    demo_file_running =
    (Ok tt,
     set_signals
       (signals demo_file_running ++ [Terminated (tabID demo_file_running) 0])
       (set_isrunning false (set_reason 0 demo_file_running))).
Proof.
  apply (stop_request_file scipy_pyaudio 1 [mkTick [] 2] 0 demo_file_running).
  reflexivity.
Defined.

(** X18. The user presses stop ([abort]) between two turns of a
    device-backed run whose stream is open and closes without error: the
    worker stores reason 0, closes the stream and notifies the termination
    once, and the loop ends at its next check without a further record or
    notification. *)
Theorem stop_request_device (lib : Lib) (c : Q) (ticks : list tick) (i : Z)
    (w : worker) (s' : stream_state) :
  fromAudio w = false -> stream w = StreamOpen ->
  pa_stop_close StreamOpen = Some s' ->
  loop (mkTick [Abort] c :: ticks) i w =
    (Ok tt,
     set_signals (signals w ++ [Terminated (tabID w) 0])
       (set_stream s' (set_isrunning false (set_reason 0 w)))).
Proof.
  intros Hf Hs Hp. rewrite loop_step. cbv zeta.
  cbn [before apply_events fold_left apply_event]. unfold abort.
  assert (Ht : terminate 0 w =
               (Ok tt,
                set_signals (signals w ++ [Terminated (tabID w) 0])
                  (set_stream s' (set_isrunning false (set_reason 0 w))))).
  { destruct w. cbn in Hf, Hs. subst.
    unfold terminate. fields. rewrite Hp. reflexivity. }
  rewrite Ht. reflexivity.
Qed.

Lemma stop_request_device_witness :
  loop (lib := scipy_pyaudio) (mkTick [Abort] 1 :: [mkTick [] 2]) 0
    (set_stream StreamOpen (set_fromAudio false demo_settled)) =
    (Ok tt,
     set_signals
       (signals (set_stream StreamOpen (set_fromAudio false demo_settled)) ++
        [Terminated
           (tabID (set_stream StreamOpen (set_fromAudio false demo_settled)))
           0])
       (set_stream StreamClosed
          (set_isrunning false
             (set_reason 0
                (set_stream StreamOpen (set_fromAudio false demo_settled)))))).
Proof.
  apply (stop_request_device scipy_pyaudio 1 [mkTick [] 2] 0
           (set_stream StreamOpen (set_fromAudio false demo_settled))
           StreamClosed); reflexivity.
Defined.

(** ** The data source string, written and read back *)

Lemma str_length_append (a b : string) :
  String.length (a ++ b) = (String.length a + String.length b)%nat.
Proof. induction a as [|c a IH]; cbn; [reflexivity | rewrite IH; reflexivity]. Qed.

Lemma zeros_length (n : nat) : String.length (zeros n) = n.
Proof. induction n as [|n IH]; cbn; [reflexivity | rewrite IH; reflexivity]. Qed.

Lemma substring_prefix (a b : string) :
  substring 0 (String.length a) (a ++ b) = a.
Proof.
  induction a as [|c a IH]; cbn.
  - destruct b; reflexivity.
  - rewrite IH. reflexivity.
Qed.

Lemma str_from_append (a b : string) (n : nat) :
  str_from (String.length a + n) (a ++ b) = str_from n b.
Proof. induction a as [|c a IH]; cbn; [reflexivity | exact IH]. Qed.

Lemma to_int_nonneg (z : Z) :
  0 <= z -> exists d, Z.to_int z = Decimal.Pos d /\ d <> Decimal.Nil.
Proof.
  intro H. destruct z as [|p|p]; [| |lia].
  - exists Decimal.zero. split; [reflexivity | discriminate].
  - exists (Pos.to_uint p). split; [reflexivity|].
    apply Unsigned.to_uint_nonnil.
Qed.

Lemma uint_of_padded (k : nat) (d : Decimal.uint) :
  NilEmpty.uint_of_string (zeros k ++ NilEmpty.string_of_uint d)
  = Some (Nat.iter k Decimal.D0 d).
Proof.
  induction k as [|k IH]; cbn.
  - apply NilEmpty.usu.
  - rewrite IH. reflexivity.
Qed.

Lemma of_uint_padded (k : nat) (d : Decimal.uint) :
  Z.of_uint (Nat.iter k Decimal.D0 d) = Z.of_uint d.
Proof.
  induction k as [|k IH]; [reflexivity|]. cbn [Nat.iter]. exact IH.
Qed.

(** Leading zeros do not change what [int] reads. *)
Lemma py_int_padded (k : nat) (z : Z) :
  0 <= z -> py_int (zeros k ++ py_str z) = Some z.
Proof.
  intro H. destruct (to_int_nonneg z H) as (d & Hd & Hnil).
  pose proof (DecimalZ.of_to z) as Hz. rewrite Hd in Hz. cbn in Hz.
  unfold py_int, py_str. rewrite Hd. cbn [NilZero.string_of_int].
  assert (Hs : NilZero.string_of_uint d = NilEmpty.string_of_uint d)
    by (destruct d; [congruence | reflexivity..]).
  rewrite Hs.
  pose proof (uint_of_padded k d) as Hu.
  destruct (zeros k ++ NilEmpty.string_of_uint d)%string as [|c t] eqn:Et.
  - cbn in Hu. injection Hu as Hu. destruct k; cbn in Hu; [congruence|].
    discriminate Hu.
  - unfold NilZero.int_of_string.
    destruct (Ascii.eqb c "-") eqn:Ec.
    + apply Ascii.eqb_eq in Ec. subst c. cbn in Hu.
      destruct (NilEmpty.uint_of_string t); discriminate Hu.
    + unfold NilZero.uint_of_string. rewrite Hu. cbn [option_map].
      f_equal. cbn [Z.of_int]. rewrite of_uint_padded. exact Hz.
Qed.

Lemma py_int_str (z : Z) : py_int (py_str z) = Some z.
Proof.
  unfold py_int, py_str.
  rewrite NilZero.isi.
  - cbn [option_map]. f_equal. apply DecimalZ.of_to.
  - destruct z; cbn; try discriminate.
    intro H. injection H as H. exact (Unsigned.to_uint_nonnil _ H).
  - destruct z; cbn; try discriminate.
    intro H. injection H as H. exact (Unsigned.to_uint_nonnil _ H).
Qed.

(** X19. What [main.py] writes for a file source, [__init__] reads back: the
    string for a one-channel file gives channel 0 and the path, and the
    string for a chosen channel gives that channel and the path, for
    every channel number that is not negative and has at most five
    digits. *)
Theorem file_datasource_roundtrip (ch : Z) (fname : string) :
  0 <= ch -> (String.length (py_str ch) <= 5)%nat ->
  decode_datasource (channel_datasource ch fname)
    = Some (FileSource ch fname) /\
  decode_datasource (mono_datasource fname) = Some (FileSource 0 fname).
Proof.
  intros Hch Hlen. split; [|reflexivity].
  unfold channel_datasource, format_05d.
  destruct (ch <? 0) eqn:E; [apply Z.ltb_lt in E; lia|].
  set (pad := (zeros (5 - String.length (py_str ch)) ++ py_str ch)%string).
  assert (Hpl : String.length pad = 5%nat).
  { unfold pad. rewrite str_length_append, zeros_length. lia. }
  assert (Hint : py_int pad = Some ch) by (apply py_int_padded; exact Hch).
  assert (H3 : substring 0 3 ("AAA-" ++ pad ++ "-" ++ fname) = "AAA"%string)
    by reflexivity.
  assert (H4 : substring 4 5 ("AAA-" ++ pad ++ "-" ++ fname) = pad).
  { cbn [append substring]. rewrite <- Hpl. apply substring_prefix. }
  assert (H10 : str_from 10 ("AAA-" ++ pad ++ "-" ++ fname) = fname).
  { change 10%nat with (String.length "AAA-" + 6)%nat.
    rewrite str_from_append.
    replace 6%nat with (String.length pad + 1)%nat
      by (rewrite Hpl; reflexivity).
    rewrite str_from_append. reflexivity. }
  unfold decode_datasource. rewrite H3, H4, H10, Hint. reflexivity.
Qed.

Lemma file_datasource_roundtrip_witness :
  decode_datasource (channel_datasource 2 "a.wav")
    = Some (FileSource 2 "a.wav") /\
  decode_datasource (mono_datasource "a.wav") = Some (FileSource 0 "a.wav").
Proof.
  apply (file_datasource_roundtrip 2 "a.wav"); [lia | cbn; lia].
Defined.

(** X20. What [main.py] writes for a device, [__init__] reads back: the index
    of the device, whatever integer it is. *)
Theorem device_datasource_roundtrip (dataindex : Z) :
  decode_datasource (device_datasource dataindex)
    = Some (DeviceSource dataindex).
Proof.
  unfold device_datasource.
  assert (H3 : substring 0 3 ("MMM-" ++ py_str dataindex) = "MMM"%string)
    by reflexivity.
  assert (H4 : str_from 4 ("MMM-" ++ py_str dataindex) = py_str dataindex).
  { change 4%nat with (String.length "MMM-" + 0)%nat.
    rewrite str_from_append. reflexivity. }
  unfold decode_datasource. rewrite H3, H4, py_int_str. reflexivity.
Qed.

(** ** A device-backed worker from construction on *)

Section DeviceLife.

Context {lib : Lib}.

Lemma terminate_open_stream (r : Z) (w : worker) (s' : stream_state) :
  fromAudio w = false -> stream w = StreamOpen ->
  pa_stop_close StreamOpen = Some s' ->
  terminate r w =
    (Ok tt,
     set_signals (signals w ++ [Terminated (tabID w) r])
       (set_stream s' (set_isrunning false (set_reason r w)))).
Proof.
  intros Hf Hs Hp. destruct w. cbn in Hf, Hs. subst.
  unfold terminate. fields. rewrite Hp. reflexivity.
Qed.

Lemma cycle_dofft_raises (i : Z) (t c : Q) (w w' : worker) (pcm : list Z)
    (e : exn) :
  pull_pcm i t w = Some (c, Some pcm) -> dofft pcm w = (Raise e, w') ->
  cycle i t w = (Raise e, w').
Proof.
  intros Hp Hd. unfold cycle. monad_unfold. rewrite Hp, Hd. reflexivity.
Qed.

Lemma tail_slice_all {A : Type} (n : Z) (l : list A) :
  0 < n -> Z.of_nat (List.length l) <= n -> tail_slice n l = l.
Proof.
  intros Hn Hl. unfold tail_slice, slice_bound.
  destruct (- n <? 0) eqn:E; [|apply Z.ltb_ge in E; lia].
  replace (Z.max 0 (- n + Z.of_nat (List.length l))) with 0 by lia.
  reflexivity.
Qed.

(** What the call of [changethresholds] at the top of [run] leaves, for a
    positive rate and a positive derived length. *)
Lemma changethresholds_settles (w : worker) :
  tukey_ok lib -> 0 < fs w ->
  0 < derived_N (set_fftwindow (stored_window (fftwindow w)) w) ->
  exists wcs,
    changethresholds (fftwindow w) (dt w) (alpha w) w = (Ok tt, wcs) /\
    settled wcs /\
    N wcs = derived_N (set_fftwindow (stored_window (fftwindow w)) w) /\
    isrunning wcs = isrunning w /\ fromAudio wcs = fromAudio w /\
    audiostream wcs = audiostream w /\
    tabID wcs = tabID w /\ starttime wcs = starttime w /\
    records (signals wcs) = records (signals w) /\
    terminations (signals wcs) = terminations (signals w).
Proof.
  intros Htk Hfs HN.
  set (w3 := set_alpha (stored_alpha (alpha w))
               (set_dt (dt w) (set_fftwindow (stored_window (fftwindow w)) w))).
  assert (HN3 : derived_N w3
                = derived_N (set_fftwindow (stored_window (fftwindow w)) w))
    by reflexivity.
  destruct (calc_settings_succeeds w3 Htk ltac:(rewrite HN3; exact HN))
    as [wcs Hcs].
  exists wcs.
  destruct (calc_settings_fields w3 wcs Hcs) as (HNw & _).
  destruct (calc_settings_settled w3 wcs Htk Hfs Hcs
              ltac:(rewrite HNw, HN3; exact HN)) as (Hs & _).
  pose proof (calc_settings_inputs w3) as Hin. rewrite Hcs in Hin.
  cbn [snd] in Hin.
  pose proof (calc_settings_grid w3) as Hg. rewrite Hcs in Hg.
  cbn [snd] in Hg.
  destruct (calc_settings_records w3) as [Hrec Hter].
  rewrite Hcs in Hrec, Hter. cbn [snd] in Hrec, Hter.
  split; [rewrite changethresholds_unfold; exact Hcs|].
  split; [exact Hs|]. split; [rewrite HNw; exact HN3|].
  split; [exact (f_equal (fun t => snd (fst (fst (fst (fst (fst t)))))) Hin)|].
  split; [exact (f_equal (fun t => snd (fst (fst t))) Hg)|].
  split; [exact (f_equal (fun t => snd (fst (fst t))) Hin)|].
  split; [exact (f_equal (fun t => fst (fst (fst (fst t)))) Hg)|].
  split; [exact (f_equal (fun t => snd (fst (fst (fst t)))) Hg)|].
  split; [exact Hrec | exact Hter].
Qed.

End DeviceLife.

(** X21. From construction on, for a device.  A worker built on an input
    device of positive default rate whose stream opens, with a derived
    length [N] of at most the 100000 entries of the buffer, receiving only
    callback deliveries that bring at least as many items as they remove:
    the constructor returns, [run] passes every turn it is given, and the
    log then holds one record for each turn, with the indices 0, 1, 2, ...
    and the clock readings counted from [starttime], and no termination;
    the worker is still running. *)
Theorem device_worker_lifecycle (lib : Lib) (E : env) (idx : Z) (r : Q)
    (tab : Z) (start f d a : Q) (ticks : list tick) :
  tukey_ok lib ->
  default_rate E idx = Some r -> stream_opens E = true ->
  0 < np_round r ->
  0 < round_up_even (np_round (inject_Z (np_round r) * stored_window f))
    <= 100000 ->
  Forall (fun t => Forall good_delivery (before t)) ticks ->
  exists w wf,
    init E (DeviceSource idx) tab start f d a = (Ok tt, w) /\
    run E ticks w = (Ok tt, wf) /\
    isrunning wf = true /\
    records (signals wf) = device_records start 0 ticks /\
    terminations (signals wf) = [].
Proof.
  intros Htk Hr Ho Hrate HN Hg.
  pose proof (init_device E idx tab start f d a r Hr Hrate) as Hinit.
  set (w := set_isrunning true _) in Hinit.
  exists w.
  assert (HdN : derived_N (set_fftwindow (stored_window (fftwindow w)) w)
                = round_up_even
                    (np_round (inject_Z (np_round r) * stored_window f))).
  { rewrite derived_N_round_up. reflexivity. }
  destruct (changethresholds_settles w Htk Hrate ltac:(rewrite HdN; lia))
    as (wcs & Hc & Hs & HNw & Hi & Hf & Ha & Htab & Hst & Hrec & Hter).
  rewrite HdN in HNw.
  pose proof (run_enters_loop E ticks w wcs eq_refl eq_refl eq_refl Ho Hc)
    as Hrun.
  destruct (device_loop_records ticks (-1)
              (set_stream StreamOpen (set_maxnum 0 wcs)))
    as (wf & Hl & Hir & Hrc & Htm & _).
  - change (isrunning wcs = true). rewrite Hi. reflexivity.
  - change (fromAudio wcs = false). rewrite Hf. reflexivity.
  - exact Hs.
  - change (N wcs <= Z.of_nat (List.length (audiostream wcs))).
    rewrite Ha, HNw.
    change (audiostream w) with (repeat 0 buffer_len).
    apply buffer_len_holds. lia.
  - exact Hg.
  - exists wf. split; [exact Hinit|]. split.
    + rewrite Hrun. unfold try_except. rewrite Hl. reflexivity.
    + split; [exact Hir|].
      change (records (signals wf)
              = (records (signals wcs) ++
                 device_records (starttime wcs) 0 ticks)%list) in Hrc.
      change (terminations (signals wf) = terminations (signals wcs)) in Htm.
      rewrite Hrc, Htm, Hrec, Hter, Hst. split; reflexivity.
Qed.

Lemma device_worker_lifecycle_witness :
  exists w wf,
    init (lib := scipy_pyaudio) demo_env (DeviceSource 0) 7 0 1 (1 # 2) 0
      = (Ok tt, w) /\
    run (lib := scipy_pyaudio) demo_env
      [mkTick [] 1; mkTick [Callback [1; 2; 3; 4] 2] 2] w = (Ok tt, wf) /\
    isrunning wf = true /\
    records (signals wf)
      = device_records 0 0 [mkTick [] 1; mkTick [Callback [1; 2; 3; 4] 2] 2]
    /\
    terminations (signals wf) = [].
Proof.
  apply (device_worker_lifecycle scipy_pyaudio demo_env 0 (4 # 1) 7 0 1
           (1 # 2) 0 [mkTick [] 1; mkTick [Callback [1; 2; 3; 4] 2] 2]).
  - exact tukey_window_ok.
  - reflexivity.
  - reflexivity.
  - reflexivity.
  - vm_compute. split; [reflexivity | discriminate].
  - repeat constructor; cbn; lia.
Defined.

(** X22. A window longer than the buffer.  A device-backed worker whose
    derived length [N] exceeds the number of buffered entries gets, at its
    first turn, the whole buffer as its window; the estimator rejects it,
    the loop's handler catches the error, and [run] returns normally with
    reason 4 stored, [isrunning] clear, the stream closed, no spectral
    record and one termination notification [(tabID, 4)]. *)
Theorem run_window_longer_than_buffer (lib : Lib) (E : env) (t : tick)
    (ticks : list tick) (w : worker) (s' : stream_state) :
  tukey_ok lib ->
  isrunning w = true -> reason w = 0 -> fromAudio w = false ->
  stream_opens E = true -> pa_stop_close StreamOpen = Some s' ->
  0 < fs w -> audiostream w <> [] ->
  Z.of_nat (List.length (audiostream w))
    < derived_N (set_fftwindow (stored_window (fftwindow w)) w) ->
  before t = [] ->
  exists wf,
    run E (t :: ticks) w = (Ok tt, wf) /\
    reason wf = 4 /\ isrunning wf = false /\ stream wf = s' /\
    records (signals wf) = records (signals w) /\
    terminations (signals wf)
      = (terminations (signals w) ++ [(tabID w, 4)])%list.
Proof.
  intros Htk Hi Hr Hf Ho Hp Hfs Hne Hlen Hb.
  destruct (changethresholds_settles w Htk Hfs ltac:(lia))
    as (wcs & Hc & Hs & HNw & Hi' & Hf' & Ha & Htab & _ & Hrec & Hter).
  rewrite (run_enters_loop E (t :: ticks) w wcs Hi Hr Hf Ho Hc).
  set (w1 := set_stream StreamOpen (set_maxnum 0 wcs)).
  assert (Hf1 : fromAudio w1 = false) by (change (fromAudio wcs = false); congruence).
  assert (Hpull : pull_pcm (-1 + 1) (now t) w1
                  = Some ((now t - starttime w1)%Q, Some (audiostream w))).
  { rewrite (pull_pcm_device _ _ w1 Hf1).
    change (audiostream w1) with (audiostream wcs).
    change (N w1) with (N wcs). rewrite Ha.
    rewrite tail_slice_all by lia. reflexivity. }
  destruct (dofft_rejects lib (audiostream w) w1 Htk Hs Hne)
    as (tp & Hd & _).
  { change (N w1) with (N wcs). lia. }
  assert (Hloop : loop (t :: ticks) (-1) w1
                  = (Raise IndexError, set_taper tp w1)).
  { rewrite loop_step. cbv zeta. rewrite Hb.
    change (apply_events [] w1) with w1.
    change (isrunning w1) with (isrunning wcs). rewrite Hi', Hi.
    rewrite (cycle_dofft_raises _ _ _ w1 _ _ _ Hpull Hd). reflexivity. }
  unfold try_except. rewrite Hloop.
  unfold bind at 1. unfold modify at 1.
  rewrite (terminate_open_stream 4 (set_isrunning false (set_taper tp w1)) s')
    by (try exact Hp; try exact Hf1; reflexivity).
  eexists. split; [reflexivity|].
  split; [reflexivity|]. split; [reflexivity|]. split; [reflexivity|].
  split.
  - change (records (signals wcs ++ [Terminated (tabID wcs) 4])
            = records (signals w)).
    rewrite records_app, Hrec. apply app_nil_r.
  - change (terminations (signals wcs ++ [Terminated (tabID wcs) 4])
            = (terminations (signals w) ++ [(tabID w, 4)])%list).
    rewrite terminations_app, Hter, Htab. reflexivity.
Qed.

Lemma run_window_longer_than_buffer_witness :
  exists wf,
    run (lib := scipy_pyaudio) demo_env (mkTick [] 1 :: [mkTick [] 2])
      (set_audiostream [0; 0] demo_device) = (Ok tt, wf) /\
    reason wf = 4 /\ isrunning wf = false /\ stream wf = StreamClosed /\
    records (signals wf)
      = records (signals (set_audiostream [0; 0] demo_device)) /\
    terminations (signals wf)
      = (terminations (signals (set_audiostream [0; 0] demo_device)) ++
         [(tabID (set_audiostream [0; 0] demo_device), 4)])%list.
Proof.
  apply (run_window_longer_than_buffer scipy_pyaudio demo_env (mkTick [] 1)
           [mkTick [] 2] (set_audiostream [0; 0] demo_device) StreamClosed);
    try reflexivity.
  - exact tukey_window_ok.
  - change ([0; 0] <> ([] : list Z)). discriminate.
Defined.
